(** * Game API: session-authenticated progression engine

    A shallow embedding of [main.py] (FastAPI handlers over SQLAlchemy
    models) together with the properties of its progression engine,
    session manager and profile updater.

    Conventions of the embedding:
    - Python [int] is [Z] (unbounded); [str] is [string], holding the
      UTF-8 encoding of the text one byte per [ascii]: equality, prefixes
      and splitting at a blank are those of the text, and [Py.len] counts
      its characters.  [int()] and [str()] are modelled on ASCII text and
      without the interpreter's cap on the digits of a conversion
      ([sys.int_max_str_digits]); a property that depends on what [int()]
      rejects is stated for ASCII text, and the properties of committed
      balances for texts and sums within the cap;
    - [datetime] values are [Z] (microseconds on the UTC time line); the
      clock reading and the token drawn by [secrets] are inputs;
    - a table is the list of its rows in row-id order; [.first()] is the
      first matching row, [.get(pk)] the first row with that primary key;
      a query without [order_by] answers in the order SQLite walks the
      table or the index it uses;
    - a SQLAlchemy [Session] is a pair of database states, the committed
      one and the one being built by the current unit of work; with
      [autoflush=False] queries read the committed one;
    - the constraints of the schema (keys, [unique], foreign keys) are
      predicates on the database, assumed where a property relies on them
      and shown to be kept by the requests; [commit] fails, storing
      nothing, on what a handler can hand to the database against them:
      an integer beyond 64 bits, a level below 1, a session token already
      in use; [String(n)] lengths are not enforced (as in SQLite);
    - exceptions are values of [Exception]; handlers live in a
      state-and-exception monad over [Session]. *)

From Stdlib Require Import ZArith List String Ascii Bool Lia Permutation.
Import ListNotations.
Open Scope string_scope.
Open Scope Z_scope.
Open Scope list_scope.

Set Implicit Arguments.

(* ------------------------------------------------------------------ *)
(** ** Python builtins used by the handlers *)

Module Py.

Definition ord (c : ascii) : Z := Z.of_N (N_of_ascii c).

(** [Py_ISSPACE]: the characters [int()] skips around a literal. *)
Definition isspace (c : ascii) : bool :=
  let n := ord c in ((9 <=? n) && (n <=? 13)) || (n =? 32).

(** Value of a decimal digit character. *)
Definition digit_value (c : ascii) : option Z :=
  let n := ord c in
  if (48 <=? n) && (n <=? 57) then Some (n - 48) else None.

Definition digit_char (d : Z) : ascii := ascii_of_N (Z.to_N (48 + d)).

Fixpoint lstrip (s : string) : string :=
  match s with
  | String c rest => if isspace c then lstrip rest else s
  | EmptyString => s
  end.

Fixpoint all_space (s : string) : bool :=
  match s with
  | String c rest => isspace c && all_space rest
  | EmptyString => true
  end.

(** What the digit scanner of [int()] has just read. *)
Inductive prev := Start | Digit | Underscore.

(** The digit run of an integer literal in base 10: decimal digits,
    single underscores allowed between two digits only.  Returns the
    value read and the unread remainder. *)
Fixpoint scan (s : string) (p : prev) (acc : Z) : option (Z * string) :=
  match s with
  | String c rest =>
      match digit_value c with
      | Some d => scan rest Digit (10 * acc + d)
      | None =>
          if Ascii.eqb c "_"
          then match p with
               | Digit => scan rest Underscore acc
               | _ => None
               end
          else match p with
               | Digit => Some (acc, s)
               | _ => None
               end
      end
  | EmptyString =>
      match p with
      | Digit => Some (acc, s)
      | _ => None
      end
  end.

(** [int(s)] for a [str] of ASCII characters: surrounding whitespace, an
    optional sign, then the digit run; [None] stands for [ValueError].
    Beyond ASCII Python also skips Unicode blanks and reads Unicode
    decimal digits, which this definition rejects: whatever it reads is
    ASCII ([int_reads_ascii] below), and a property that rests on a
    rejection assumes [isascii]. *)
Definition int (s : string) : option Z :=
  let s := lstrip s in
  let '(sign, s) :=
    match s with
    | String "+" rest => (1, rest)
    | String "-" rest => (-1, rest)
    | _ => (1, s)
    end in
  match scan s Start 0 with
  | Some (n, rest) => if all_space rest then Some (sign * n) else None
  | None => None
  end.

(** Decimal digits of a non-negative integer, most significant first,
    pushed in front of [acc]. *)
Fixpoint digits (fuel : nat) (n : Z) (acc : string) : string :=
  match fuel with
  | O => acc
  | S f =>
      if n <? 10 then String (digit_char n) acc
      else digits f (n / 10) (String (digit_char (n mod 10)) acc)
  end.

Definition fuel_for (n : Z) : nat := S (Z.to_nat (Z.log2 n)).

(** [str(z)] for an [int]. *)
Definition str (z : Z) : string :=
  if z <? 0 then String "-" (digits (fuel_for (- z)) (- z) "")
  else digits (fuel_for z) z "".

(** A byte of the form 10xxxxxx continues a character of the text. *)
Definition continuation (c : ascii) : bool :=
  let n := ord c in (128 <=? n) && (n <? 192).

(** [len(s)]: the number of characters of the text. *)
Fixpoint len (s : string) : Z :=
  match s with
  | String c rest => (if continuation c then 0 else 1) + len rest
  | EmptyString => 0
  end.

(** [s.isascii()] *)
Fixpoint isascii (s : string) : bool :=
  match s with
  | String c rest => (ord c <? 128) && isascii rest
  | EmptyString => true
  end.

(** [sys.int_max_str_digits]: where the interpreter has the cap, [int()]
    and [str()] raise [ValueError] beyond this many digits.  A text of at
    most that many characters and an integer below that power of ten are
    within it. *)
Definition int_max_str_digits : Z := 4300.
Definition within_length (s : string) : Prop :=
  Z.of_nat (String.length s) <= int_max_str_digits.
Definition within_digits (z : Z) : Prop := Z.abs z < 10 ^ int_max_str_digits.

(** [x in values] for a tuple or list of strings. *)
Definition contains (values : list string) (x : string) : bool :=
  existsb (String.eqb x) values.

(** [d.get(key, default)] for a dict with integer keys. *)
Fixpoint get {V} (d : list (Z * V)) (key : Z) (default : V) : V :=
  match d with
  | (k, v) :: rest => if k =? key then v else get rest key default
  | [] => default
  end.

(** [s.startswith(p)] *)
Definition startswith (p s : string) : bool := String.prefix p s.

(** [s.split(sep)] for a one-character separator. *)
Fixpoint split (sep : ascii) (s : string) : list string :=
  match s with
  | EmptyString => [EmptyString]
  | String c rest =>
      if Ascii.eqb c sep then EmptyString :: split sep rest
      else match split sep rest with
           | piece :: pieces => String c piece :: pieces
           | [] => [String c EmptyString]
           end
  end.

End Py.

(* ------------------------------------------------------------------ *)
(** ** Domains and the static reward table *)

Definition SCHOOL_VALUES : list string := ["Aguachica"; "La Argentina"; "Aractaca"].
Definition GENDER_VALUES : list string := ["Masculino"; "Femenino"].

(** The [Literal] types [School] and [Gender] accept exactly these. *)
Definition School (s : string) : bool := Py.contains SCHOOL_VALUES s.
Definition Gender (s : string) : bool := Py.contains GENDER_VALUES s.

Definition LEVEL_REWARDS : list (Z * list string) :=
  [ (1, ["cinturon"; "cristal-rojo"]);
    (2, ["pechera"; "cristal-amarillo"]);
    (3, ["botas"; "cristal-gris"]);
    (4, ["casco"; "cristal-verde"]) ].

(** [LEVEL_REWARDS.get(level, [])] *)
Definition LEVEL_REWARDS_get (level : Z) : list string :=
  Py.get LEVEL_REWARDS level [].

(* ------------------------------------------------------------------ *)
(** ** SQLAlchemy models: one record per table row *)

Module User.
Record t := mk {
  id : Z;
  document : string;
  name : string;
  school : string;
  gender : string;
  money : string;
  level : Z
}.
Definition set_name (v : string) (u : t) : t :=
  mk (id u) (document u) v (school u) (gender u) (money u) (level u).
Definition set_school (v : string) (u : t) : t :=
  mk (id u) (document u) (name u) v (gender u) (money u) (level u).
Definition set_gender (v : string) (u : t) : t :=
  mk (id u) (document u) (name u) (school u) v (money u) (level u).
Definition set_money (v : string) (u : t) : t :=
  mk (id u) (document u) (name u) (school u) (gender u) v (level u).
Definition set_level (v : Z) (u : t) : t :=
  mk (id u) (document u) (name u) (school u) (gender u) (money u) v.
End User.

Module UserTime.
Record t := mk { id : Z; user_id : Z; time : Z; level : Z }.
End UserTime.

Module ItemModel.
Record t := mk { id : Z; name : string; item_type : string }.
End ItemModel.

Module UserEarnedItem.
Record t := mk { id : Z; user_id : Z; item_id : Z }.
End UserEarnedItem.

Module SessionToken.
Record t := mk { id : Z; user_id : Z; token : string; expires_at : Z }.
End SessionToken.

(** The database: the five tables of [Base.metadata]. *)
Record DB := mkDB {
  users : list User.t;
  user_time : list UserTime.t;
  item : list ItemModel.t;
  user_earned_items : list UserEarnedItem.t;
  sessions : list SessionToken.t
}.

Definition set_users (v : list User.t) (d : DB) : DB :=
  mkDB v (user_time d) (item d) (user_earned_items d) (sessions d).
Definition set_user_time (v : list UserTime.t) (d : DB) : DB :=
  mkDB (users d) v (item d) (user_earned_items d) (sessions d).
Definition set_user_earned_items (v : list UserEarnedItem.t) (d : DB) : DB :=
  mkDB (users d) (user_time d) (item d) v (sessions d).
Definition set_sessions (v : list SessionToken.t) (d : DB) : DB :=
  mkDB (users d) (user_time d) (item d) (user_earned_items d) v.

(** Integer primary keys are handed out above every key in use. *)
Definition next_id (ids : list Z) : Z := 1 + fold_right Z.max 0 ids.

(* ------------------------------------------------------------------ *)
(** ** Pydantic schemas *)

Module LoginIn.
Record t := mk { document : string }.
Definition valid (p : t) : bool := 3 <=? Py.len (document p).
End LoginIn.

Module RegisterIn.
Record t := mk { document : string; name : string; school : string; gender : string }.
Definition valid (p : t) : bool :=
  (3 <=? Py.len (document p)) && (1 <=? Py.len (name p))
  && School (school p) && Gender (gender p).
End RegisterIn.

Module CompleteLevelIn.
Record t := mk { coins_earned : Z; time_spent : Z }.
Definition valid (p : t) : bool := (0 <=? coins_earned p) && (0 <=? time_spent p).
End CompleteLevelIn.

Module UpdateMeIn.
Record t := mk {
  name : option string;
  school : option string;
  gender : option string;
  money : option string;
  level : option Z
}.
Definition valid (p : t) : bool :=
  match school p with Some s => School s | None => true end
  && match gender p with Some g => Gender g | None => true end
  && match level p with Some l => 1 <=? l | None => true end.
End UpdateMeIn.

Module Item.
Record t := mk { id : Z; name : string; item_type : string }.
(** [Item.model_validate(item)] with [from_attributes]. *)
Definition model_validate (i : ItemModel.t) : t :=
  mk (ItemModel.id i) (ItemModel.name i) (ItemModel.item_type i).
End Item.

Module UserOut.
Record t := mk {
  id : Z;
  document : string;
  name : string;
  school : string;
  gender : string;
  money : string;
  level : Z;
  items : list Item.t
}.
End UserOut.

(** Attribute values and objects, as the response validation reads them
    with [from_attributes=True]. *)
Inductive Value := VInt (z : Z) | VStr (s : string) | VItems (l : list Item.t).
Definition Object := list (string * Value).

Fixpoint getattr (o : Object) (attr : string) : option Value :=
  match o with
  | (k, v) :: rest => if String.eqb k attr then Some v else getattr rest attr
  | [] => None
  end.

(** The attributes of a [User] instance are its mapped columns. *)
Definition User_object (u : User.t) : Object :=
  [ ("id", VInt (User.id u)); ("document", VStr (User.document u));
    ("name", VStr (User.name u)); ("school", VStr (User.school u));
    ("gender", VStr (User.gender u)); ("money", VStr (User.money u));
    ("level", VInt (User.level u)) ].

Definition UserOut_object (o : UserOut.t) : Object :=
  [ ("id", VInt (UserOut.id o)); ("document", VStr (UserOut.document o));
    ("name", VStr (UserOut.name o)); ("school", VStr (UserOut.school o));
    ("gender", VStr (UserOut.gender o)); ("money", VStr (UserOut.money o));
    ("level", VInt (UserOut.level o)); ("items", VItems (UserOut.items o)) ].

(** Validation of an object against [UserOut]: every field is required,
    of its declared type, and [school], [gender] in their [Literal]s. *)
Definition UserOut_validate (o : Object) : option UserOut.t :=
  match getattr o "id", getattr o "document", getattr o "name",
        getattr o "school", getattr o "gender", getattr o "money",
        getattr o "level", getattr o "items" with
  | Some (VInt i), Some (VStr d), Some (VStr n), Some (VStr s),
    Some (VStr g), Some (VStr m), Some (VInt l), Some (VItems its) =>
      if School s && Gender g then Some (UserOut.mk i d n s g m l its) else None
  | _, _, _, _, _, _, _, _ => None
  end.

Module LoginOut.
Record t := mk { token : string; user : UserOut.t }.
End LoginOut.

Module LogoutOut.
Record t := mk { ok : bool; deleted : Z }.
End LogoutOut.

(* ------------------------------------------------------------------ *)
(** ** Exceptions, the database session and the handler monad *)

Inductive Exception :=
| HTTPException (status_code : Z) (detail : string)
| RequestValidationError      (* request body rejected by its schema: 422 *)
| ValidationError             (* a schema constructor rejected its arguments *)
| ResponseValidationError     (* returned object rejected by [response_model] *)
| InvalidRequestError         (* [refresh] of an object that has no row *)
| OverflowError               (* an integer parameter beyond SQLite's 64 bits *)
| IntegrityError              (* a write refused by a constraint of the schema *)
| IndexError.

Inductive Result (A : Type) :=
| Return (a : A)
| Raise (e : Exception).
Arguments Return {A} a.
Arguments Raise {A} e.

(** [SessionLocal()] with [autocommit=False, autoflush=False]: queries run
    on [stored]; attribute assignments, [add] and bulk deletes build
    [work]; [commit] makes [work] the stored state unless the flush fails;
    [close] drops what was not committed. *)
Record Session := mkSession { stored : DB; work : DB }.

Definition SessionLocal (d : DB) : Session := mkSession d d.
Definition close (s : Session) : DB := stored s.

Definition M (A : Type) : Type := Session -> Session * Result A.

Definition ret {A} (a : A) : M A := fun s => (s, Return a).
Definition raise {A} (e : Exception) : M A := fun s => (s, Raise e).
Definition bind {A B} (m : M A) (k : A -> M B) : M B :=
  fun s =>
    match m s with
    | (s', Return a) => k a s'
    | (s', Raise e) => (s', Raise e)
    end.

Notation "x <- m ;; k" := (bind m (fun x => k))
  (at level 61, m at next level, right associativity).
Notation "m ;; k" := (bind m (fun _ => k))
  (at level 61, right associativity).

(** [for x in xs: body(x)] *)
Fixpoint for_each {A} (xs : list A) (body : A -> M unit) : M unit :=
  match xs with
  | [] => ret tt
  | x :: rest => body x ;; for_each rest body
  end.

(** [db.query(T).filter(p).first()] *)
Definition query_first {A} (table : DB -> list A) (p : A -> bool) : M (option A) :=
  fun s => (s, Return (find p (table (stored s)))).

(** [db.query(ItemModel).filter(ItemModel.name.in_(names)).all()]: SQLite
    answers through the unique index on [name], so the rows come in
    ascending order of name (bytewise), rows of one name in table order. *)
Fixpoint insert_by_name (i : ItemModel.t) (l : list ItemModel.t) : list ItemModel.t :=
  match l with
  | [] => [i]
  | j :: rest =>
      if String.leb (ItemModel.name i) (ItemModel.name j) then i :: l
      else j :: insert_by_name i rest
  end.
Definition order_by_name (l : list ItemModel.t) : list ItemModel.t :=
  fold_right insert_by_name [] l.
Definition items_named (d : DB) (names : list string) : list ItemModel.t :=
  order_by_name (filter (fun i => Py.contains names (ItemModel.name i)) (item d)).
Definition query_items_named (names : list string) : M (list ItemModel.t) :=
  fun s => (s, Return (items_named (stored s) names)).

(** [db.query(User).get(pk)] *)
Definition get_user (d : DB) (pk : Z) : option User.t :=
  find (fun u => User.id u =? pk) (users d).
Definition query_get_user (pk : Z) : M (option User.t) :=
  fun s => (s, Return (get_user (stored s) pk)).

(** The entities of a result, each once, in order of first appearance:
    the ORM hands out one object per primary key. *)
Fixpoint unique (seen : list Z) (l : list ItemModel.t) : list ItemModel.t :=
  match l with
  | [] => []
  | i :: rest =>
      if existsb (Z.eqb (ItemModel.id i)) seen then unique seen rest
      else i :: unique (ItemModel.id i :: seen) rest
  end.

(** The links of a player, in table order. *)
Definition links_of (d : DB) (user_id : Z) : list UserEarnedItem.t :=
  filter (fun e => UserEarnedItem.user_id e =? user_id) (user_earned_items d).

(** [db.query(ItemModel).join(UserEarnedItem)
       .filter(UserEarnedItem.user_id == user_id).all()]:
    SQLite walks [user_earned_items] and looks the item of each link up
    by its key, so the catalog entries linked to the player come in the
    order of their links, each entity once. *)
Definition earned_items_of (d : DB) (user_id : Z) : list ItemModel.t :=
  unique []
    (flat_map (fun e => filter (fun i => ItemModel.id i =? UserEarnedItem.item_id e)
                               (item d))
              (links_of d user_id)).
Definition query_earned_items (user_id : Z) : M (list ItemModel.t) :=
  fun s => (s, Return (earned_items_of (stored s) user_id)).

(** [UPDATE users SET ... WHERE id = :id] with the attributes of [u]. *)
Definition put_user (u : User.t) (d : DB) : DB :=
  set_users (map (fun r => if User.id r =? User.id u then u else r) (users d)) d.

(** Attribute assignment on a persistent [User]: the unit of work holds
    the new state of the row with that primary key. *)
Definition assign (u : User.t) : M User.t :=
  fun s => (mkSession (stored s) (put_user u (work s)), Return u).

(** [db.add(User(...))]; [money] takes its column default. *)
Definition add_User (document name school gender : string) (level : Z) : M User.t :=
  fun s =>
    let w := work s in
    let u := User.mk (next_id (map User.id (users w)))
                     document name school gender "0" level in
    (mkSession (stored s) (set_users (users w ++ [u]) w), Return u).

Definition add_UserTime (user_id time level : Z) : M unit :=
  fun s =>
    let w := work s in
    let r := UserTime.mk (next_id (map UserTime.id (user_time w))) user_id time level in
    (mkSession (stored s) (set_user_time (user_time w ++ [r]) w), Return tt).

Definition add_UserEarnedItem (user_id item_id : Z) : M unit :=
  fun s =>
    let w := work s in
    let r := UserEarnedItem.mk (next_id (map UserEarnedItem.id (user_earned_items w)))
                               user_id item_id in
    (mkSession (stored s) (set_user_earned_items (user_earned_items w ++ [r]) w),
     Return tt).

Definition add_SessionToken (user_id : Z) (token : string) (expires_at : Z) : M unit :=
  fun s =>
    let w := work s in
    let r := SessionToken.mk (next_id (map SessionToken.id (sessions w)))
                             user_id token expires_at in
    (mkSession (stored s) (set_sessions (sessions w ++ [r]) w), Return tt).

(** [db.query(SessionToken).filter_by(token=token).delete()]: number of
    rows removed. *)
Definition delete_sessions (token : string) : M Z :=
  fun s =>
    let w := work s in
    let hit := fun r => String.eqb (SessionToken.token r) token in
    (mkSession (stored s)
       (set_sessions (filter (fun r => negb (hit r)) (sessions w)) w),
     Return (Z.of_nat (List.length (filter hit (sessions w))))).

(** The integers [sqlite3] binds to a statement: 64 bits, signed. *)
Definition int64 (z : Z) : bool := (- 2 ^ 63 <=? z) && (z <? 2 ^ 63).

(** The rows an INSERT writes: those of the unit of work under a primary
    key that the stored table does not have. *)
Definition inserted {A} (key : A -> Z) (old new : list A) : list A :=
  filter (fun r => negb (existsb (fun o => key o =? key r) old)) new.

(** The player rows whose [level] is written: inserted rows, and rows
    assigned a level other than the stored one. *)
Definition level_written (old new : list User.t) : list User.t :=
  filter (fun u => negb (existsb (fun o => (User.id o =? User.id u)
                                           && (User.level o =? User.level u)) old))
         new.

(** What the flush of the unit of work [new] over the stored state [old]
    fails on.  [OverflowError]: a level or a time that is written does not
    fit [sqlite3]'s integers.  [IntegrityError]: a level that is written
    breaks [ck_users_level_min], or the token of an inserted session is
    the token of another session ([unique=True]).  The other parameters
    the handlers bind cannot fail: keys and levels read from stored rows,
    schools and genders tested against the tuples of the CHECK
    constraints before they are assigned, a document looked up before it
    is inserted. *)
Definition flush (old new : DB) : option Exception :=
  let levels := map User.level (level_written (users old) (users new)) in
  let times := map UserTime.time (inserted UserTime.id (user_time old) (user_time new)) in
  let opened := inserted SessionToken.id (sessions old) (sessions new) in
  if negb (forallb int64 levels && forallb int64 times) then Some OverflowError
  else if negb (forallb (Z.leb 1) levels)
          || existsb (fun r =>
                        existsb (fun o => negb (SessionToken.id o =? SessionToken.id r)
                                          && String.eqb (SessionToken.token o)
                                                        (SessionToken.token r))
                                (sessions new))
                     opened
  then Some IntegrityError
  else None.

(** [db.commit()]: the unit of work becomes the stored state; if the
    flush fails the transaction is rolled back and the error propagates. *)
Definition commit : M unit :=
  fun s =>
    match flush (stored s) (work s) with
    | None => (mkSession (work s) (work s), Return tt)
    | Some e => (mkSession (stored s) (stored s), Raise e)
    end.

(** [db.refresh(obj)]: the row of [obj] as stored. *)
Definition refresh (u : User.t) : M User.t :=
  fun s =>
    match get_user (stored s) (User.id u) with
    | Some row => (s, Return row)
    | None => (s, Raise InvalidRequestError)
    end.

(** [UserOut(id=..., ..., items=...)] *)
Definition UserOut_init (u : User.t) (items : list Item.t) : M UserOut.t :=
  if School (User.school u) && Gender (User.gender u)
  then ret (UserOut.mk (User.id u) (User.document u) (User.name u)
                       (User.school u) (User.gender u) (User.money u)
                       (User.level u) items)
  else raise ValidationError.

(* ------------------------------------------------------------------ *)
(** ** Session helpers *)

(** [timedelta(days=n)] in microseconds. *)
Definition timedelta_days (n : Z) : Z := n * 86400 * 1000000.

(** [token] is the value drawn by [secrets.token_urlsafe(32)], [now] the
    reading of [datetime.utcnow()]. *)
Definition create_session (token : string) (now : Z) (user_id : Z) : M string :=
  add_SessionToken user_id token (now + timedelta_days 7) ;;
  commit ;;
  ret token.

Definition user_by_token (now : Z) (token : string) : M (option User.t) :=
  sess <- query_first sessions
            (fun r => String.eqb (SessionToken.token r) token
                      && (now <? SessionToken.expires_at r)) ;;
  match sess with
  | None => ret None
  | Some sess => query_get_user (SessionToken.user_id sess)
  end.

Definition require_auth (now : Z) (authorization : option string) : M User.t :=
  match authorization with
  | None => raise (HTTPException 401 "Falta token o formato inválido")
  | Some authorization =>
      if String.eqb authorization "" || negb (Py.startswith "Bearer " authorization)
      then raise (HTTPException 401 "Falta token o formato inválido")
      else
        match nth_error (Py.split " " authorization) 1 with
        | None => raise IndexError
        | Some token =>
            user <- user_by_token now token ;;
            match user with
            | None => raise (HTTPException 401 "Token inválido o expirado")
            | Some user => ret user
            end
        end
  end.

(* ------------------------------------------------------------------ *)
(** ** Endpoints: the handler bodies *)

Definition register (payload : RegisterIn.t) : M User.t :=
  if negb (Py.contains SCHOOL_VALUES (RegisterIn.school payload))
  then raise (HTTPException 400 "school inválido")
  else if negb (Py.contains GENDER_VALUES (RegisterIn.gender payload))
  then raise (HTTPException 400 "gender inválido")
  else
    exists_ <- query_first users
                 (fun u => String.eqb (User.document u) (RegisterIn.document payload)) ;;
    match exists_ with
    | Some _ => raise (HTTPException 400 "Documento ya registrado")
    | None =>
        user <- add_User (RegisterIn.document payload) (RegisterIn.name payload)
                         (RegisterIn.school payload) (RegisterIn.gender payload) 1 ;;
        commit ;;
        user <- refresh user ;;
        ret user
    end.

Definition login (token : string) (now : Z) (payload : LoginIn.t) : M LoginOut.t :=
  user <- query_first users
            (fun u => String.eqb (User.document u) (LoginIn.document payload)) ;;
  match user with
  | None => raise (HTTPException 404 "Usuario no encontrado; regístrese primero")
  | Some user =>
      token <- create_session token now (User.id user) ;;
      earned_items <- query_earned_items (User.id user) ;;
      let items_out := map Item.model_validate earned_items in
      user_out <- UserOut_init user items_out ;;
      ret (LoginOut.mk token user_out)
  end.

Definition logout (token : string) : M LogoutOut.t :=
  deleted <- delete_sessions token ;;
  commit ;;
  ret (LogoutOut.mk true deleted).

Definition me (current : User.t) : M UserOut.t :=
  earned_items <- query_earned_items (User.id current) ;;
  let items_out := map Item.model_validate earned_items in
  UserOut_init current items_out.

Definition complete_level (data : CompleteLevelIn.t) (current : User.t) : M UserOut.t :=
  (* Sumar nivel (máximo hasta 5) *)
  current <- (if User.level current <? 5
              then assign (User.set_level (User.level current + 1) current)
              else ret current) ;;
  (* Sumar monedas *)
  current_money <- match Py.int (User.money current) with
                   | Some n => ret n
                   | None => raise (HTTPException 500 "Formato inválido en campo 'money'")
                   end ;;
  current <- assign (User.set_money
                       (Py.str (current_money + CompleteLevelIn.coins_earned data))
                       current) ;;
  (* Registrar tiempo en la tabla user_time *)
  add_UserTime (User.id current) (CompleteLevelIn.time_spent data)
               (User.level current - 1) ;;
  (* Obtener ítems por nivel completado *)
  let rewards := LEVEL_REWARDS_get (User.level current - 1) in
  items_to_add <- query_items_named rewards ;;
  (* Registrar ítems ganados si no los tiene *)
  for_each items_to_add
    (fun item =>
       already_has <- query_first user_earned_items
                        (fun e => (UserEarnedItem.user_id e =? User.id current)
                                  && (UserEarnedItem.item_id e =? ItemModel.id item)) ;;
       match already_has with
       | None => add_UserEarnedItem (User.id current) (ItemModel.id item)
       | Some _ => ret tt
       end) ;;
  (* Guardar cambios *)
  commit ;;
  current <- refresh current ;;
  earned_items <- query_earned_items (User.id current) ;;
  let items_out := map Item.model_validate earned_items in
  UserOut_init current items_out.

Definition update_me (data : UpdateMeIn.t) (current : User.t) : M User.t :=
  current <- match UpdateMeIn.name data with
             | Some v => assign (User.set_name v current)
             | None => ret current
             end ;;
  current <- match UpdateMeIn.school data with
             | Some v =>
                 if negb (Py.contains SCHOOL_VALUES v)
                 then raise (HTTPException 400 "school inválido")
                 else assign (User.set_school v current)
             | None => ret current
             end ;;
  current <- match UpdateMeIn.gender data with
             | Some v =>
                 if negb (Py.contains GENDER_VALUES v)
                 then raise (HTTPException 400 "gender inválido")
                 else assign (User.set_gender v current)
             | None => ret current
             end ;;
  current <- match UpdateMeIn.money data with
             | Some v => assign (User.set_money v current)
             | None => ret current
             end ;;
  current <- match UpdateMeIn.level data with
             | Some v => assign (User.set_level v current)
             | None => ret current
             end ;;
  commit ;;
  current <- refresh current ;;
  ret current.

(* ------------------------------------------------------------------ *)
(** ** Routes: dependencies, request body, handler, response model *)

(** [Depends(get_db)]: a session for the request, closed when it ends. *)
Definition get_db {A} (m : M A) (d : DB) : DB * Result A :=
  let '(s, r) := m (SessionLocal d) in (close s, r).

(** A request body checked against its schema. *)
Definition body {T} (valid : T -> bool) (x : T) : M T :=
  if valid x then ret x else raise RequestValidationError.

(** [response_model=UserOut] applied to what the handler returned. *)
Definition response_model (o : Object) : M UserOut.t :=
  match UserOut_validate o with
  | Some v => ret v
  | None => raise ResponseValidationError
  end.

(** A handler behind [Depends(require_auth)] with a request body. *)
Definition authenticated {D A} (now : Z) (authorization : option string)
    (valid : D -> bool) (data : D) (handler : D -> User.t -> M A) : M A :=
  current <- require_auth now authorization ;;
  data <- body valid data ;;
  handler data current.

Definition POST_auth_register (payload : RegisterIn.t) : DB -> DB * Result UserOut.t :=
  get_db (payload <- body RegisterIn.valid payload ;;
          user <- register payload ;;
          response_model (User_object user)).

Definition POST_auth_login (token : string) (now : Z) (payload : LoginIn.t)
  : DB -> DB * Result LoginOut.t :=
  get_db (payload <- body LoginIn.valid payload ;;
          login token now payload).

Definition POST_auth_logout (token : string) : DB -> DB * Result LogoutOut.t :=
  get_db (logout token).

Definition GET_me (now : Z) (authorization : option string)
  : DB -> DB * Result UserOut.t :=
  get_db (current <- require_auth now authorization ;;
          out <- me current ;;
          response_model (UserOut_object out)).

Definition POST_me_complete_level (now : Z) (authorization : option string)
    (data : CompleteLevelIn.t) : DB -> DB * Result UserOut.t :=
  get_db (out <- authenticated now authorization CompleteLevelIn.valid data
                   complete_level ;;
          response_model (UserOut_object out)).

Definition PUT_me (now : Z) (authorization : option string)
    (data : UpdateMeIn.t) : DB -> DB * Result UserOut.t :=
  get_db (user <- authenticated now authorization UpdateMeIn.valid data
                    update_me ;;
          response_model (User_object user)).

(** The public interface as a transition system on the database.  A
    request carries what the environment supplies with it: the clock
    reading and, for a login, the token drawn for the new session. *)
Inductive Request :=
| Register (payload : RegisterIn.t)
| Login (token : string) (now : Z) (payload : LoginIn.t)
| Logout (token : string)
| Me (now : Z) (authorization : option string)
| CompleteLevel (now : Z) (authorization : option string) (data : CompleteLevelIn.t)
| UpdateMe (now : Z) (authorization : option string) (data : UpdateMeIn.t).

Definition serve (r : Request) (d : DB) : DB :=
  match r with
  | Register payload => fst (POST_auth_register payload d)
  | Login token now payload => fst (POST_auth_login token now payload d)
  | Logout token => fst (POST_auth_logout token d)
  | Me now authorization => fst (GET_me now authorization d)
  | CompleteLevel now authorization data =>
      fst (POST_me_complete_level now authorization data d)
  | UpdateMe now authorization data => fst (PUT_me now authorization data d)
  end.

Definition run (requests : list Request) (d : DB) : DB :=
  fold_left (fun d r => serve r d) requests d.

Definition is_complete_level (r : Request) : bool :=
  match r with CompleteLevel _ _ _ => true | _ => false end.

Definition is_update (r : Request) : bool :=
  match r with UpdateMe _ _ _ => true | _ => false end.

(** Sample data: a deployment whose catalog holds the eight reward items,
    and a player who registered and signed in with token [T]. *)
Definition catalog : list ItemModel.t :=
  [ ItemModel.mk 1 "cinturon" "armadura"; ItemModel.mk 2 "cristal-rojo" "cristal";
    ItemModel.mk 3 "pechera" "armadura"; ItemModel.mk 4 "cristal-amarillo" "cristal";
    ItemModel.mk 5 "botas" "armadura"; ItemModel.mk 6 "cristal-gris" "cristal";
    ItemModel.mk 7 "casco" "armadura"; ItemModel.mk 8 "cristal-verde" "cristal" ].

Definition seeded : DB := mkDB [] [] catalog [] [].

Definition ana : RegisterIn.t := RegisterIn.mk "A100" "Ana" "Aguachica" "Masculino".
Definition bearer_T : option string := Some "Bearer T".

Definition signed_in : DB :=
  run [Register ana; Login "T" 0 (LoginIn.mk "A100")] seeded.

Definition at_level_4 : DB :=
  run [CompleteLevel 1 bearer_T (CompleteLevelIn.mk 10 30);
       CompleteLevel 2 bearer_T (CompleteLevelIn.mk 10 30);
       CompleteLevel 3 bearer_T (CompleteLevelIn.mk 10 30)] signed_in.

(** The same player after a profile update wrote a balance that [int()]
    rejects, and one that it reads as a negative number. *)
Definition corrupted : DB :=
  run [UpdateMe 1 bearer_T (UpdateMeIn.mk None None None (Some "abc") None)] signed_in.

Definition overdrawn : DB :=
  run [UpdateMe 1 bearer_T (UpdateMeIn.mk None None None (Some "-5") None)] signed_in.

Definition ana_row : User.t := User.mk 1 "A100" "Ana" "Aguachica" "Masculino" "0" 1.

(* ------------------------------------------------------------------ *)
(** ** Summaries used to state the effects of the handlers *)

(** The player's link to an item, if the stored table has one. *)
Definition has_link (d : DB) (user_id item_id : Z) : bool :=
  existsb (fun e => (UserEarnedItem.user_id e =? user_id)
                    && (UserEarnedItem.item_id e =? item_id))
          (user_earned_items d).

(** Rows appended to [user_earned_items] for a list of items. *)
Definition add_links (user_id : Z) (items : list ItemModel.t)
    (earned : list UserEarnedItem.t) : list UserEarnedItem.t :=
  fold_left
    (fun acc i =>
       acc ++ [UserEarnedItem.mk (next_id (map UserEarnedItem.id acc))
                                 user_id (ItemModel.id i)])
    items earned.

(** The (player, item) pair of a link. *)
Definition link (e : UserEarnedItem.t) : Z * Z :=
  (UserEarnedItem.user_id e, UserEarnedItem.item_id e).

(** The level a call of [complete_level] leaves the player at, and the
    level it records as completed. *)
Definition next_level (level : Z) : Z := if level <? 5 then level + 1 else level.
Definition completed_level (u : User.t) : Z := next_level (User.level u) - 1.

(** The catalog entries that reward a level, in the order the handler
    is given them. *)
Definition reward_items (d : DB) (level : Z) : list ItemModel.t :=
  items_named d (LEVEL_REWARDS_get level).

(** The state a call of [complete_level] that read the balance [m] hands
    to [commit]. *)
Definition completed (data : CompleteLevelIn.t) (current : User.t) (m : Z) (d : DB) : DB :=
  let u := User.set_money (Py.str (m + CompleteLevelIn.coins_earned data))
             (User.set_level (next_level (User.level current)) current) in
  let t := UserTime.mk (next_id (map UserTime.id (user_time d))) (User.id current)
             (CompleteLevelIn.time_spent data) (User.level u - 1) in
  let new := filter (fun i => negb (has_link d (User.id current) (ItemModel.id i)))
               (reward_items d (User.level u - 1)) in
  mkDB (users (put_user u d)) (user_time d ++ [t]) (item d)
       (add_links (User.id current) new (user_earned_items d)) (sessions d).

(** The read-model of a player: the attributes of the row joined with
    the items linked to it, as [me] and [login] build it. *)
Definition assemble (d : DB) (u : User.t) : UserOut.t :=
  UserOut.mk (User.id u) (User.document u) (User.name u) (User.school u)
             (User.gender u) (User.money u) (User.level u)
             (map Item.model_validate (earned_items_of d (User.id u))).

(** The row [update_me] assigns: the fields present in the patch, in the
    order the handler applies them. *)
Definition patched (data : UpdateMeIn.t) (u : User.t) : User.t :=
  let u := match UpdateMeIn.name data with Some v => User.set_name v u | None => u end in
  let u := match UpdateMeIn.school data with Some v => User.set_school v u | None => u end in
  let u := match UpdateMeIn.gender data with Some v => User.set_gender v u | None => u end in
  let u := match UpdateMeIn.money data with Some v => User.set_money v u | None => u end in
  match UpdateMeIn.level data with Some v => User.set_level v u | None => u end.

(** A patch with no field present. *)
Definition empty_patch (data : UpdateMeIn.t) : bool :=
  match UpdateMeIn.name data, UpdateMeIn.school data, UpdateMeIn.gender data,
        UpdateMeIn.money data, UpdateMeIn.level data with
  | None, None, None, None, None => true
  | _, _, _, _, _ => false
  end.

(** The state [update_me] hands to [commit]: the database itself when the
    patch has no field, the patched row in place of the player's
    otherwise. *)
Definition updated (data : UpdateMeIn.t) (current : User.t) (d : DB) : DB :=
  if empty_patch data then d else put_user (patched data current) d.

(** A level that the database stores when a patch assigns it. *)
Definition level_fits (level : option Z) : Prop :=
  match level with Some l => l < 2 ^ 63 | None => True end.

(** [view] is a read-model of the row [u] over [d]: the attributes of the
    row, and for items exactly the catalog entries that a link ties to
    the player, in some order. *)
Definition view_of (d : DB) (u : User.t) (view : UserOut.t) : Prop :=
  UserOut.id view = User.id u /\ UserOut.document view = User.document u
  /\ UserOut.name view = User.name u /\ UserOut.school view = User.school u
  /\ UserOut.gender view = User.gender u /\ UserOut.money view = User.money u
  /\ UserOut.level view = User.level u
  /\ forall it,
       In it (UserOut.items view)
       <-> exists i e, it = Item.model_validate i /\ In i (item d)
                       /\ In e (user_earned_items d)
                       /\ UserEarnedItem.user_id e = User.id u
                       /\ UserEarnedItem.item_id e = ItemModel.id i.

(** A patch field that is absent or inside its enumeration. *)
Definition field_ok (values : list string) (field : option string) : bool :=
  match field with Some v => Py.contains values v | None => true end.

(** Every catalog reward of [level] is already linked to the player. *)
Definition rewarded (d : DB) (user_id level : Z) : Prop :=
  forall i, In i (reward_items d level) -> has_link d user_id (ItemModel.id i) = true.


(** A request authenticates as the player [current]. *)
Definition authenticates (d : DB) (now : Z) (authorization : option string)
    (current : User.t) : Prop :=
  require_auth now authorization (SessionLocal d) = (SessionLocal d, Return current).

(** What a request can do to the committed database. *)
Inductive effect (d : DB) : Request -> DB -> Prop :=
| effect_none (r : Request) : effect d r d
| effect_register (payload : RegisterIn.t) :
    find (fun u => String.eqb (User.document u) (RegisterIn.document payload)) (users d)
    = None ->
    effect d (Register payload)
      (set_users (users d ++ [User.mk (next_id (map User.id (users d)))
                                (RegisterIn.document payload) (RegisterIn.name payload)
                                (RegisterIn.school payload) (RegisterIn.gender payload)
                                "0" 1]) d)
| effect_login (token : string) (now : Z) (payload : LoginIn.t) (user : User.t) :
    In user (users d) ->
    effect d (Login token now payload)
      (set_sessions (sessions d ++ [SessionToken.mk (next_id (map SessionToken.id (sessions d)))
                                      (User.id user) token (now + timedelta_days 7)]) d)
| effect_logout (token : string) :
    effect d (Logout token)
      (set_sessions (filter (fun r => negb (String.eqb (SessionToken.token r) token))
                            (sessions d)) d)
| effect_complete_level (now : Z) (authorization : option string)
    (data : CompleteLevelIn.t) (current : User.t) (m : Z) :
    authenticates d now authorization current ->
    CompleteLevelIn.valid data = true ->
    Py.int (User.money current) = Some m ->
    effect d (CompleteLevel now authorization data) (completed data current m d)
| effect_update (now : Z) (authorization : option string)
    (data : UpdateMeIn.t) (current : User.t) :
    authenticates d now authorization current ->
    UpdateMeIn.valid data = true ->
    effect d (UpdateMe now authorization data) (put_user (patched data current) d).

(** The balance text is accepted by [int()] with a value of at least 0. *)
Definition parses_non_negative (money : string) : Prop :=
  exists n, Py.int money = Some n /\ 0 <= n.

(** Coins carried by a request, and their sum over a sequence. *)
Definition coins_of (r : Request) : Z :=
  match r with
  | CompleteLevel _ _ data => CompleteLevelIn.coins_earned data
  | _ => 0
  end.

Definition total_coins (requests : list Request) : Z :=
  fold_right Z.add 0 (map coins_of requests).

(** A sequence of complete-level calls, each made by the player [uid] with
    a token valid at the time of the call, an amount of at least 0 and a
    time of at least 0 that fits the database's integers. *)
Inductive calls_by (uid : Z) : DB -> list Request -> Prop :=
| calls_nil (d : DB) : calls_by uid d []
| calls_cons (d : DB) (now : Z) (authorization : option string)
    (data : CompleteLevelIn.t) (current : User.t) (rest : list Request) :
    authenticates d now authorization current ->
    User.id current = uid ->
    0 <= CompleteLevelIn.coins_earned data ->
    0 <= CompleteLevelIn.time_spent data < 2 ^ 63 ->
    calls_by uid (serve (CompleteLevel now authorization data) d) rest ->
    calls_by uid d (CompleteLevel now authorization data :: rest).

(** A player row with a level in 1..5 and a non-negative balance. *)
Definition in_range (u : User.t) : Prop :=
  1 <= User.level u <= 5 /\ parses_non_negative (User.money u).

(** The filter of [user_by_token]: the token matches and has not expired. *)
Definition live (now : Z) (token : string) (r : SessionToken.t) : bool :=
  String.eqb (SessionToken.token r) token && (now <? SessionToken.expires_at r).

(** Schema constraints of the tables that the properties rely on: primary
    key of [item], [unique=True] on [sessions.token], and the foreign key
    of [sessions.user_id]. *)
Definition item_pk (d : DB) : Prop := NoDup (map ItemModel.id (item d)).
Definition token_unique (d : DB) : Prop := NoDup (map SessionToken.token (sessions d)).
Definition session_fk (d : DB) : Prop :=
  forall s, In s (sessions d) -> exists u, get_user d (SessionToken.user_id s) = Some u.

(** At most one link per (player, item) pair. *)
Definition links_unique (d : DB) : Prop := NoDup (map link (user_earned_items d)).

(** Every login of a sequence draws a token no stored session has. *)
Fixpoint fresh_logins (requests : list Request) (d : DB) : Prop :=
  match requests with
  | [] => True
  | r :: rest =>
      match r with
      | Login token _ _ => ~ In token (map SessionToken.token (sessions d))
      | _ => True
      end
      /\ fresh_logins rest (serve r d)
  end.

(** Further constraints of [users]: the primary key, the unique
    [document] and the CHECK constraints on [school], [gender], [level]. *)
Definition users_pk (d : DB) : Prop := NoDup (map User.id (users d)).
Definition document_unique (d : DB) : Prop := NoDup (map User.document (users d)).
Definition checks_hold (d : DB) : Prop :=
  Forall (fun u => School (User.school u) = true
                   /\ Gender (User.gender u) = true
                   /\ 1 <= User.level u) (users d).

(** The row [register] inserts for a payload. *)
Definition registered (payload : RegisterIn.t) (d : DB) : User.t :=
  User.mk (next_id (map User.id (users d)))
          (RegisterIn.document payload) (RegisterIn.name payload)
          (RegisterIn.school payload) (RegisterIn.gender payload) "0" 1.

(** The player a login by [document] finds. *)
Definition by_document (d : DB) (document : string) : option User.t :=
  find (fun u => String.eqb (User.document u) document) (users d).

(** A text without the separator of the [Authorization] header. *)
Fixpoint no_space (s : string) : bool :=
  match s with
  | String c rest => negb (Ascii.eqb c " ") && no_space rest
  | EmptyString => true
  end.

(** Number of complete-level requests of a sequence. *)
Definition count_complete_level (requests : list Request) : nat :=
  List.length (filter is_complete_level requests).

(* ------------------------------------------------------------------ *)
(** * Properties *)

(** ** [int] and [str] *)

Example int_examples :
  Py.int "0" = Some 0 /\ Py.int " 42 " = Some 42 /\ Py.int "-5" = Some (-5)
  /\ Py.int "+1_000" = Some 1000 /\ Py.int "007" = Some 7
  /\ Py.int "abc" = None /\ Py.int "" = None /\ Py.int "1__0" = None
  /\ Py.int "_1" = None /\ Py.int "1_" = None /\ Py.int "- 5" = None
  /\ Py.int "1.5" = None.
Proof. repeat split; reflexivity. Qed.

Example str_examples :
  Py.str 0 = "0" /\ Py.str 10 = "10" /\ Py.str (-5) = "-5"
  /\ Py.str 9223372036854775807 = "9223372036854775807".
Proof. repeat split; reflexivity. Qed.

Example len_examples :
  Py.len "abc" = 3 /\ Py.len "inválido" = 8 /\ Py.len "ññ" = 2
  /\ String.length "ññ" = 4%nat
  /\ LoginIn.valid (LoginIn.mk "ññ") = false
  /\ LoginIn.valid (LoginIn.mk "ñññ") = true
  /\ Py.isascii "abc" = true /\ Py.isascii "ññ" = false.
Proof. repeat split; reflexivity. Qed.

Example split_examples :
  Py.split " " "Bearer abc" = ["Bearer"; "abc"]
  /\ Py.split " " "Bearer  x" = ["Bearer"; ""; "x"]
  /\ Py.split " " "Bearer " = ["Bearer"; ""].
Proof. repeat split; reflexivity. Qed.

Lemma digit_value_digit_char (d : Z) :
  0 <= d < 10 -> Py.digit_value (Py.digit_char d) = Some d.
Proof.
  intros H.
  assert (d = 0 \/ d = 1 \/ d = 2 \/ d = 3 \/ d = 4 \/ d = 5 \/ d = 6
          \/ d = 7 \/ d = 8 \/ d = 9) as C by lia.
  repeat (destruct C as [C | C]; [subst d; reflexivity|]).
  subst d; reflexivity.
Qed.

Lemma digit_not_space (c : ascii) (d : Z) :
  Py.digit_value c = Some d -> Py.isspace c = false.
Proof.
  unfold Py.digit_value, Py.isspace.
  destruct ((48 <=? Py.ord c) && (Py.ord c <=? 57)) eqn:E; [|discriminate].
  intros _. apply andb_true_iff in E as [E1 E2].
  apply Z.leb_le in E1. apply Z.leb_le in E2.
  apply orb_false_iff; split.
  - apply andb_false_iff; right. apply Z.leb_gt. lia.
  - apply Z.eqb_neq. lia.
Qed.

(** A literal that starts with a digit has no blanks to strip and no sign. *)
Lemma int_of_digit_head (c : ascii) (r : string) (d : Z) :
  Py.digit_value c = Some d ->
  Py.int (String c r) =
    match Py.scan (String c r) Py.Start 0 with
    | Some (n, rest) => if Py.all_space rest then Some (1 * n) else None
    | None => None
    end.
Proof.
  intros H. unfold Py.int.
  assert (Py.lstrip (String c r) = String c r) as ->.
  { simpl. now rewrite (digit_not_space c H). }
  destruct c as [[] [] [] [] [] [] [] []]; try reflexivity; discriminate H.
Qed.

Lemma digits_scan (f : nat) :
  forall n rest, 0 < n < 2 ^ Z.of_nat f ->
    exists b, forall p a,
      Py.scan (Py.digits f n rest) p a = Py.scan rest Py.Digit (b * a + n).
Proof.
  induction f as [|f IH]; intros n rest Hn.
  - simpl in Hn. lia.
  - cbn [Py.digits]. destruct (n <? 10) eqn:E.
    + apply Z.ltb_lt in E. exists 10. intros p a. cbn [Py.scan].
      rewrite digit_value_digit_char by lia. reflexivity.
    + apply Z.ltb_ge in E.
      rewrite Nat2Z.inj_succ, Z.pow_succ_r in Hn by lia.
      assert (0 < n / 10 < 2 ^ Z.of_nat f) as Hq.
      { split.
        - apply Z.div_str_pos. lia.
        - apply Z.div_lt_upper_bound; lia. }
      destruct (IH (n / 10) (String (Py.digit_char (n mod 10)) rest) Hq) as [b Hb].
      exists (10 * b). intros p a. rewrite Hb. cbn [Py.scan].
      rewrite digit_value_digit_char by (apply Z.mod_pos_bound; lia).
      f_equal. pose proof (Z.div_mod n 10 ltac:(lia)) as D.
      replace (10 * b * a) with (10 * (b * a)) by ring. lia.
Qed.

Lemma digits_head (f : nat) :
  forall n rest, 0 <= n -> (0 < f)%nat ->
    exists c r d, Py.digits f n rest = String c r /\ Py.digit_value c = Some d.
Proof.
  induction f as [|f IH]; intros n rest Hn Hf; [lia|].
  cbn [Py.digits]. destruct (n <? 10) eqn:E.
  - apply Z.ltb_lt in E. eexists _, _, _. split; [reflexivity|].
    apply digit_value_digit_char. lia.
  - apply Z.ltb_ge in E. destruct f as [|f].
    + simpl. eexists _, _, _. split; [reflexivity|].
      apply digit_value_digit_char. apply Z.mod_pos_bound. lia.
    + apply IH; [|lia]. apply Z.div_pos; lia.
Qed.

Lemma fuel_for_enough (n : Z) : 0 < n -> 0 < n < 2 ^ Z.of_nat (Py.fuel_for n).
Proof.
  intros H. split; [assumption|]. unfold Py.fuel_for.
  rewrite Nat2Z.inj_succ, Z2Nat.id by apply Z.log2_nonneg.
  apply Z.log2_spec. assumption.
Qed.

Lemma scan_digits_nonneg (n : Z) :
  0 <= n ->
  forall p, Py.scan (Py.digits (Py.fuel_for n) n "") p 0 = Some (n, "").
Proof.
  intros H p. destruct (Z.eq_dec n 0) as [->|Hz].
  - reflexivity.
  - assert (0 < n) as Hpos by lia.
    destruct (@digits_scan (Py.fuel_for n) n "" (fuel_for_enough Hpos)) as [b Hb].
    rewrite Hb. cbn. f_equal. f_equal. lia.
Qed.

(** [int(str(z)) == z]: the text written back by [complete_level] is read
    as the same integer by the next call. *)
Lemma int_str (z : Z) : Py.int (Py.str z) = Some z.
Proof.
  unfold Py.str. destruct (z <? 0) eqn:E.
  - apply Z.ltb_lt in E. unfold Py.int. cbn [Py.lstrip].
    change (Py.isspace "-") with false. cbv iota.
    rewrite scan_digits_nonneg by lia. cbn [Py.all_space]. f_equal. lia.
  - apply Z.ltb_ge in E.
    destruct (@digits_head (Py.fuel_for z) z "" E) as (c & r & d & Hs & Hd).
    { unfold Py.fuel_for. lia. }
    pose proof (scan_digits_nonneg E Py.Start) as Hscan.
    rewrite Hs in *. rewrite (@int_of_digit_head c r d Hd), Hscan. cbn [Py.all_space].
    f_equal. destruct z; reflexivity.
Qed.

(** Whatever [Py.int] reads is ASCII text. *)
Lemma all_space_ascii (s : string) : Py.all_space s = true -> Py.isascii s = true.
Proof.
  induction s as [|c s IH]; [reflexivity|]. cbn [Py.all_space Py.isascii].
  intros H. apply andb_true_iff in H as [Hc Hs]. rewrite (IH Hs), andb_true_r.
  unfold Py.isspace in Hc. apply Z.ltb_lt.
  apply orb_true_iff in Hc as [Hc|Hc].
  - apply andb_true_iff in Hc as [_ Hc]. apply Z.leb_le in Hc. lia.
  - apply Z.eqb_eq in Hc. lia.
Qed.

Lemma scan_ascii (s : string) :
  forall p acc n rest,
    Py.scan s p acc = Some (n, rest) -> Py.all_space rest = true ->
    Py.isascii s = true.
Proof.
  induction s as [|c s IH]; intros p acc n rest H Hrest; [reflexivity|].
  cbn [Py.scan] in H. cbn [Py.isascii].
  destruct (Py.digit_value c) as [v|] eqn:D.
  - rewrite (IH _ _ _ _ H Hrest), andb_true_r.
    unfold Py.digit_value in D.
    destruct ((48 <=? Py.ord c) && (Py.ord c <=? 57)) eqn:E; [|discriminate].
    apply andb_true_iff in E as [_ E]. apply Z.leb_le in E. apply Z.ltb_lt. lia.
  - destruct (Ascii.eqb c "_") eqn:U.
    + apply Ascii.eqb_eq in U. subst c.
      destruct p; try discriminate. now rewrite (IH _ _ _ _ H Hrest).
    + destruct p; try discriminate. injection H as _ <-.
      exact (all_space_ascii _ Hrest).
Qed.

Lemma lstrip_ascii (s : string) : Py.isascii (Py.lstrip s) = true -> Py.isascii s = true.
Proof.
  induction s as [|c s IH]; [reflexivity|]. cbn [Py.lstrip].
  destruct (Py.isspace c) eqn:E; [|trivial].
  intros H. cbn [Py.isascii]. rewrite (IH H), andb_true_r.
  unfold Py.isspace in E. apply Z.ltb_lt.
  apply orb_true_iff in E as [E|E].
  - apply andb_true_iff in E as [_ E]. apply Z.leb_le in E. lia.
  - apply Z.eqb_eq in E. lia.
Qed.

Lemma int_reads_ascii (s : string) (z : Z) : Py.int s = Some z -> Py.isascii s = true.
Proof.
  unfold Py.int. intros H. apply lstrip_ascii.
  assert (forall t sign,
            match Py.scan t Py.Start 0 with
            | Some (n, rest) => if Py.all_space rest then Some (sign * n) else None
            | None => None
            end = Some z -> Py.isascii t = true) as Hscan.
  { intros t sign Ht. destruct (Py.scan t Py.Start 0) as [[n rest]|] eqn:E;
      [|discriminate].
    destruct (Py.all_space rest) eqn:R; [|discriminate].
    exact (scan_ascii _ _ _ E R). }
  destruct (Py.lstrip s) as [|c r]; [reflexivity|].
  destruct c as [[] [] [] [] [] [] [] []];
    first [ match goal with |- Py.isascii ?t = true => exact (Hscan t 1 H) end
          | cbn; first [ exact (Hscan r 1 H) | exact (Hscan r (-1) H) ] ].
Qed.

(** ** Tables and the unit of work *)

Lemma find_map_stable {A} (p : A -> bool) (f : A -> A) (l : list A) :
  (forall x, p (f x) = p x) -> find p (map f l) = option_map f (find p l).
Proof.
  intros H. induction l as [|x l IH]; [reflexivity|].
  simpl. rewrite H. destruct (p x); [reflexivity|exact IH].
Qed.

Lemma get_user_id (d : DB) (k : Z) (u : User.t) :
  get_user d k = Some u -> User.id u = k.
Proof.
  unfold get_user. intros H. apply find_some in H as [_ H].
  now apply Z.eqb_eq in H.
Qed.

Lemma get_user_put_user (u : User.t) (d : DB) (k : Z) :
  get_user (put_user u d) k =
  option_map (fun r => if User.id r =? User.id u then u else r) (get_user d k).
Proof.
  unfold get_user, put_user. cbn [users set_users].
  apply find_map_stable. intros x.
  destruct (User.id x =? User.id u) eqn:E; [|reflexivity].
  apply Z.eqb_eq in E. now rewrite E.
Qed.

Lemma put_user_twice (u1 u2 : User.t) (d : DB) :
  User.id u1 = User.id u2 -> put_user u2 (put_user u1 d) = put_user u2 d.
Proof.
  intros H. unfold put_user. cbn [users set_users user_time item user_earned_items sessions].
  unfold set_users. f_equal. rewrite map_map. apply map_ext. intros r.
  destruct (User.id r =? User.id u1) eqn:E.
  - apply Z.eqb_eq in E. rewrite H, Z.eqb_refl.
    rewrite <- H, <- E, Z.eqb_refl. reflexivity.
  - rewrite <- H, E. reflexivity.
Qed.

Lemma find_existsb {A} (p : A -> bool) (l : list A) :
  existsb p l = match find p l with Some _ => true | None => false end.
Proof.
  induction l as [|x l IH]; [reflexivity|].
  simpl. destruct (p x); [reflexivity|exact IH].
Qed.

Lemma next_id_above (ids : list Z) (x : Z) : In x ids -> x < next_id ids.
Proof.
  unfold next_id. induction ids as [|y ids IH]; intros Hin; [contradiction|].
  cbn [fold_right]. destruct Hin as [->|Hin]; [lia|].
  specialize (IH Hin). lia.
Qed.

Lemma bool_eq_iff (a b : bool) : (a = true <-> b = true) -> a = b.
Proof. destruct a, b; intros [H1 H2]; try reflexivity; [symmetry|]; auto. Qed.

(** ** What [commit] flushes *)

Lemma int64_spec (z : Z) : int64 z = true <-> - 2 ^ 63 <= z < 2 ^ 63.
Proof. unfold int64. rewrite andb_true_iff, Z.leb_le, Z.ltb_lt. reflexivity. Qed.

Lemma inserted_incl {A} (key : A -> Z) (old new : list A) :
  (forall r, In r new -> In r old) -> inserted key old new = [].
Proof.
  intros H. unfold inserted. induction new as [|r new IH]; [reflexivity|].
  cbn [filter].
  assert (existsb (fun o => key o =? key r) old = true) as ->.
  { apply existsb_exists. exists r. split; [apply H; now left|apply Z.eqb_refl]. }
  cbn [negb]. apply IH. intros x Hx. apply H. now right.
Qed.

Lemma inserted_append {A} (key : A -> Z) (old : list A) (r : A) :
  key r = next_id (map key old) -> inserted key old (old ++ [r]) = [r].
Proof.
  intros Hk. unfold inserted. rewrite filter_app.
  fold (inserted key old old). rewrite inserted_incl by auto.
  cbn [filter app].
  assert (existsb (fun o => key o =? key r) old = false) as ->; [|reflexivity].
  apply not_true_is_false. intros E. apply existsb_exists in E as (o & Ho & E).
  apply Z.eqb_eq in E.
  pose proof (@next_id_above (map key old) (key o) (in_map key _ _ Ho)). lia.
Qed.

Lemma level_written_incl (old new : list User.t) :
  (forall u, In u new -> In u old) -> level_written old new = [].
Proof.
  intros H. unfold level_written. induction new as [|r new IH]; [reflexivity|].
  cbn [filter].
  assert (existsb (fun o => (User.id o =? User.id r) && (User.level o =? User.level r)) old
          = true) as ->.
  { apply existsb_exists. exists r. split; [apply H; now left|].
    now rewrite !Z.eqb_refl. }
  cbn [negb]. apply IH. intros x Hx. apply H. now right.
Qed.

Lemma level_written_append (old : list User.t) (u : User.t) :
  User.id u = next_id (map User.id old) -> level_written old (old ++ [u]) = [u].
Proof.
  intros Hk. unfold level_written. rewrite filter_app.
  fold (level_written old old). rewrite level_written_incl by auto.
  cbn [filter app].
  assert (existsb (fun o => (User.id o =? User.id u) && (User.level o =? User.level u)) old
          = false) as ->; [|reflexivity].
  apply not_true_is_false. intros E. apply existsb_exists in E as (o & Ho & E).
  apply andb_true_iff in E as [E _]. apply Z.eqb_eq in E.
  pose proof (@next_id_above (map User.id old) (User.id o) (in_map User.id _ _ Ho)). lia.
Qed.

(** Assigning to the row of a stored player writes its level only if the
    level changes. *)
Lemma level_written_put_user (P : Z -> bool) (d : DB) (current u : User.t) :
  In current (users d) -> User.id u = User.id current ->
  (User.level u <> User.level current -> P (User.level u) = true) ->
  forallb P (map User.level (level_written (users d) (users (put_user u d)))) = true.
Proof.
  intros Hin Hid HP. apply forallb_forall. intros l Hl.
  apply in_map_iff in Hl as (r' & <- & Hr'). unfold level_written in Hr'.
  apply filter_In in Hr' as [Hr' Hw]. apply negb_true_iff in Hw.
  unfold put_user in Hr'. cbn [users set_users] in Hr'.
  apply in_map_iff in Hr' as (r & <- & Hr).
  destruct (User.id r =? User.id u) eqn:E.
  - destruct (Z.eq_dec (User.level u) (User.level current)) as [Heq|Hne];
      [|exact (HP Hne)].
    exfalso. apply not_true_iff_false in Hw. apply Hw.
    apply existsb_exists. exists current. split; [exact Hin|].
    now rewrite Hid, Heq, !Z.eqb_refl.
  - exfalso. apply not_true_iff_false in Hw. apply Hw.
    apply existsb_exists. exists r. split; [exact Hr|]. now rewrite !Z.eqb_refl.
Qed.

Lemma flush_same (d : DB) : flush d d = None.
Proof.
  unfold flush. rewrite level_written_incl, !inserted_incl by auto. reflexivity.
Qed.

(** An inserted player at level 1 is stored. *)
Lemma flush_user_added (d : DB) (u : User.t) :
  User.id u = next_id (map User.id (users d)) -> User.level u = 1 ->
  flush d (set_users (users d ++ [u]) d) = None.
Proof.
  intros Hid Hl. unfold flush. cbn [users user_time sessions set_users].
  rewrite (level_written_append _ _ Hid), !inserted_incl by auto.
  cbn [map forallb existsb]. rewrite Hl. reflexivity.
Qed.

(** A bulk delete of sessions is stored. *)
Lemma flush_sessions_removed (d : DB) (keep : SessionToken.t -> bool) :
  flush d (set_sessions (filter keep (sessions d)) d) = None.
Proof.
  unfold flush. cbn [users user_time sessions set_sessions].
  rewrite level_written_incl, !inserted_incl; auto.
  intros r Hr. now apply filter_In in Hr.
Qed.

(** An inserted session is stored unless its token is in use. *)
Lemma flush_session_added (d : DB) (r : SessionToken.t) :
  SessionToken.id r = next_id (map SessionToken.id (sessions d)) ->
  flush d (set_sessions (sessions d ++ [r]) d)
  = if existsb (fun o => String.eqb (SessionToken.token o) (SessionToken.token r))
               (sessions d)
    then Some IntegrityError else None.
Proof.
  intros Hid. unfold flush. cbn [users user_time sessions set_sessions].
  rewrite level_written_incl, inserted_incl, (inserted_append _ _ _ Hid) by auto.
  cbn [map forallb existsb andb negb orb]. rewrite existsb_app. cbn [existsb].
  rewrite Z.eqb_refl. cbn [negb andb]. rewrite !orb_false_r.
  replace (existsb (fun o => negb (SessionToken.id o =? SessionToken.id r)
                             && String.eqb (SessionToken.token o) (SessionToken.token r))
                   (sessions d))
    with (existsb (fun o => String.eqb (SessionToken.token o) (SessionToken.token r))
                  (sessions d)); [reflexivity|].
  apply bool_eq_iff. rewrite !existsb_exists.
  split; intros (o & Ho & E); exists o; (split; [exact Ho|]).
  - rewrite E, andb_true_r. apply negb_true_iff, Z.eqb_neq.
    pose proof (@next_id_above (map SessionToken.id (sessions d)) (SessionToken.id o)
                  (in_map SessionToken.id _ _ Ho)). lia.
  - now apply andb_true_iff in E.
Qed.

(** An assignment to the row of a stored player together with an
    inserted time record is stored if the level, where it changes, is in
    1 .. 2^63 - 1 and the time fits 64 bits. *)
Lemma flush_level_time (d : DB) (current u : User.t) (t : UserTime.t)
    (its : list ItemModel.t) (links : list UserEarnedItem.t) :
  In current (users d) -> User.id u = User.id current ->
  (User.level u <> User.level current -> 1 <= User.level u < 2 ^ 63) ->
  UserTime.id t = next_id (map UserTime.id (user_time d)) ->
  flush d (mkDB (users (put_user u d)) (user_time d ++ [t]) its links (sessions d))
  = if int64 (UserTime.time t) then None else Some OverflowError.
Proof.
  intros Hin Hid Hl Ht. unfold flush. cbn [users user_time sessions].
  rewrite (@level_written_put_user int64 d current u Hin Hid),
    (@level_written_put_user (Z.leb 1) d current u Hin Hid).
  - rewrite (inserted_append _ _ _ Ht), inserted_incl by auto.
    cbn [map forallb existsb andb negb orb]. rewrite andb_true_r.
    destruct (int64 (UserTime.time t)); reflexivity.
  - intros Hne. apply Z.leb_le. now apply Hl.
  - intros Hne. apply int64_spec. specialize (Hl Hne). lia.
Qed.

Lemma flush_put_user (d : DB) (current u : User.t) :
  In current (users d) -> User.id u = User.id current ->
  (User.level u <> User.level current -> 1 <= User.level u < 2 ^ 63) ->
  flush d (put_user u d) = None.
Proof.
  intros Hin Hid Hl. unfold flush.
  change (user_time (put_user u d)) with (user_time d).
  change (sessions (put_user u d)) with (sessions d).
  rewrite (@level_written_put_user int64 d current u Hin Hid),
    (@level_written_put_user (Z.leb 1) d current u Hin Hid).
  - rewrite !inserted_incl by auto. reflexivity.
  - intros Hne. apply Z.leb_le. now apply Hl.
  - intros Hne. apply int64_spec. specialize (Hl Hne). lia.
Qed.

(** ** The grant loop of [complete_level] *)

Lemma grant_loop (uid : Z) (items : list ItemModel.t) :
  forall st us ts its es ss,
    for_each items
      (fun item =>
         already_has <- query_first user_earned_items
                          (fun e => (UserEarnedItem.user_id e =? uid)
                                    && (UserEarnedItem.item_id e =? ItemModel.id item)) ;;
         match already_has with
         | None => add_UserEarnedItem uid (ItemModel.id item)
         | Some _ => ret tt
         end)
      (mkSession st (mkDB us ts its es ss)) =
    (mkSession st
       (mkDB us ts its
          (add_links uid
             (filter (fun i => negb (has_link st uid (ItemModel.id i))) items) es)
          ss),
     Return tt).
Proof.
  induction items as [|i items IH]; intros st us ts its es ss.
  - reflexivity.
  - cbn [for_each filter]. unfold bind at 1. unfold bind at 1.
    unfold query_first at 1. cbn [stored].
    unfold has_link at 1. rewrite find_existsb.
    destruct (find _ (user_earned_items st)) as [e|].
    + cbn [negb]. unfold ret at 1. apply IH.
    + cbn [negb]. unfold add_UserEarnedItem at 1.
      unfold set_user_earned_items.
      cbn [work stored user_earned_items users user_time item sessions].
      rewrite IH. reflexivity.
Qed.

(** ** [complete_level] *)

Lemma set_level_same (u : User.t) : User.set_level (User.level u) u = u.
Proof. now destruct u. Qed.

(** With a balance that [int()] reads, the handler hands [completed] to
    [commit] and, if that is stored, assembles the view of the refreshed
    row. *)
Lemma complete_level_commits (d : DB) (data : CompleteLevelIn.t) (current : User.t) (m : Z) :
  Py.int (User.money current) = Some m ->
  complete_level data current (SessionLocal d) =
  match flush d (completed data current m d) with
  | None =>
      (c <- refresh (User.set_money (Py.str (m + CompleteLevelIn.coins_earned data))
                       (User.set_level (next_level (User.level current)) current)) ;;
       me c) (SessionLocal (completed data current m d))
  | Some e => (SessionLocal d, Raise e)
  end.
Proof.
  intros Hm. unfold complete_level, completed, next_level, SessionLocal.
  destruct (User.level current <? 5) eqn:E.
  - unfold bind at 1. unfold assign at 1. cbn [work stored].
    unfold bind at 1. cbn [User.money User.set_level]. rewrite Hm. unfold ret at 1.
    unfold bind at 1. unfold assign at 1. cbn [work stored].
    rewrite put_user_twice by reflexivity.
    unfold bind at 1. unfold add_UserTime at 1. cbn [work stored].
    unfold bind at 1. unfold query_items_named at 1. cbn [stored].
    unfold bind at 1.
    unfold put_user, set_user_time, set_users.
    cbn [users user_time item user_earned_items sessions User.id User.set_money
         User.set_level User.level].
    rewrite grant_loop.
    unfold bind at 1. unfold commit at 1. cbn [work stored].
    destruct (flush _ _); reflexivity.
  - unfold bind at 1. unfold ret at 1.
    unfold bind at 1. rewrite Hm. unfold ret at 1.
    unfold bind at 1. unfold assign at 1. cbn [work stored].
    unfold bind at 1. unfold add_UserTime at 1. cbn [work stored].
    unfold bind at 1. unfold query_items_named at 1. cbn [stored].
    unfold bind at 1.
    unfold put_user, set_user_time, set_users.
    cbn [users user_time item user_earned_items sessions User.id User.set_money
         User.set_level User.level].
    rewrite grant_loop.
    unfold bind at 1. unfold commit at 1. cbn [work stored].
    rewrite set_level_same.
    destruct (flush _ _); reflexivity.
Qed.

Lemma complete_level_raises (d : DB) (data : CompleteLevelIn.t) (current : User.t) :
  Py.int (User.money current) = None ->
  exists w, complete_level data current (SessionLocal d) =
            (mkSession d w, Raise (HTTPException 500 "Formato inválido en campo 'money'")).
Proof.
  intros Hm. unfold complete_level, SessionLocal.
  destruct (User.level current <? 5).
  - unfold bind at 1. unfold assign at 1. cbn [work stored].
    unfold bind at 1. cbn [User.money User.set_level]. rewrite Hm.
    unfold raise. eexists. reflexivity.
  - unfold bind at 1. unfold ret at 1.
    unfold bind at 1. rewrite Hm. unfold raise. eexists. reflexivity.
Qed.

(** Reading the view back changes nothing and raises no [HTTPException]. *)
Lemma me_session (u : User.t) (s : Session) :
  me u s = (s, if School (User.school u) && Gender (User.gender u)
               then Return (assemble (stored s) u)
               else Raise ValidationError).
Proof.
  unfold me, bind, query_earned_items, UserOut_init, assemble.
  destruct (School (User.school u) && Gender (User.gender u)); reflexivity.
Qed.

Lemma view_tail (u : User.t) (s : Session) :
  exists r, (c <- refresh u ;; me c) s = (s, r)
            /\ (forall code detail, r <> Raise (HTTPException code detail))
            /\ (forall row, get_user (stored s) (User.id u) = Some row ->
                  School (User.school row) = true -> Gender (User.gender row) = true ->
                  r = Return (assemble (stored s) row)).
Proof.
  unfold bind, refresh.
  destruct (get_user (stored s) (User.id u)) as [row|].
  - rewrite me_session.
    destruct (School (User.school row) && Gender (User.gender row)) eqn:E.
    + eexists. split; [reflexivity|]. split; [discriminate|].
      intros row' Hr Hs Hg. injection Hr as <-. reflexivity.
    + eexists. split; [reflexivity|]. split; [discriminate|].
      intros row' Hr Hs Hg. injection Hr as <-. rewrite Hs, Hg in E. discriminate.
  - eexists. split; [reflexivity|]. split; [discriminate|]. discriminate.
Qed.

(** ** Authentication *)

Lemma user_by_token_session (now : Z) (token : string) (s : Session) :
  user_by_token now token s =
  (s, Return
        match find (fun r => String.eqb (SessionToken.token r) token
                             && (now <? SessionToken.expires_at r))
                   (sessions (stored s)) with
        | Some sess => get_user (stored s) (SessionToken.user_id sess)
        | None => None
        end).
Proof.
  unfold user_by_token, bind, query_first, query_get_user, ret.
  destruct (find _ (sessions (stored s))); reflexivity.
Qed.

Lemma require_auth_session (now : Z) (authorization : option string) (s : Session) :
  exists r, require_auth now authorization s = (s, r)
            /\ forall current, r = Return current ->
                 get_user (stored s) (User.id current) = Some current.
Proof.
  unfold require_auth. destruct authorization as [a|].
  - destruct (String.eqb a "" || negb (Py.startswith "Bearer " a)).
    + eexists. split; [reflexivity|]. discriminate.
    + destruct (nth_error (Py.split " " a) 1) as [token|].
      * unfold bind. rewrite user_by_token_session.
        destruct (find _ (sessions (stored s))) as [sess|].
        -- destruct (get_user (stored s) (SessionToken.user_id sess)) as [u|] eqn:E.
           ++ eexists. split; [reflexivity|]. intros c Hc. injection Hc as <-.
              now rewrite (get_user_id _ _ E).
           ++ eexists. split; [reflexivity|]. discriminate.
        -- eexists. split; [reflexivity|]. discriminate.
      * eexists. split; [reflexivity|]. discriminate.
  - eexists. split; [reflexivity|]. discriminate.
Qed.

Lemma authenticates_row (d : DB) (now : Z) (authorization : option string) (current : User.t) :
  authenticates d now authorization current ->
  get_user d (User.id current) = Some current.
Proof.
  unfold authenticates. intros H.
  destruct (require_auth_session now authorization (SessionLocal d)) as (r & Hr & Hrow).
  rewrite Hr in H. injection H as ->. exact (Hrow _ eq_refl).
Qed.

(** ** [update_me] *)

Lemma bind_ret {A B} (a : A) (k : A -> M B) (s : Session) :
  bind (ret a) k s = k a s.
Proof. reflexivity. Qed.

Lemma bind_raise {A B} (e : Exception) (k : A -> M B) (s : Session) :
  bind (raise e) k s = (s, Raise e).
Proof. reflexivity. Qed.

Lemma bind_assign {B} (u : User.t) (k : User.t -> M B) (s : Session) :
  bind (assign u) k s = k u (mkSession (stored s) (put_user u (work s))).
Proof. reflexivity. Qed.

Lemma bind_commit {B} (k : unit -> M B) (s : Session) :
  bind commit k s =
  match flush (stored s) (work s) with
  | None => k tt (mkSession (work s) (work s))
  | Some e => (mkSession (stored s) (stored s), Raise e)
  end.
Proof. unfold bind, commit. destruct (flush _ _); reflexivity. Qed.

Lemma bind_ret_r {A} (m : M A) (s : Session) :
  bind m (fun a => ret a) s = m s.
Proof. unfold bind, ret. destruct (m s) as [s' []]; reflexivity. Qed.

Ltac run_step :=
  first [ rewrite bind_ret | rewrite bind_assign | rewrite bind_raise
        | rewrite bind_commit ];
  cbn [work stored].

Lemma update_me_invalid_school (d : DB) (data : UpdateMeIn.t) (current : User.t) :
  field_ok SCHOOL_VALUES (UpdateMeIn.school data) = false ->
  exists w, update_me data current (SessionLocal d) =
            (mkSession d w, Raise (HTTPException 400 "school inválido")).
Proof.
  unfold field_ok. destruct data as [n [v|] g mo l]; [|discriminate].
  cbn [UpdateMeIn.school]. intros H.
  unfold update_me, SessionLocal. cbn [UpdateMeIn.name UpdateMeIn.school].
  rewrite H. cbn [negb].
  destruct n; repeat run_step; eexists; reflexivity.
Qed.

Lemma update_me_invalid_gender (d : DB) (data : UpdateMeIn.t) (current : User.t) :
  field_ok SCHOOL_VALUES (UpdateMeIn.school data) = true ->
  field_ok GENDER_VALUES (UpdateMeIn.gender data) = false ->
  exists w, update_me data current (SessionLocal d) =
            (mkSession d w, Raise (HTTPException 400 "gender inválido")).
Proof.
  unfold field_ok. destruct data as [n s [v|] mo l]; [|discriminate].
  cbn [UpdateMeIn.school UpdateMeIn.gender]. intros Hs Hg.
  unfold update_me, SessionLocal.
  cbn [UpdateMeIn.name UpdateMeIn.school UpdateMeIn.gender].
  rewrite Hg. cbn [negb].
  destruct n; destruct s; try rewrite Hs; cbn [negb];
    repeat run_step; eexists; reflexivity.
Qed.

(** With its enumerations passed, the handler hands [updated] to [commit]
    and, if that is stored, returns the refreshed row. *)
Lemma update_me_exact (d : DB) (data : UpdateMeIn.t) (current : User.t) :
  field_ok SCHOOL_VALUES (UpdateMeIn.school data) = true ->
  field_ok GENDER_VALUES (UpdateMeIn.gender data) = true ->
  update_me data current (SessionLocal d) =
  match flush d (updated data current d) with
  | None => refresh (patched data current) (SessionLocal (updated data current d))
  | Some e => (SessionLocal d, Raise e)
  end.
Proof.
  unfold field_ok. destruct data as [n s g mo l].
  cbn [UpdateMeIn.school UpdateMeIn.gender]. intros Hs Hg.
  unfold update_me, patched, updated, empty_patch, SessionLocal.
  cbn [UpdateMeIn.name UpdateMeIn.school UpdateMeIn.gender UpdateMeIn.money UpdateMeIn.level].
  destruct n; destruct s; try rewrite Hs; destruct g; try rewrite Hg;
    destruct mo; destruct l; cbn [negb]; repeat run_step;
    repeat (rewrite put_user_twice by reflexivity);
    (destruct (flush _ _); [reflexivity|rewrite bind_ret_r; reflexivity]).
Qed.

Lemma valid_fields_ok (data : UpdateMeIn.t) :
  UpdateMeIn.valid data = true ->
  field_ok SCHOOL_VALUES (UpdateMeIn.school data) = true
  /\ field_ok GENDER_VALUES (UpdateMeIn.gender data) = true.
Proof.
  unfold UpdateMeIn.valid, field_ok, School, Gender. intros H.
  apply andb_true_iff in H as [H _]. apply andb_true_iff in H as [Hs Hg].
  split; [destruct (UpdateMeIn.school data)|destruct (UpdateMeIn.gender data)]; auto.
Qed.

Lemma patched_fields (data : UpdateMeIn.t) (u : User.t) :
  User.id (patched data u) = User.id u
  /\ User.document (patched data u) = User.document u
  /\ User.name (patched data u)
     = match UpdateMeIn.name data with Some v => v | None => User.name u end
  /\ User.school (patched data u)
     = match UpdateMeIn.school data with Some v => v | None => User.school u end
  /\ User.gender (patched data u)
     = match UpdateMeIn.gender data with Some v => v | None => User.gender u end
  /\ User.money (patched data u)
     = match UpdateMeIn.money data with Some v => v | None => User.money u end
  /\ User.level (patched data u)
     = match UpdateMeIn.level data with Some v => v | None => User.level u end.
Proof.
  unfold patched. destruct data as [[?|] [?|] [?|] [?|] [?|]]; repeat split.
Qed.

Lemma get_user_In (d : DB) (k : Z) (u : User.t) :
  get_user d k = Some u -> In u (users d).
Proof. unfold get_user. intros H. now apply find_some in H. Qed.

(** A patch that passes its schema with a level the database can hold is
    stored. *)
Lemma flush_updated (d : DB) (data : UpdateMeIn.t) (current : User.t) :
  In current (users d) ->
  UpdateMeIn.valid data = true -> level_fits (UpdateMeIn.level data) ->
  flush d (updated data current d) = None.
Proof.
  intros Hin Hv Hfit. unfold updated.
  destruct (empty_patch data); [apply flush_same|].
  destruct (patched_fields data current) as (Pid & _ & _ & _ & _ & _ & Pl).
  apply (@flush_put_user d current _ Hin Pid). rewrite Pl. intros Hne.
  unfold UpdateMeIn.valid in Hv. apply andb_true_iff in Hv as [_ Hv].
  unfold level_fits in Hfit.
  destruct (UpdateMeIn.level data) as [l|]; [|contradiction].
  apply Z.leb_le in Hv. lia.
Qed.

(** ** [register], [login], [logout] *)

Lemma register_store (d : DB) (payload : RegisterIn.t) :
  exists s r, register payload (SessionLocal d) = (s, r)
              /\ effect d (Register payload) (close s).
Proof.
  unfold register.
  destruct (negb (Py.contains SCHOOL_VALUES (RegisterIn.school payload))).
  { eexists _, _. split; [reflexivity|]. constructor. }
  destruct (negb (Py.contains GENDER_VALUES (RegisterIn.gender payload))).
  { eexists _, _. split; [reflexivity|]. constructor. }
  unfold bind at 1. unfold query_first at 1. unfold SessionLocal at 1. cbn [stored].
  destruct (find _ (users d)) as [u|] eqn:E.
  { eexists _, _. split; [reflexivity|]. constructor. }
  unfold bind at 1. unfold add_User at 1. cbn [work stored SessionLocal].
  run_step. destruct (flush _ _).
  { eexists _, _. split; [reflexivity|]. constructor. }
  rewrite bind_ret_r. unfold refresh. cbn [stored].
  destruct (get_user _ _); eexists _, _; (split; [reflexivity|]);
    cbn [close stored]; now constructor.
Qed.

(** The session a login inserts. *)
Lemma login_exact (d : DB) (token : string) (now : Z) (payload : LoginIn.t) :
  login token now payload (SessionLocal d) =
  match by_document d (LoginIn.document payload) with
  | None => (SessionLocal d,
             Raise (HTTPException 404 "Usuario no encontrado; regístrese primero"))
  | Some user =>
      let d' := set_sessions
                  (sessions d ++ [SessionToken.mk (next_id (map SessionToken.id (sessions d)))
                                    (User.id user) token (now + timedelta_days 7)]) d in
      if existsb (fun o => String.eqb (SessionToken.token o) token) (sessions d)
      then (SessionLocal d, Raise IntegrityError)
      else (SessionLocal d',
            if School (User.school user) && Gender (User.gender user)
            then Return (LoginOut.mk token (assemble d' user))
            else Raise ValidationError)
  end.
Proof.
  unfold login, by_document.
  unfold bind at 1. unfold query_first at 1. cbn [stored SessionLocal].
  destruct (find _ (users d)) as [user|]; [|reflexivity].
  unfold create_session.
  unfold bind at 1. unfold bind at 1.
  unfold add_SessionToken at 1. cbn [work stored SessionLocal].
  rewrite bind_commit. cbn [work stored].
  rewrite flush_session_added by reflexivity. cbn [SessionToken.token].
  destruct (existsb _ (sessions d)); [reflexivity|].
  unfold ret at 1.
  unfold bind at 1. unfold query_earned_items at 1.
  unfold bind. unfold UserOut_init. cbv zeta.
  destruct (School (User.school user) && Gender (User.gender user)); reflexivity.
Qed.

Lemma login_store (d : DB) (token : string) (now : Z) (payload : LoginIn.t) :
  exists s r, login token now payload (SessionLocal d) = (s, r)
              /\ effect d (Login token now payload) (close s).
Proof.
  rewrite login_exact.
  destruct (by_document d (LoginIn.document payload)) as [u|] eqn:E.
  - cbv zeta. destruct (existsb _ (sessions d)).
    + eexists _, _. split; [reflexivity|]. constructor.
    + eexists _, _. split; [reflexivity|]. cbn [close stored SessionLocal].
      apply effect_login. unfold by_document in E. now apply find_some in E.
  - eexists _, _. split; [reflexivity|]. constructor.
Qed.

Lemma logout_run (d : DB) (token : string) :
  logout token (SessionLocal d) =
  (SessionLocal
     (set_sessions (filter (fun r => negb (String.eqb (SessionToken.token r) token))
                           (sessions d)) d),
   Return (LogoutOut.mk true
             (Z.of_nat (List.length
                (filter (fun r => String.eqb (SessionToken.token r) token) (sessions d)))))).
Proof.
  unfold logout. unfold bind at 1. unfold delete_sessions at 1.
  cbn [work stored SessionLocal].
  rewrite bind_commit. cbn [work stored].
  now rewrite flush_sessions_removed.
Qed.

(** ** Routes *)

Lemma get_db_response {A} (m : M A) (f : A -> Object) (d : DB) :
  fst (get_db (x <- m ;; response_model (f x)) d) = close (fst (m (SessionLocal d))).
Proof.
  unfold get_db, bind. destruct (m (SessionLocal d)) as [s [a|e]]; [|reflexivity].
  unfold response_model. destruct (UserOut_validate (f a)); reflexivity.
Qed.

Lemma authenticated_run {D A} (d : DB) (now : Z) (authorization : option string)
    (valid : D -> bool) (data : D) (handler : D -> User.t -> M A) (current : User.t) :
  authenticates d now authorization current ->
  authenticated now authorization valid data handler (SessionLocal d) =
  if valid data then handler data current (SessionLocal d)
  else (SessionLocal d, Raise RequestValidationError).
Proof.
  unfold authenticates, authenticated. intros H.
  unfold bind at 1. rewrite H. unfold body.
  destruct (valid data); reflexivity.
Qed.

Lemma authenticated_cases {D A} (d : DB) (now : Z) (authorization : option string)
    (valid : D -> bool) (data : D) (handler : D -> User.t -> M A) :
  (exists e, authenticated now authorization valid data handler (SessionLocal d)
             = (SessionLocal d, Raise e))
  \/ (exists current, authenticates d now authorization current
                      /\ valid data = true
                      /\ authenticated now authorization valid data handler (SessionLocal d)
                         = handler data current (SessionLocal d)).
Proof.
  destruct (require_auth_session now authorization (SessionLocal d)) as (r & Hr & _).
  destruct r as [current|e].
  - rewrite (authenticated_run valid data handler Hr).
    destruct (valid data) eqn:E.
    + right. exists current. auto.
    + left. eexists. reflexivity.
  - left. exists e. unfold authenticated, bind. now rewrite Hr.
Qed.

(** What a call of [complete_level] leaves stored. *)
Lemma complete_level_store (d : DB) (data : CompleteLevelIn.t) (current : User.t) :
  close (fst (complete_level data current (SessionLocal d))) =
  match Py.int (User.money current) with
  | Some m =>
      match flush d (completed data current m d) with
      | None => completed data current m d
      | Some _ => d
      end
  | None => d
  end.
Proof.
  destruct (Py.int (User.money current)) as [m|] eqn:Hm.
  - rewrite (complete_level_commits d data current Hm).
    destruct (flush _ _); [reflexivity|].
    destruct (view_tail
                (User.set_money (Py.str (m + CompleteLevelIn.coins_earned data))
                   (User.set_level (next_level (User.level current)) current))
                (SessionLocal (completed data current m d))) as (r & Hr & _).
    rewrite Hr. reflexivity.
  - destruct (complete_level_raises d data current Hm) as [w Hw].
    rewrite Hw. reflexivity.
Qed.

(** The state a complete-level call hands to [commit] is stored when the
    player's level is at least 1 and the time fits 64 bits, and refused
    with [OverflowError] when the time does not fit. *)
Lemma flush_completed (d : DB) (data : CompleteLevelIn.t) (current : User.t) (m : Z) :
  In current (users d) -> 1 <= User.level current ->
  flush d (completed data current m d)
  = if int64 (CompleteLevelIn.time_spent data) then None else Some OverflowError.
Proof.
  intros Hin Hl. unfold completed.
  rewrite (@flush_level_time d current _ _ _ _ Hin); try reflexivity.
  cbn [User.level User.set_money User.set_level]. unfold next_level.
  destruct (User.level current <? 5) eqn:E; intros Hne.
  - apply Z.ltb_lt in E. lia.
  - now contradiction Hne.
Qed.

Lemma update_me_store (d : DB) (data : UpdateMeIn.t) (current : User.t) :
  UpdateMeIn.valid data = true ->
  close (fst (update_me data current (SessionLocal d))) = d
  \/ close (fst (update_me data current (SessionLocal d)))
     = put_user (patched data current) d.
Proof.
  intros Hv. destruct (valid_fields_ok data Hv) as [Hs Hg].
  rewrite (update_me_exact d data current Hs Hg).
  destruct (flush _ _); [now left|].
  unfold refresh. cbn [stored SessionLocal]. unfold updated.
  destruct (get_user _ _); cbn [fst close stored];
    destruct (empty_patch data); auto.
Qed.

(** Every request acts on the database as [effect] describes. *)
Lemma serve_effect (r : Request) (d : DB) : effect d r (serve r d).
Proof.
  destruct r as [payload|token now payload|token|now a|now a data|now a data];
    cbn [serve].
  - unfold POST_auth_register, get_db, body. 
    destruct (RegisterIn.valid payload); [|constructor].
    rewrite bind_ret. unfold bind.
    destruct (register_store d payload) as (s & r & Hr & He). rewrite Hr.
    destruct r; [|exact He].
    unfold response_model. destruct (UserOut_validate _); exact He.
  - unfold POST_auth_login, get_db, body.
    destruct (LoginIn.valid payload); [|constructor].
    rewrite bind_ret.
    destruct (login_store d token now payload) as (s & r & Hr & He). rewrite Hr.
    exact He.
  - unfold POST_auth_logout, get_db. rewrite logout_run. constructor.
  - unfold GET_me, get_db, bind.
    destruct (require_auth_session now a (SessionLocal d)) as (r & Hr & _).
    rewrite Hr. destruct r; [|constructor].
    rewrite me_session.
    destruct (School _ && Gender _); [|constructor].
    unfold response_model. destruct (UserOut_validate _); constructor.
  - unfold POST_me_complete_level. rewrite get_db_response.
    destruct (authenticated_cases d now a CompleteLevelIn.valid data complete_level)
      as [[e He]|(current & Hc & Hv & Hrun)].
    + rewrite He. constructor.
    + rewrite Hrun, complete_level_store.
      destruct (Py.int (User.money current)) eqn:Hm; [|constructor].
      destruct (flush _ _); [constructor|].
      now apply effect_complete_level.
  - unfold PUT_me. rewrite get_db_response.
    destruct (authenticated_cases d now a UpdateMeIn.valid data update_me)
      as [[e He]|(current & Hc & Hv & Hrun)].
    + rewrite He. constructor.
    + rewrite Hrun. destruct (update_me_store d data current Hv) as [-> | ->].
      * constructor.
      * now apply effect_update.
Qed.

(** ** Players across requests *)

Lemma get_user_users (d1 d2 : DB) (k : Z) :
  users d1 = users d2 -> get_user d1 k = get_user d2 k.
Proof. unfold get_user. now intros ->. Qed.

Lemma get_user_append (d : DB) (x u : User.t) (k : Z) :
  get_user d k = Some u ->
  get_user (set_users (users d ++ [x]) d) k = Some u.
Proof.
  unfold get_user. cbn [users set_users]. generalize (users d).
  induction l as [|y l IH]; [discriminate|].
  cbn [find app]. destruct (User.id y =? k); [trivial|exact IH].
Qed.

Lemma next_level_bounds (l : Z) :
  l <= next_level l /\ next_level l <= l + 1 /\ (l <= 5 -> next_level l <= 5)
  /\ (l < 5 -> next_level l = l + 1) /\ (5 <= l -> next_level l = l).
Proof.
  unfold next_level. destruct (l <? 5) eqn:E.
  - apply Z.ltb_lt in E. lia.
  - apply Z.ltb_ge in E. lia.
Qed.

(** The row of the calling player after a committed [complete_level]. *)
Lemma get_user_completed (d : DB) (data : CompleteLevelIn.t) (current : User.t) (m k : Z) :
  get_user (completed data current m d) k =
  option_map
    (fun r => if User.id r =? User.id current
              then User.set_money (Py.str (m + CompleteLevelIn.coins_earned data))
                     (User.set_level (next_level (User.level current)) current)
              else r)
    (get_user d k).
Proof.
  rewrite <- (get_user_put_user
                (User.set_money (Py.str (m + CompleteLevelIn.coins_earned data))
                   (User.set_level (next_level (User.level current)) current))).
  apply get_user_users. reflexivity.
Qed.

(** No request other than a profile update lowers a level, lifts a level
    from 1..5 above 5, or lowers a balance that [int()] reads. *)
Lemma effect_player (d d' : DB) (r : Request) (uid : Z) (u : User.t) :
  effect d r d' -> is_update r = false ->
  get_user d uid = Some u ->
  exists u', get_user d' uid = Some u'
             /\ User.level u <= User.level u'
             /\ (User.level u <= 5 -> User.level u' <= 5)
             /\ (forall n, Py.int (User.money u) = Some n ->
                   exists n', Py.int (User.money u') = Some n' /\ n <= n').
Proof.
  intros He Hr Hu.
  assert (forall d2, users d2 = users d ->
            exists u', get_user d2 uid = Some u'
             /\ User.level u <= User.level u'
             /\ (User.level u <= 5 -> User.level u' <= 5)
             /\ (forall n, Py.int (User.money u) = Some n ->
                   exists n', Py.int (User.money u') = Some n' /\ n <= n')) as Same.
  { intros d2 H2. exists u. rewrite (get_user_users d2 d uid H2).
    repeat split; try lia; try assumption.
    intros n Hn. exists n. split; [assumption|lia]. }
  destruct He as [r|payload Hfresh|token now payload user Hin|token
                  |now a data current m Ha Hv Hm|now a data current Ha Hv];
    try (apply Same; reflexivity).
  - exists u. rewrite (@get_user_append d _ u uid Hu).
    repeat split; try lia. intros n Hn. exists n. split; [assumption|lia].
  - rewrite get_user_completed, Hu. cbn [option_map].
    destruct (User.id u =? User.id current) eqn:E.
    + apply Z.eqb_eq in E. pose proof (authenticates_row Ha) as Hrow.
      rewrite <- E, (get_user_id _ _ Hu), Hu in Hrow. injection Hrow as ->.
      eexists. split; [reflexivity|].
      cbn [User.level User.set_money User.set_level User.money].
      pose proof (next_level_bounds (User.level current)) as B.
      repeat split; try lia.
      intros n Hn. rewrite Hm in Hn. injection Hn as <-.
      exists (m + CompleteLevelIn.coins_earned data). split; [apply int_str|].
      unfold CompleteLevelIn.valid in Hv. apply andb_true_iff in Hv as [Hv _].
      apply Z.leb_le in Hv. lia.
    + exists u. repeat split; try lia. intros n Hn. exists n. split; [assumption|lia].
  - discriminate Hr.
Qed.

Lemma run_app (a b : list Request) (d : DB) : run (a ++ b) d = run b (run a d).
Proof. unfold run. apply fold_left_app. Qed.

Lemma run_player (requests : list Request) :
  forall (d : DB) (uid : Z) (u : User.t),
    Forall (fun r => is_update r = false) requests ->
    get_user d uid = Some u ->
    exists u', get_user (run requests d) uid = Some u'
               /\ User.level u <= User.level u'
               /\ (User.level u <= 5 -> User.level u' <= 5)
               /\ (forall n, Py.int (User.money u) = Some n ->
                     exists n', Py.int (User.money u') = Some n' /\ n <= n').
Proof.
  induction requests as [|r requests IH]; intros d uid u HF Hu.
  - exists u. cbn. repeat split; try lia; try assumption.
    intros n Hn. exists n. split; [assumption|lia].
  - inversion HF as [|? ? Hr HF']; subst.
    destruct (@effect_player d (serve r d) r uid u (serve_effect r d) Hr Hu)
      as (u1 & H1 & L1 & C1 & M1).
    destruct (IH (serve r d) uid u1 HF' H1) as (u2 & H2 & L2 & C2 & M2).
    exists u2. cbn [run fold_left]. split; [exact H2|].
    split; [lia|]. split; [intros; apply C2, C1; assumption|].
    intros n Hn. destruct (M1 n Hn) as (n1 & Hn1 & Le1).
    destruct (M2 n1 Hn1) as (n2 & Hn2 & Le2). exists n2. split; [assumption|lia].
Qed.

Lemma complete_level_is_not_update (requests : list Request) :
  Forall (fun r => is_complete_level r = true) requests -> Forall (fun r => is_update r = false) requests.
Proof.
  apply Forall_impl. intros [] H; (reflexivity || discriminate H).
Qed.

(** The store after an authenticated call with a valid body. *)
Lemma POST_me_complete_level_store (d : DB) (now : Z) (authorization : option string)
    (data : CompleteLevelIn.t) (current : User.t) :
  authenticates d now authorization current ->
  CompleteLevelIn.valid data = true ->
  fst (POST_me_complete_level now authorization data d) =
  match Py.int (User.money current) with
  | Some m =>
      match flush d (completed data current m d) with
      | None => completed data current m d
      | Some _ => d
      end
  | None => d
  end.
Proof.
  intros Ha Hv. unfold POST_me_complete_level.
  rewrite get_db_response, (authenticated_run _ _ _ Ha), Hv.
  apply complete_level_store.
Qed.

Lemma int64_time (time : Z) : 0 <= time < 2 ^ 63 -> int64 time = true.
Proof. intros H. apply int64_spec. lia. Qed.

(** The store after a call that the database accepts. *)
Lemma POST_me_complete_level_stored (d : DB) (now : Z) (authorization : option string)
    (data : CompleteLevelIn.t) (current : User.t) (m : Z) :
  authenticates d now authorization current ->
  0 <= CompleteLevelIn.coins_earned data ->
  0 <= CompleteLevelIn.time_spent data < 2 ^ 63 ->
  1 <= User.level current ->
  Py.int (User.money current) = Some m ->
  fst (POST_me_complete_level now authorization data d) = completed data current m d.
Proof.
  intros Ha Hc Ht Hl Hm.
  assert (CompleteLevelIn.valid data = true) as Hv.
  { unfold CompleteLevelIn.valid. apply andb_true_iff. split; apply Z.leb_le; lia. }
  rewrite (@POST_me_complete_level_store d now authorization data current Ha Hv), Hm.
  rewrite (@flush_completed d data current m (get_user_In _ _ (authenticates_row Ha)) Hl).
  now rewrite (int64_time Ht).
Qed.

Lemma valid_complete_level (data : CompleteLevelIn.t) :
  0 <= CompleteLevelIn.coins_earned data -> 0 <= CompleteLevelIn.time_spent data ->
  CompleteLevelIn.valid data = true.
Proof.
  intros H1 H2. unfold CompleteLevelIn.valid.
  apply andb_true_iff. split; now apply Z.leb_le.
Qed.

(** ** The level transition *)

(** C1 (as amended): for every authenticated player at a level of at
    least 1 whose stored balance is read by [int()] as [m], and every call
    with coins of at least 0 and a time of at least 0 that fits the
    database's 64-bit integers (balance and sum within the interpreter's
    digit cap), the committed level is one more when it was below 5 and
    still 5 when it was 5, the balance becomes the text of
    [m + coins_earned], and one time record for the level just completed
    is appended; and along any sequence of complete-level requests a level
    that starts in 1..5 never decreases and never exceeds 5. *)
Theorem complete_level_transition :
  (forall (d : DB) (now : Z) (authorization : option string)
          (data : CompleteLevelIn.t) (current : User.t) (m : Z),
      authenticates d now authorization current ->
      0 <= CompleteLevelIn.coins_earned data ->
      0 <= CompleteLevelIn.time_spent data < 2 ^ 63 ->
      1 <= User.level current ->
      Py.int (User.money current) = Some m ->
      Py.within_length (User.money current) ->
      Py.within_digits (m + CompleteLevelIn.coins_earned data) ->
      let d' := fst (POST_me_complete_level now authorization data d) in
      exists current',
        get_user d' (User.id current) = Some current'
        /\ (User.level current < 5 -> User.level current' = User.level current + 1)
        /\ (User.level current = 5 -> User.level current' = 5)
        /\ User.money current' = Py.str (m + CompleteLevelIn.coins_earned data)
        /\ user_time d' =
           user_time d ++ [UserTime.mk (next_id (map UserTime.id (user_time d)))
                             (User.id current) (CompleteLevelIn.time_spent data)
                             (User.level current' - 1)])
  /\
  (forall (d : DB) (before after : list Request) (uid : Z) (u : User.t),
      Forall (fun r => is_complete_level r = true) (before ++ after) ->
      get_user d uid = Some u ->
      1 <= User.level u <= 5 ->
      exists u1 u2,
        get_user (run before d) uid = Some u1
        /\ get_user (run (before ++ after) d) uid = Some u2
        /\ User.level u <= User.level u1
        /\ User.level u1 <= User.level u2
        /\ User.level u2 <= 5).
Proof.
  split.
  - intros d now authorization data current m Ha Hc Ht Hl Hm _ _ d'. subst d'.
    rewrite (@POST_me_complete_level_stored d now authorization data current m
               Ha Hc Ht Hl Hm).
    rewrite get_user_completed, (authenticates_row Ha). cbn [option_map].
    rewrite Z.eqb_refl. eexists. split; [reflexivity|].
    cbn [User.level User.money User.set_money User.set_level].
    pose proof (next_level_bounds (User.level current)) as B.
    repeat split; try lia. 
  - intros d before after uid u HF Hu Hl.
    apply Forall_app in HF as [HF1 HF2].
    destruct (@run_player before d uid u (complete_level_is_not_update HF1) Hu)
      as (u1 & H1 & L1 & C1 & _).
    destruct (@run_player after (run before d) uid u1
                (complete_level_is_not_update HF2) H1)
      as (u2 & H2 & L2 & C2 & _).
    exists u1, u2. rewrite run_app. repeat split; try assumption.
    apply C2, C1. lia.
Qed.

Lemma complete_level_transition_witness :
  (authenticates signed_in 1 bearer_T ana_row
   /\ Py.int (User.money ana_row) = Some 0
   /\ Py.within_length (User.money ana_row)
   /\ Py.within_digits (0 + 10)
   /\ exists current',
        get_user (fst (POST_me_complete_level 1 bearer_T (CompleteLevelIn.mk 10 30)
                         signed_in)) 1 = Some current'
        /\ (User.level ana_row < 5 -> User.level current' = User.level ana_row + 1)
        /\ (User.level ana_row = 5 -> User.level current' = 5)
        /\ User.money current' = Py.str (0 + 10)
        /\ user_time (fst (POST_me_complete_level 1 bearer_T (CompleteLevelIn.mk 10 30)
                             signed_in)) =
           user_time signed_in ++ [UserTime.mk (next_id (map UserTime.id (user_time signed_in)))
                                     1 30 (User.level current' - 1)])
  /\
  (Forall (fun r => is_complete_level r = true)
     ([CompleteLevel 1 bearer_T (CompleteLevelIn.mk 10 30)]
      ++ [CompleteLevel 2 bearer_T (CompleteLevelIn.mk 5 5)])
   /\ get_user signed_in 1 = Some ana_row
   /\ exists u1 u2,
        get_user (run [CompleteLevel 1 bearer_T (CompleteLevelIn.mk 10 30)] signed_in) 1
        = Some u1
        /\ get_user (run ([CompleteLevel 1 bearer_T (CompleteLevelIn.mk 10 30)]
                          ++ [CompleteLevel 2 bearer_T (CompleteLevelIn.mk 5 5)])
                       signed_in) 1 = Some u2
        /\ User.level ana_row <= User.level u1
        /\ User.level u1 <= User.level u2
        /\ User.level u2 <= 5).
Proof.
  split.
  - assert (Py.within_length (User.money ana_row)) as Hlen.
    { vm_compute. discriminate. }
    assert (Py.within_digits (0 + 10)) as Hdig by (vm_compute; reflexivity).
    split; [reflexivity|]. split; [reflexivity|].
    split; [exact Hlen|]. split; [exact Hdig|].
    apply (proj1 complete_level_transition signed_in 1 bearer_T
             (CompleteLevelIn.mk 10 30) ana_row 0).
    + reflexivity.
    + cbn; lia.
    + cbn; lia.
    + cbn; lia.
    + reflexivity.
    + exact Hlen.
    + exact Hdig.
  - assert (Forall (fun r => is_complete_level r = true)
              ([CompleteLevel 1 bearer_T (CompleteLevelIn.mk 10 30)]
               ++ [CompleteLevel 2 bearer_T (CompleteLevelIn.mk 5 5)])) as HF.
    { repeat constructor. }
    split; [exact HF|]. split; [reflexivity|].
    apply (proj2 complete_level_transition signed_in _ _ 1 ana_row HF).
    + reflexivity.
    + cbn; lia.
Defined.

(** A balance that [int()] rejects: the call fails and the level stays. *)
Lemma complete_level_unreadable_balance :
  let current := User.mk 1 "A100" "Ana" "Aguachica" "Masculino" "abc" 1 in
  let data := CompleteLevelIn.mk 10 30 in
  authenticates corrupted 2 bearer_T current
  /\ 0 <= CompleteLevelIn.coins_earned data
  /\ 0 <= CompleteLevelIn.time_spent data
  /\ User.level current < 5
  /\ POST_me_complete_level 2 bearer_T data corrupted
     = (corrupted, Raise (HTTPException 500 "Formato inválido en campo 'money'"))
  /\ get_user corrupted 1 = Some current
  /\ user_time corrupted = [].
Proof.
  cbv zeta. repeat split; try reflexivity; cbn; lia.
Qed.

(** ** Earned items *)

Lemma map_link_add_links (uid : Z) (items : list ItemModel.t) :
  forall earned,
    map link (add_links uid items earned) =
    map link earned ++ map (fun i => (uid, ItemModel.id i)) items.
Proof.
  unfold add_links. induction items as [|i items IH]; intros earned.
  - cbn. now rewrite app_nil_r.
  - cbn [fold_left map]. rewrite IH, map_app. cbn [map link UserEarnedItem.user_id
      UserEarnedItem.item_id]. now rewrite <- app_assoc.
Qed.

Lemma has_link_In (d : DB) (uid k : Z) :
  has_link d uid k = true <-> In (uid, k) (map link (user_earned_items d)).
Proof.
  unfold has_link. rewrite existsb_exists, in_map_iff. split.
  - intros (e & He & Hp). apply andb_true_iff in Hp as [H1 H2].
    apply Z.eqb_eq in H1. apply Z.eqb_eq in H2.
    exists e. split; [|exact He]. unfold link. now rewrite H1, H2.
  - intros (e & Hl & He). exists e. split; [exact He|].
    unfold link in Hl. injection Hl as H1 H2.
    apply andb_true_iff. split; now apply Z.eqb_eq.
Qed.

Lemma NoDup_map_filter {K R} (key : R -> K) (keep : R -> bool) (rows : list R) :
  NoDup (map key rows) -> NoDup (map key (filter keep rows)).
Proof.
  induction rows as [|row rows IH]; intros Hkeys; [exact Hkeys|].
  cbn [map] in Hkeys. inversion Hkeys as [|? ? Hrow Hrows]; subst.
  cbn [filter]. destruct (keep row); [|now apply IH].
  cbn [map]. constructor; [|now apply IH].
  intros Hin. apply Hrow. apply in_map_iff in Hin as (other & Hother & Hin).
  apply filter_In in Hin as [Hin _]. apply in_map_iff. now exists other.
Qed.

Lemma NoDup_map_pair {A} (a : A) (l : list Z) :
  NoDup l -> NoDup (map (pair a) l).
Proof.
  induction 1 as [|x l Hx Hl IH]; cbn [map]; constructor; [|exact IH].
  intros Hin. apply in_map_iff in Hin as (y & Hy & Hin).
  injection Hy as ->. contradiction.
Qed.

(** The order in which the rewards are answered keeps the rows. *)
Lemma insert_by_name_perm (i : ItemModel.t) (l : list ItemModel.t) :
  Permutation (insert_by_name i l) (i :: l).
Proof.
  induction l as [|j l IH]; [reflexivity|].
  cbn [insert_by_name]. destruct (String.leb _ _); [reflexivity|].
  rewrite IH. apply perm_swap.
Qed.

Lemma order_by_name_perm (l : list ItemModel.t) : Permutation (order_by_name l) l.
Proof.
  induction l as [|i l IH]; [reflexivity|].
  cbn [order_by_name fold_right]. fold (order_by_name l).
  rewrite insert_by_name_perm. now constructor.
Qed.

Lemma reward_items_In (d : DB) (level : Z) (i : ItemModel.t) :
  In i (reward_items d level)
  <-> In i (item d) /\ Py.contains (LEVEL_REWARDS_get level) (ItemModel.name i) = true.
Proof.
  unfold reward_items, items_named. split.
  - intros H. apply (Permutation_in _ (order_by_name_perm _)) in H.
    now apply filter_In in H.
  - intros H. apply (Permutation_in _ (Permutation_sym (order_by_name_perm _))).
    now apply filter_In.
Qed.

Lemma reward_items_keys (d : DB) (level : Z) :
  item_pk d -> NoDup (map ItemModel.id (reward_items d level)).
Proof.
  unfold item_pk, reward_items, items_named. intros Hpk.
  eapply Permutation_NoDup.
  - apply Permutation_map. symmetry. apply order_by_name_perm.
  - now apply NoDup_map_filter.
Qed.

Lemma links_unique_completed (d : DB) (data : CompleteLevelIn.t) (current : User.t) (m : Z) :
  item_pk d -> links_unique d -> links_unique (completed data current m d).
Proof.
  unfold item_pk, links_unique, completed. cbn [user_earned_items].
  intros Hpk Hu. rewrite map_link_add_links. apply NoDup_app.
  - exact Hu.
  - rewrite <- (map_map ItemModel.id (pair (User.id current))).
    apply NoDup_map_pair. apply NoDup_map_filter.
    now apply reward_items_keys.
  - intros [u k] Hold Hnew. apply in_map_iff in Hnew as (i & Hi & Hin).
    injection Hi as <- <-. apply filter_In in Hin as [_ Hno].
    apply has_link_In in Hold. rewrite Hold in Hno. discriminate.
Qed.

Lemma rewarded_completed (d : DB) (data : CompleteLevelIn.t) (current : User.t) (m : Z) :
  rewarded (completed data current m d) (User.id current) (completed_level current).
Proof.
  unfold rewarded. intros i Hi. apply has_link_In.
  unfold completed. cbn [user_earned_items]. rewrite map_link_add_links.
  apply in_or_app. destruct (has_link d (User.id current) (ItemModel.id i)) eqn:E.
  - left. now apply has_link_In.
  - right. apply in_map_iff. exists i. split; [reflexivity|].
    apply filter_In. split; [|now rewrite E]. exact Hi.
Qed.

Lemma completed_rewarded (d : DB) (data : CompleteLevelIn.t) (current : User.t) (m : Z) :
  rewarded d (User.id current) (completed_level current) ->
  user_earned_items (completed data current m d) = user_earned_items d.
Proof.
  unfold rewarded, completed. cbn [user_earned_items]. intros H.
  replace (filter _ (reward_items d _)) with (@nil ItemModel.t); [reflexivity|].
  symmetry. induction (reward_items d _) as [|i l IH] in H |- *; [reflexivity|].
  cbn [filter]. cbn [User.level User.set_money User.set_level] in *.
  fold (completed_level current) in *.
  rewrite (H i (or_introl eq_refl)). cbn [negb]. apply IH.
  intros j Hj. apply H. now right.
Qed.

(** Across any request the catalog is fixed and links are only added. *)
Lemma effect_links (d d' : DB) (r : Request) :
  effect d r d' ->
  item d' = item d
  /\ incl (map link (user_earned_items d)) (map link (user_earned_items d'))
  /\ (item_pk d -> links_unique d -> links_unique d').
Proof.
  intros He.
  destruct He as [r|payload Hfresh|token now payload user Hin|token
                  |now a data current m Ha Hv Hm|now a data current Ha Hv];
    try (split; [reflexivity|split; [apply incl_refl|intros _ H; exact H]]).
  split; [reflexivity|]. split.
  - unfold completed. cbn [user_earned_items]. rewrite map_link_add_links.
    apply incl_appl, incl_refl.
  - apply links_unique_completed.
Qed.

Lemma run_links (requests : list Request) :
  forall d,
    item (run requests d) = item d
    /\ incl (map link (user_earned_items d)) (map link (user_earned_items (run requests d)))
    /\ (item_pk d -> links_unique d -> links_unique (run requests d)).
Proof.
  induction requests as [|r requests IH]; intros d.
  - cbn. split; [reflexivity|]. split; [apply incl_refl|auto].
  - cbn [run fold_left]. destruct (effect_links (serve_effect r d)) as (I1 & L1 & U1).
    destruct (IH (serve r d)) as (I2 & L2 & U2). fold (run requests (serve r d)) in *.
    split; [now rewrite I2|]. split.
    + eapply incl_tran; eassumption.
    + intros Hpk Hu. apply U2.
      * unfold item_pk in *. now rewrite I1.
      * now apply U1.
Qed.

Lemma run_rewarded (requests : list Request) (d : DB) (uid level : Z) :
  rewarded d uid level -> rewarded (run requests d) uid level.
Proof.
  unfold rewarded, reward_items, items_named.
  destruct (run_links requests d) as (Hi & Hl & _).
  rewrite Hi. intros H i Hin. apply has_link_In, Hl, has_link_In, H, Hin.
Qed.

(** C2: along any sequence of requests there is at most one link per
    (player, item) pair, given the primary key of the catalog; a call that
    the database accepts (time within 64 bits, level at least 1, balance
    and sum within the digit cap) links every catalog reward of the level
    it completes; and a later call of the same player that completes the
    same level again leaves [user_earned_items] as it was. *)
Theorem reward_granted_once :
  (forall (d : DB) (requests : list Request),
      item_pk d -> links_unique d -> links_unique (run requests d))
  /\
  (forall (d : DB) (now1 : Z) (a1 : option string) (data1 : CompleteLevelIn.t)
          (current1 : User.t) (m : Z) (between : list Request)
          (now2 : Z) (a2 : option string) (data2 : CompleteLevelIn.t)
          (current2 : User.t),
      authenticates d now1 a1 current1 ->
      0 <= CompleteLevelIn.coins_earned data1 ->
      0 <= CompleteLevelIn.time_spent data1 < 2 ^ 63 ->
      1 <= User.level current1 ->
      Py.int (User.money current1) = Some m ->
      Py.within_length (User.money current1) ->
      Py.within_digits (m + CompleteLevelIn.coins_earned data1) ->
      let d1 := fst (POST_me_complete_level now1 a1 data1 d) in
      let d2 := run between d1 in
      authenticates d2 now2 a2 current2 ->
      User.id current2 = User.id current1 ->
      completed_level current2 = completed_level current1 ->
      rewarded d1 (User.id current1) (completed_level current1)
      /\ user_earned_items (fst (POST_me_complete_level now2 a2 data2 d2))
         = user_earned_items d2).
Proof.
  split.
  - intros d requests. apply run_links.
  - intros d now1 a1 data1 current1 m between now2 a2 data2 current2
           Ha1 Hc Ht Hl Hm _ _ d1 d2 Ha2 Hid Hlvl.
    assert (rewarded d1 (User.id current1) (completed_level current1)) as R1.
    { subst d1.
      rewrite (@POST_me_complete_level_stored d now1 a1 data1 current1 m
                 Ha1 Hc Ht Hl Hm).
      apply rewarded_completed. }
    split; [exact R1|].
    pose proof (@run_rewarded between d1 _ _ R1) as R2. fold d2 in R2.
    rewrite <- Hid, <- Hlvl in R2.
    unfold POST_me_complete_level.
    rewrite get_db_response, (@authenticated_run _ _ d2 now2 a2 _ data2 _ current2 Ha2).
    destruct (CompleteLevelIn.valid data2); [|reflexivity].
    rewrite complete_level_store.
    destruct (Py.int (User.money current2)); [|reflexivity].
    destruct (flush _ _); [reflexivity|].
    now apply completed_rewarded.
Qed.

Lemma reward_granted_once_witness :
  (item_pk seeded /\ links_unique seeded
   /\ links_unique (run [Register ana; Login "T" 0 (LoginIn.mk "A100");
                         CompleteLevel 1 bearer_T (CompleteLevelIn.mk 10 30);
                         CompleteLevel 2 bearer_T (CompleteLevelIn.mk 10 30)] seeded))
  /\
  (let current1 := User.mk 1 "A100" "Ana" "Aguachica" "Masculino" "30" 4 in
   let current2 := User.mk 1 "A100" "Ana" "Aguachica" "Masculino" "40" 5 in
   let d1 := fst (POST_me_complete_level 4 bearer_T (CompleteLevelIn.mk 10 30) at_level_4) in
   authenticates at_level_4 4 bearer_T current1
   /\ Py.int (User.money current1) = Some 30
   /\ Py.within_length (User.money current1)
   /\ Py.within_digits (30 + 10)
   /\ authenticates (run [] d1) 5 bearer_T current2
   /\ completed_level current2 = completed_level current1
   /\ rewarded d1 1 4
   /\ user_earned_items (fst (POST_me_complete_level 5 bearer_T (CompleteLevelIn.mk 7 9)
                                (run [] d1)))
      = user_earned_items (run [] d1)).
Proof.
  split.
  - assert (item_pk seeded) as Hpk.
    { unfold item_pk. cbn. repeat constructor; cbn; intuition discriminate. }
    assert (links_unique seeded) as Hu by constructor.
    split; [exact Hpk|]. split; [exact Hu|].
    exact (proj1 reward_granted_once seeded _ Hpk Hu).
  - cbv zeta.
    assert (Py.within_length "30") as Hlen by (vm_compute; discriminate).
    assert (Py.within_digits (30 + 10)) as Hdig by (vm_compute; reflexivity).
    split; [vm_compute; reflexivity|]. split; [vm_compute; reflexivity|].
    split; [exact Hlen|]. split; [exact Hdig|].
    split; [vm_compute; reflexivity|]. split; [vm_compute; reflexivity|].
    apply (proj2 reward_granted_once at_level_4 4 bearer_T (CompleteLevelIn.mk 10 30)
             (User.mk 1 "A100" "Ana" "Aguachica" "Masculino" "30" 4) 30 []
             5 bearer_T (CompleteLevelIn.mk 7 9)
             (User.mk 1 "A100" "Ana" "Aguachica" "Masculino" "40" 5)).
    + vm_compute; reflexivity.
    + cbn; lia.
    + cbn; lia.
    + cbn; lia.
    + vm_compute; reflexivity.
    + exact Hlen.
    + exact Hdig.
    + vm_compute; reflexivity.
    + reflexivity.
    + vm_compute; reflexivity.
Defined.

(** ** Levels and balances across the interface *)

Lemma effect_rows (d d' : DB) (r : Request) :
  effect d r d' -> is_update r = false ->
  Forall in_range (users d) -> Forall in_range (users d').
Proof.
  intros He Hr Hd.
  destruct He as [r|payload Hfresh|token now payload user Hin|token
                  |now a data current m Ha Hv Hm|now a data current Ha Hv];
    try exact Hd.
  - cbn [users set_users]. apply Forall_app. split; [exact Hd|].
    constructor; [|constructor]. unfold in_range. cbn [User.level User.money].
    split; [lia|]. exists 0. split; [reflexivity|lia].
  - assert (in_range current) as [Hl (n & Hn & Hpos)].
    { eapply Forall_forall; [exact Hd|]. eapply get_user_In, authenticates_row, Ha. }
    unfold completed. cbn [users put_user set_users]. apply Forall_map.
    eapply Forall_impl; [|exact Hd]. intros row Hrow.
    cbn [User.id User.set_money User.set_level].
    destruct (User.id row =? User.id current); [|exact Hrow].
    unfold in_range. cbn [User.level User.money User.set_money User.set_level].
    pose proof (next_level_bounds (User.level current)) as B.
    split; [lia|]. exists (m + CompleteLevelIn.coins_earned data).
    split; [apply int_str|].
    rewrite Hm in Hn. injection Hn as <-.
    unfold CompleteLevelIn.valid in Hv. apply andb_true_iff in Hv as [Hv _].
    apply Z.leb_le in Hv. lia.
  - discriminate Hr.
Qed.

Lemma run_rows (requests : list Request) :
  forall d, Forall (fun r => is_update r = false) requests ->
            Forall in_range (users d) -> Forall in_range (users (run requests d)).
Proof.
  induction requests as [|r requests IH]; intros d HF Hd; [exact Hd|].
  inversion HF as [|? ? Hr HF']; subst. cbn [run fold_left].
  apply (IH (serve r d) HF'). exact (effect_rows (serve_effect r d) Hr Hd).
Qed.

Lemma patched_empty (data : UpdateMeIn.t) (u : User.t) :
  empty_patch data = true -> patched data u = u.
Proof.
  unfold patched, empty_patch.
  destruct data as [[?|] [?|] [?|] [?|] [?|]]; (discriminate || reflexivity).
Qed.

Lemma get_user_updated (d : DB) (data : UpdateMeIn.t) (current : User.t) :
  get_user d (User.id current) = Some current ->
  get_user (updated data current d) (User.id current) = Some (patched data current).
Proof.
  intros Hrow. unfold updated. destruct (empty_patch data) eqn:E.
  - now rewrite (patched_empty data current E).
  - rewrite get_user_put_user, Hrow. cbn [option_map].
    destruct (patched_fields data current) as (-> & _). now rewrite Z.eqb_refl.
Qed.

(** The handler of [PUT /me] for an authenticated player and a patch that
    passes its schema with a level the database can hold: it commits the
    patched row and returns it, and the route then fails on its response
    model. *)
Lemma PUT_me_handler (d : DB) (now : Z) (authorization : option string)
    (data : UpdateMeIn.t) (current : User.t) :
  authenticates d now authorization current ->
  UpdateMeIn.valid data = true ->
  level_fits (UpdateMeIn.level data) ->
  get_db (authenticated now authorization UpdateMeIn.valid data update_me) d
  = (updated data current d, Return (patched data current))
  /\ get_user (updated data current d) (User.id current) = Some (patched data current)
  /\ PUT_me now authorization data d
     = (updated data current d, Raise ResponseValidationError).
Proof.
  intros Ha Hv Hfit. destruct (valid_fields_ok data Hv) as [Hs Hg].
  pose proof (authenticates_row Ha) as Hrow.
  pose proof (@get_user_updated d data current Hrow) as Hrow'.
  assert (update_me data current (SessionLocal d)
          = (SessionLocal (updated data current d), Return (patched data current)))
    as Hrun.
  { rewrite (update_me_exact d data current Hs Hg),
      (@flush_updated d data current (get_user_In _ _ Hrow) Hv Hfit).
    unfold refresh. cbn [stored SessionLocal].
    destruct (patched_fields data current) as (Pid & _). rewrite Pid.
    now rewrite Hrow'. }
  split; [|split; [exact Hrow'|]].
  - unfold get_db.
    now rewrite (@authenticated_run _ _ d now authorization _ data update_me current Ha),
      Hv, Hrun.
  - unfold PUT_me, get_db, bind.
    now rewrite (@authenticated_run _ _ d now authorization _ data update_me current Ha),
      Hv, Hrun.
Qed.

Lemma patched_level_money (data : UpdateMeIn.t) (current : User.t) :
  User.level (patched data current)
  = match UpdateMeIn.level data with Some l => l | None => User.level current end
  /\ User.money (patched data current)
     = match UpdateMeIn.money data with Some v => v | None => User.money current end.
Proof.
  unfold patched. destruct data as [[?|] [?|] [?|] [?|] [?|]]; split; reflexivity.
Qed.

(** C3 (as amended): requests other than a profile update never lower a
    player's level nor a balance that [int()] reads, and from an empty
    player table they keep every level in 1..5 and every balance a
    non-negative integer; a profile update of an authenticated player with
    a patch that passes its schema commits the level (any integer from 1
    to 2^63 - 1) and the money text (any string) of the patch as given. *)
Theorem level_and_balance_by_operation :
  (forall (d : DB) (requests : list Request) (uid : Z) (u : User.t),
      Forall (fun r => is_update r = false) requests ->
      get_user d uid = Some u ->
      exists u', get_user (run requests d) uid = Some u'
                 /\ User.level u <= User.level u'
                 /\ (forall n, Py.int (User.money u) = Some n ->
                       exists n', Py.int (User.money u') = Some n' /\ n <= n'))
  /\
  (forall (d : DB) (requests : list Request),
      users d = [] ->
      Forall (fun r => is_update r = false) requests ->
      Forall in_range (users (run requests d)))
  /\
  (forall (d : DB) (now : Z) (authorization : option string)
          (data : UpdateMeIn.t) (current : User.t),
      authenticates d now authorization current ->
      UpdateMeIn.valid data = true ->
      level_fits (UpdateMeIn.level data) ->
      exists d' current',
        get_db (authenticated now authorization UpdateMeIn.valid data update_me) d
        = (d', Return current')
        /\ fst (PUT_me now authorization data d) = d'
        /\ get_user d' (User.id current) = Some current'
        /\ User.level current'
           = match UpdateMeIn.level data with Some l => l | None => User.level current end
        /\ User.money current'
           = match UpdateMeIn.money data with Some v => v | None => User.money current end).
Proof.
  split; [|split].
  - intros d requests uid u HF Hu.
    destruct (@run_player requests d uid u HF Hu) as (u' & H1 & H2 & _ & H3).
    exists u'. auto.
  - intros d requests Hd HF. apply run_rows; [exact HF|]. rewrite Hd. constructor.
  - intros d now authorization data current Ha Hv Hfit.
    destruct (@PUT_me_handler d now authorization data current Ha Hv Hfit)
      as (Hrun & Hrow & Hput).
    destruct (patched_level_money data current) as [Hl Hm].
    exists (updated data current d), (patched data current).
    rewrite Hput. auto.
Qed.

Lemma level_and_balance_by_operation_witness :
  (Forall (fun r => is_update r = false) [CompleteLevel 1 bearer_T (CompleteLevelIn.mk 10 30)]
   /\ get_user signed_in 1 = Some ana_row
   /\ exists u', get_user (run [CompleteLevel 1 bearer_T (CompleteLevelIn.mk 10 30)]
                             signed_in) 1 = Some u'
                 /\ User.level ana_row <= User.level u'
                 /\ (forall n, Py.int (User.money ana_row) = Some n ->
                       exists n', Py.int (User.money u') = Some n' /\ n <= n'))
  /\
  (users seeded = []
   /\ Forall in_range
        (users (run [Register ana; Login "T" 0 (LoginIn.mk "A100");
                     CompleteLevel 1 bearer_T (CompleteLevelIn.mk 10 30)] seeded)))
  /\
  (authenticates signed_in 1 bearer_T ana_row
   /\ UpdateMeIn.valid (UpdateMeIn.mk None None None (Some "-5") (Some 1)) = true
   /\ level_fits (Some 1)
   /\ exists d' current',
        get_db (authenticated 1 bearer_T UpdateMeIn.valid
                  (UpdateMeIn.mk None None None (Some "-5") (Some 1)) update_me) signed_in
        = (d', Return current')
        /\ fst (PUT_me 1 bearer_T (UpdateMeIn.mk None None None (Some "-5") (Some 1))
                  signed_in) = d'
        /\ get_user d' (User.id ana_row) = Some current'
        /\ User.level current' = 1
        /\ User.money current' = "-5").
Proof.
  assert (Forall (fun r => is_update r = false)
            [CompleteLevel 1 bearer_T (CompleteLevelIn.mk 10 30)]) as HF1.
  { repeat constructor. }
  assert (Forall (fun r => is_update r = false)
            [Register ana; Login "T" 0 (LoginIn.mk "A100");
             CompleteLevel 1 bearer_T (CompleteLevelIn.mk 10 30)]) as HF2.
  { repeat constructor. }
  split; [|split].
  - split; [exact HF1|]. split; [reflexivity|].
    exact (proj1 level_and_balance_by_operation signed_in _ 1 ana_row HF1 eq_refl).
  - split; [reflexivity|].
    exact (proj1 (proj2 level_and_balance_by_operation) seeded _ eq_refl HF2).
  - assert (level_fits (Some 1)) as Hfit by (cbn; lia).
    split; [reflexivity|]. split; [reflexivity|]. split; [exact Hfit|].
    exact (proj2 (proj2 level_and_balance_by_operation) signed_in 1 bearer_T
             (UpdateMeIn.mk None None None (Some "-5") (Some 1)) ana_row
             eq_refl eq_refl Hfit).
Defined.

(** A profile update after a completed level: the level goes from 2 back
    to 1 and the stored balance becomes the text of a negative number. *)
Lemma update_lowers_level_and_balance :
  let patch := UpdateMeIn.mk None None None (Some "-5") (Some 1) in
  let before := User.mk 1 "A100" "Ana" "Aguachica" "Masculino" "10" 2 in
  let after := User.mk 1 "A100" "Ana" "Aguachica" "Masculino" "-5" 1 in
  let d := run [CompleteLevel 1 bearer_T (CompleteLevelIn.mk 10 30)] signed_in in
  get_user d 1 = Some before
  /\ authenticates d 2 bearer_T before
  /\ UpdateMeIn.valid patch = true
  /\ snd (get_db (authenticated 2 bearer_T UpdateMeIn.valid patch update_me) d)
     = Return after
  /\ get_user (serve (UpdateMe 2 bearer_T patch) d) 1 = Some after
  /\ User.level after < User.level before
  /\ Py.int (User.money after) = Some (-5).
Proof.
  cbv zeta. repeat split; try (vm_compute; reflexivity).
Qed.

(** ** The balance guard of [complete_level] *)

Lemma flush_errors (old new : DB) (e : Exception) :
  flush old new = Some e -> e = OverflowError \/ e = IntegrityError.
Proof.
  unfold flush. destruct (negb _); [intros H; injection H as <-; now left|].
  destruct (_ || _); [intros H; injection H as <-; now right|discriminate].
Qed.

Lemma POST_me_complete_level_run (d : DB) (now : Z) (authorization : option string)
    (data : CompleteLevelIn.t) (current : User.t) :
  authenticates d now authorization current ->
  CompleteLevelIn.valid data = true ->
  match Py.int (User.money current) with
  | None =>
      POST_me_complete_level now authorization data d
      = (d, Raise (HTTPException 500 "Formato inválido en campo 'money'"))
  | Some m =>
      forall code detail,
        snd (POST_me_complete_level now authorization data d)
        <> Raise (HTTPException code detail)
  end.
Proof.
  intros Ha Hv. unfold POST_me_complete_level, get_db, bind.
  rewrite (@authenticated_run _ _ d now authorization _ data complete_level current Ha), Hv.
  destruct (Py.int (User.money current)) as [m|] eqn:Hm.
  - rewrite (complete_level_commits d data current Hm).
    destruct (flush _ _) as [e|] eqn:F.
    { intros code detail. cbn [snd].
      destruct (flush_errors _ _ F) as [-> | ->]; discriminate. }
    destruct (view_tail
                (User.set_money (Py.str (m + CompleteLevelIn.coins_earned data))
                   (User.set_level (next_level (User.level current)) current))
                (SessionLocal (completed data current m d))) as (r & Hr & Hnot & _).
    rewrite Hr. destruct r as [out|e].
    + unfold response_model.
      destruct (UserOut_validate _); intros code detail; cbn; discriminate.
    + cbn. exact Hnot.
  - destruct (complete_level_raises d data current Hm) as [w Hw].
    rewrite Hw. reflexivity.
Qed.

Lemma complete_level_http_exception (d : DB) (data : CompleteLevelIn.t) (current : User.t) :
  (exists s code detail,
      complete_level data current (SessionLocal d) = (s, Raise (HTTPException code detail)))
  <-> Py.int (User.money current) = None.
Proof.
  split.
  - intros (s & code & detail & H).
    destruct (Py.int (User.money current)) as [m|] eqn:Hm; [|reflexivity].
    rewrite (complete_level_commits d data current Hm) in H.
    destruct (flush _ _) as [e|] eqn:F.
    { injection H as _ H. destruct (flush_errors _ _ F) as [-> | ->]; discriminate. }
    destruct (view_tail
                (User.set_money (Py.str (m + CompleteLevelIn.coins_earned data))
                   (User.set_level (next_level (User.level current)) current))
                (SessionLocal (completed data current m d))) as (r & Hr & Hnot & _).
    rewrite Hr in H. injection H as _ H. exfalso. exact (Hnot code detail H).
  - intros Hm. destruct (complete_level_raises d data current Hm) as [w Hw].
    rewrite Hw. eexists _, _, _. reflexivity.
Qed.

(** C4 (as amended): for a stored balance of ASCII characters within the
    digit cap, [complete_level] raises the HTTP 500 of its [money] guard
    exactly when [int()] rejects the text (a text such as "-5" is
    accepted), and then nothing is committed; for an authenticated player
    and a body that passes its schema the route answers with that error
    exactly in that case, and the database, the stored balance included,
    is the one before the call. *)
Theorem money_guard :
  (forall (d : DB) (data : CompleteLevelIn.t) (current : User.t),
      Py.isascii (User.money current) = true ->
      Py.within_length (User.money current) ->
      ((exists s code detail,
           complete_level data current (SessionLocal d)
           = (s, Raise (HTTPException code detail)))
       <-> Py.int (User.money current) = None)
      /\ (Py.int (User.money current) = None ->
          get_db (complete_level data current) d
          = (d, Raise (HTTPException 500 "Formato inválido en campo 'money'"))))
  /\
  (forall (d : DB) (now : Z) (authorization : option string)
          (data : CompleteLevelIn.t) (current : User.t),
      authenticates d now authorization current ->
      CompleteLevelIn.valid data = true ->
      Py.isascii (User.money current) = true ->
      Py.within_length (User.money current) ->
      ((exists code detail, snd (POST_me_complete_level now authorization data d)
                            = Raise (HTTPException code detail))
       <-> Py.int (User.money current) = None)
      /\ (Py.int (User.money current) = None ->
          POST_me_complete_level now authorization data d
          = (d, Raise (HTTPException 500 "Formato inválido en campo 'money'"))
          /\ get_user (fst (POST_me_complete_level now authorization data d))
                      (User.id current)
             = Some current)).
Proof.
  split.
  - intros d data current _ _. split; [apply complete_level_http_exception|].
    intros Hm. unfold get_db.
    destruct (complete_level_raises d data current Hm) as [w Hw].
    rewrite Hw. reflexivity.
  - intros d now authorization data current Ha Hv _ _.
    pose proof (@POST_me_complete_level_run d now authorization data current Ha Hv) as H.
    destruct (Py.int (User.money current)) as [m|].
    + split; [|discriminate]. split; [|discriminate].
      intros (code & detail & He). exfalso. exact (H code detail He).
    + split.
      * split; [reflexivity|]. intros _. rewrite H. eexists _, _. reflexivity.
      * intros _. rewrite H. split; [reflexivity|]. exact (authenticates_row Ha).
Qed.

Lemma money_guard_witness :
  let current := User.mk 1 "A100" "Ana" "Aguachica" "Masculino" "abc" 1 in
  let data := CompleteLevelIn.mk 10 30 in
  authenticates corrupted 2 bearer_T current
  /\ CompleteLevelIn.valid data = true
  /\ Py.isascii (User.money current) = true
  /\ Py.within_length (User.money current)
  /\ Py.int (User.money current) = None
  /\ get_db (complete_level data current) corrupted
     = (corrupted, Raise (HTTPException 500 "Formato inválido en campo 'money'"))
  /\ ((exists code detail, snd (POST_me_complete_level 2 bearer_T data corrupted)
                           = Raise (HTTPException code detail))
      <-> Py.int (User.money current) = None)
  /\ (Py.int (User.money current) = None ->
      POST_me_complete_level 2 bearer_T data corrupted
      = (corrupted, Raise (HTTPException 500 "Formato inválido en campo 'money'"))
      /\ get_user (fst (POST_me_complete_level 2 bearer_T data corrupted)) (User.id current)
         = Some current).
Proof.
  cbv zeta.
  assert (Py.within_length "abc") as Hlen by (vm_compute; discriminate).
  split; [vm_compute; reflexivity|]. split; [reflexivity|].
  split; [reflexivity|]. split; [exact Hlen|]. split; [reflexivity|]. split.
  - apply (proj2 (proj1 money_guard corrupted (CompleteLevelIn.mk 10 30)
                    (User.mk 1 "A100" "Ana" "Aguachica" "Masculino" "abc" 1)
                    eq_refl Hlen)).
    reflexivity.
  - apply (proj2 money_guard corrupted 2 bearer_T (CompleteLevelIn.mk 10 30)
             (User.mk 1 "A100" "Ana" "Aguachica" "Masculino" "abc" 1)).
    + vm_compute; reflexivity.
    + reflexivity.
    + reflexivity.
    + exact Hlen.
Defined.

(** A stored balance of "-5" is not a non-negative integer, yet the call
    goes through and commits the balance "5". *)
Lemma negative_balance_is_accepted :
  let current := User.mk 1 "A100" "Ana" "Aguachica" "Masculino" "-5" 1 in
  let data := CompleteLevelIn.mk 10 30 in
  authenticates overdrawn 3 bearer_T current
  /\ CompleteLevelIn.valid data = true
  /\ ~ parses_non_negative (User.money current)
  /\ snd (POST_me_complete_level 3 bearer_T data overdrawn)
     = Return (UserOut.mk 1 "A100" "Ana" "Aguachica" "Masculino" "5" 2
                 [Item.mk 1 "cinturon" "armadura"; Item.mk 2 "cristal-rojo" "cristal"])
  /\ get_user (fst (POST_me_complete_level 3 bearer_T data overdrawn)) 1
     = Some (User.mk 1 "A100" "Ana" "Aguachica" "Masculino" "5" 2).
Proof.
  cbv zeta. split; [vm_compute; reflexivity|]. split; [reflexivity|].
  split; [|split; vm_compute; reflexivity].
  intros (n & Hn & Hpos). vm_compute in Hn. injection Hn as <-. lia.
Qed.

(** ** Session validation *)

Lemma find_unique {A B} (f : A -> B) (p : A -> bool) (l : list A) (s : A) :
  NoDup (map f l) -> In s l -> p s = true ->
  (forall x, In x l -> p x = true -> f x = f s) ->
  find p l = Some s.
Proof.
  induction l as [|x l IH]; intros Hnd Hin Hp Hsame; [contradiction|].
  cbn [map] in Hnd. inversion Hnd as [|? ? Hx Hl]; subst.
  cbn [find]. destruct Hin as [->|Hin].
  - now rewrite Hp.
  - destruct (p x) eqn:Epx.
    + exfalso. apply Hx. rewrite (Hsame x (or_introl eq_refl) Epx).
      now apply in_map.
    + apply IH; try assumption. intros y Hy. apply Hsame. now right.
Qed.

Lemma live_spec (now : Z) (token : string) (r : SessionToken.t) :
  live now token r = true <-> SessionToken.token r = token /\ now < SessionToken.expires_at r.
Proof.
  unfold live. rewrite andb_true_iff, String.eqb_eq, Z.ltb_lt. reflexivity.
Qed.

(** C5: with tokens unique and every session owned by a stored player,
    [user_by_token] returns a player exactly when a session with that token
    exists whose expiry is strictly later than now, and then it is the
    player that session refers to; if every session with the token has
    [expires_at <= now] (in particular if there is none) it returns
    [None]. *)
Theorem user_by_token_valid_iff (d : DB) (now : Z) (token : string) :
  token_unique d -> session_fk d ->
  (forall u,
      user_by_token now token (SessionLocal d) = (SessionLocal d, Return (Some u))
      <-> exists s, In s (sessions d)
                    /\ SessionToken.token s = token
                    /\ now < SessionToken.expires_at s
                    /\ get_user d (SessionToken.user_id s) = Some u)
  /\ ((exists u, user_by_token now token (SessionLocal d) = (SessionLocal d, Return (Some u)))
      <-> exists s, In s (sessions d)
                    /\ SessionToken.token s = token
                    /\ now < SessionToken.expires_at s)
  /\ ((forall s, In s (sessions d) -> SessionToken.token s = token ->
                 SessionToken.expires_at s <= now) ->
      user_by_token now token (SessionLocal d) = (SessionLocal d, Return None)).
Proof.
  intros Huniq Hfk. rewrite user_by_token_session. cbn [stored SessionLocal].
  fold (live now token).
  assert (forall s, In s (sessions d) -> live now token s = true ->
                    find (live now token) (sessions d) = Some s) as Hfind.
  { intros s Hin Hlive. apply (find_unique SessionToken.token); try assumption.
    intros x _ Hx. apply live_spec in Hx as [-> _].
    apply live_spec in Hlive as [-> _]. reflexivity. }
  assert (forall u,
      (SessionLocal d,
       Return match find (live now token) (sessions d) with
              | Some sess => get_user d (SessionToken.user_id sess)
              | None => None
              end) = (SessionLocal d, Return (Some u))
      <-> exists s, In s (sessions d)
                    /\ SessionToken.token s = token
                    /\ now < SessionToken.expires_at s
                    /\ get_user d (SessionToken.user_id s) = Some u) as Hiff.
  { intros u. split.
    - intros H. injection H as H.
      destruct (find (live now token) (sessions d)) as [s|] eqn:E; [|discriminate].
      apply find_some in E as [Hin Hlive]. apply live_spec in Hlive as [Ht He].
      exists s. auto.
    - intros (s & Hin & Ht & He & Hu).
      rewrite (Hfind s Hin (proj2 (live_spec now token s) (conj Ht He))), Hu.
      reflexivity. }
  split; [exact Hiff|]. split.
  - split.
    + intros (u & Hu). apply Hiff in Hu as (s & Hin & Ht & He & _). exists s. auto.
    + intros (s & Hin & Ht & He). destruct (Hfk s Hin) as [u Hu].
      exists u. apply Hiff. exists s. auto.
  - intros Hexp.
    destruct (find (live now token) (sessions d)) as [s|] eqn:E; [|reflexivity].
    apply find_some in E as [Hin Hlive]. apply live_spec in Hlive as [Ht He].
    specialize (Hexp s Hin Ht). lia.
Qed.

Lemma user_by_token_valid_iff_witness :
  token_unique signed_in /\ session_fk signed_in
  /\ (forall u,
        user_by_token 1 "T" (SessionLocal signed_in)
        = (SessionLocal signed_in, Return (Some u))
        <-> exists s, In s (sessions signed_in)
                      /\ SessionToken.token s = "T"
                      /\ 1 < SessionToken.expires_at s
                      /\ get_user signed_in (SessionToken.user_id s) = Some u)
  /\ ((exists u, user_by_token 1 "T" (SessionLocal signed_in)
                 = (SessionLocal signed_in, Return (Some u)))
      <-> exists s, In s (sessions signed_in)
                    /\ SessionToken.token s = "T"
                    /\ 1 < SessionToken.expires_at s)
  /\ ((forall s, In s (sessions signed_in) -> SessionToken.token s = "T" ->
                 SessionToken.expires_at s <= 1) ->
      user_by_token 1 "T" (SessionLocal signed_in) = (SessionLocal signed_in, Return None)).
Proof.
  assert (token_unique signed_in) as Hu.
  { unfold token_unique. vm_compute. repeat constructor. intros []. }
  assert (session_fk signed_in) as Hfk.
  { intros s Hin. vm_compute in Hin. destruct Hin as [<-|[]].
    exists ana_row. vm_compute. reflexivity. }
  split; [exact Hu|]. split; [exact Hfk|].
  exact (@user_by_token_valid_iff signed_in 1 "T" Hu Hfk).
Defined.

Example user_by_token_examples :
  (* valid just after login, and one microsecond before expiry *)
  snd (user_by_token 0 "T" (SessionLocal signed_in)) = Return (Some ana_row)
  /\ snd (user_by_token (timedelta_days 7 - 1) "T" (SessionLocal signed_in))
     = Return (Some ana_row)
  (* invalid at the expiry instant and for an unknown token *)
  /\ snd (user_by_token (timedelta_days 7) "T" (SessionLocal signed_in)) = Return None
  /\ snd (user_by_token 0 "U" (SessionLocal signed_in)) = Return None.
Proof. repeat split; vm_compute; reflexivity. Qed.

(** ** Revoking a session *)

Lemma filter_idem {A} (p : A -> bool) (l : list A) :
  filter p (filter p l) = filter p l.
Proof.
  induction l as [|x l IH]; [reflexivity|].
  cbn [filter]. destruct (p x) eqn:E; [|exact IH].
  cbn [filter]. now rewrite E, IH.
Qed.

Lemma filter_negb_none {A} (p : A -> bool) (l : list A) :
  filter p (filter (fun x => negb (p x)) l) = [].
Proof.
  induction l as [|x l IH]; [reflexivity|].
  cbn [filter]. destruct (p x) eqn:E; cbn [negb]; [exact IH|].
  cbn [filter]. now rewrite E.
Qed.

Lemma count_unique {A} (f : A -> string) (l : list A) (s : A) :
  NoDup (map f l) -> In s l ->
  List.length (filter (fun r => String.eqb (f r) (f s)) l) = 1%nat.
Proof.
  induction l as [|x l IH]; intros Hnd Hin; [contradiction|].
  cbn [map] in Hnd. inversion Hnd as [|? ? Hx Hl]; subst.
  cbn [filter]. destruct Hin as [->|Hin].
  - rewrite String.eqb_refl. cbn [List.length]. f_equal.
    replace (filter _ l) with (@nil A); [reflexivity|].
    symmetry. clear IH Hl Hnd. induction l as [|y l IH]; [reflexivity|].
    cbn [filter]. destruct (String.eqb (f y) (f s)) eqn:E.
    + exfalso. apply Hx. apply String.eqb_eq in E. rewrite <- E. now left.
    + apply IH. intros H. apply Hx. now right.
  - destruct (String.eqb (f x) (f s)) eqn:E.
    + exfalso. apply Hx. apply String.eqb_eq in E. rewrite E. now apply in_map.
    + now apply IH.
Qed.

Lemma POST_auth_logout_run (d : DB) (token : string) :
  POST_auth_logout token d =
  (set_sessions (filter (fun r => negb (String.eqb (SessionToken.token r) token))
                        (sessions d)) d,
   Return (LogoutOut.mk true
             (Z.of_nat (List.length
                (filter (fun r => String.eqb (SessionToken.token r) token) (sessions d)))))).
Proof. unfold POST_auth_logout, get_db. rewrite logout_run. reflexivity. Qed.

(** C10: revoking a token again after a revoke returns count 0 and leaves
    the database exactly as the first revoke left it, however often it is
    repeated; with tokens unique, the revoke of an existing token returns
    count 1; and a revoke removes the sessions with that token only: the
    sessions with other tokens stay, in order, and no other table changes. *)
Theorem logout_idempotent :
  (forall (d : DB) (token : string),
      let d1 := fst (POST_auth_logout token d) in
      POST_auth_logout token d1 = (d1, Return (LogoutOut.mk true 0)))
  /\
  (forall (d : DB) (token : string) (n : nat),
      let d1 := fst (POST_auth_logout token d) in
      run (repeat (Logout token) n) d1 = d1
      /\ POST_auth_logout token (run (repeat (Logout token) n) d1)
         = (d1, Return (LogoutOut.mk true 0)))
  /\
  (forall (d : DB) (token : string),
      token_unique d ->
      (exists s, In s (sessions d) /\ SessionToken.token s = token) ->
      snd (POST_auth_logout token d) = Return (LogoutOut.mk true 1))
  /\
  (forall (d : DB) (token : string),
      let d1 := fst (POST_auth_logout token d) in
      sessions d1
      = filter (fun r => negb (String.eqb (SessionToken.token r) token)) (sessions d)
      /\ users d1 = users d /\ user_time d1 = user_time d /\ item d1 = item d
      /\ user_earned_items d1 = user_earned_items d
      /\ forall s, SessionToken.token s <> token ->
                   (In s (sessions d1) <-> In s (sessions d))).
Proof.
  assert (forall d token,
             POST_auth_logout token (fst (POST_auth_logout token d))
             = (fst (POST_auth_logout token d), Return (LogoutOut.mk true 0))) as Again.
  { intros d token. rewrite (POST_auth_logout_run d). cbn [fst].
    rewrite POST_auth_logout_run. unfold set_sessions.
    cbn [users user_time item user_earned_items sessions].
    rewrite filter_idem.
    rewrite (filter_negb_none (fun r => String.eqb (SessionToken.token r) token)).
    reflexivity. }
  split; [exact Again|]. split; [|split].
  - intros d token n d1.
    assert (run (repeat (Logout token) n) d1 = d1) as Hrun.
    { induction n as [|n IH]; [reflexivity|].
      cbn [repeat run fold_left serve]. subst d1. rewrite Again. cbn [fst]. exact IH. }
    split; [exact Hrun|]. rewrite Hrun. apply Again.
  - intros d token Huniq (s & Hin & Ht). rewrite POST_auth_logout_run. cbn [snd].
    subst token. unfold token_unique in Huniq.
    now rewrite (count_unique SessionToken.token (sessions d) s Huniq Hin).
  - intros d token d1. subst d1. rewrite POST_auth_logout_run. cbn [fst].
    unfold set_sessions. cbn [users user_time item user_earned_items sessions].
    do 5 (split; [reflexivity|]).
    intros s Hs. rewrite filter_In. split; [tauto|].
    intros H. split; [exact H|].
    apply negb_true_iff. apply String.eqb_neq. exact Hs.
Qed.

Lemma logout_idempotent_witness :
  token_unique signed_in
  /\ (exists s, In s (sessions signed_in) /\ SessionToken.token s = "T")
  /\ snd (POST_auth_logout "T" signed_in) = Return (LogoutOut.mk true 1)
  /\ POST_auth_logout "T" (fst (POST_auth_logout "T" signed_in))
     = (fst (POST_auth_logout "T" signed_in), Return (LogoutOut.mk true 0)).
Proof.
  assert (token_unique signed_in) as Hu.
  { unfold token_unique. vm_compute. repeat constructor. intros []. }
  assert (exists s, In s (sessions signed_in) /\ SessionToken.token s = "T") as He.
  { exists (SessionToken.mk 1 1 "T" (timedelta_days 7)). split; [|reflexivity].
    vm_compute. left. reflexivity. }
  split; [exact Hu|]. split; [exact He|]. split.
  - exact (proj1 (proj2 (proj2 logout_idempotent)) signed_in "T" Hu He).
  - exact (proj1 logout_idempotent signed_in "T").
Defined.

(** ** Accumulated balance *)

Lemma total_coins_cons (r : Request) (rest : list Request) :
  total_coins (r :: rest) = coins_of r + total_coins rest.
Proof. reflexivity. Qed.

Lemma balance_after_calls (uid : Z) (d : DB) (requests : list Request) :
  calls_by uid d requests ->
  forall (u : User.t) (m0 : Z),
    get_user d uid = Some u ->
    1 <= User.level u ->
    Py.int (User.money u) = Some m0 ->
    exists u',
      get_user (run requests d) uid = Some u'
      /\ Py.int (User.money u') = Some (m0 + total_coins requests)
      /\ (requests <> [] -> User.money u' = Py.str (m0 + total_coins requests)).
Proof.
  intros Hcalls.
  induction Hcalls as [d|d now a data current rest Ha Hid Hc Ht Hrest IH];
    intros u m0 Hu Hl Hm.
  - exists u. cbn. rewrite Z.add_0_r. split; [exact Hu|]. split; [exact Hm|].
    intros H. now contradiction H.
  - pose proof (authenticates_row Ha) as Hrow. rewrite Hid, Hu in Hrow.
    injection Hrow as ->.
    assert (serve (CompleteLevel now a data) d = completed data current m0 d) as Hserve.
    { cbn [serve].
      exact (@POST_me_complete_level_stored d now a data current m0 Ha Hc Ht Hl Hm). }
    assert (get_user (serve (CompleteLevel now a data) d) uid
            = Some (User.set_money (Py.str (m0 + CompleteLevelIn.coins_earned data))
                      (User.set_level (next_level (User.level current)) current))) as Hu1.
    { rewrite Hserve, get_user_completed, Hu. cbn [option_map].
      now rewrite Hid, Z.eqb_refl. }
    assert (1 <= next_level (User.level current)) as Hl1.
    { pose proof (next_level_bounds (User.level current)). lia. }
    destruct (IH _ (m0 + CompleteLevelIn.coins_earned data) Hu1 Hl1 (int_str _))
      as (u' & Hu' & Hint & Htext).
    cbn [run fold_left]. fold (run rest (serve (CompleteLevel now a data) d)).
    rewrite total_coins_cons. cbn [coins_of].
    replace (m0 + (CompleteLevelIn.coins_earned data + total_coins rest))
      with (m0 + CompleteLevelIn.coins_earned data + total_coins rest) by lia.
    exists u'. split; [exact Hu'|]. split; [exact Hint|]. intros _.
    destruct rest as [|r rest].
    + cbn [run fold_left] in Hu'. rewrite Hu1 in Hu'. injection Hu' as <-.
      cbn [User.money User.set_money]. f_equal. cbn. lia.
    + apply Htext. discriminate.
Qed.

(** C7 (as amended): for a player at a level of at least 1 whose stored
    balance [int()] reads as [m0], after a sequence of complete-level calls
    made by that player with coin amounts of at least 0 and times that fit
    the database's 64-bit integers, the stored balance reads as [m0] plus
    the sum of the amounts, and (one call or more) it is the decimal text
    [str] writes for that sum; integers are unbounded, so nothing is lost
    at any size within the interpreter's digit cap. *)
Theorem balance_accumulates (uid : Z) (d : DB) (requests : list Request)
    (u : User.t) (m0 : Z) :
  calls_by uid d requests ->
  get_user d uid = Some u ->
  1 <= User.level u ->
  Py.int (User.money u) = Some m0 ->
  Py.within_length (User.money u) ->
  Py.within_digits (m0 + total_coins requests) ->
  exists u',
    get_user (run requests d) uid = Some u'
    /\ Py.int (User.money u') = Some (m0 + total_coins requests)
    /\ (requests <> [] -> User.money u' = Py.str (m0 + total_coins requests)).
Proof.
  intros Hcalls Hu Hl Hm _ _. exact (balance_after_calls Hcalls Hu Hl Hm).
Qed.

Lemma balance_accumulates_witness :
  let requests := [CompleteLevel 1 bearer_T (CompleteLevelIn.mk 10 30);
                   CompleteLevel 2 bearer_T (CompleteLevelIn.mk 5 0);
                   CompleteLevel 3 bearer_T (CompleteLevelIn.mk 0 12)] in
  calls_by 1 signed_in requests
  /\ get_user signed_in 1 = Some ana_row
  /\ 1 <= User.level ana_row
  /\ Py.int (User.money ana_row) = Some 0
  /\ Py.within_length (User.money ana_row)
  /\ Py.within_digits (0 + total_coins requests)
  /\ exists u',
       get_user (run requests signed_in) 1 = Some u'
       /\ Py.int (User.money u') = Some (0 + total_coins requests)
       /\ (requests <> [] -> User.money u' = Py.str (0 + total_coins requests)).
Proof.
  cbv zeta.
  assert (calls_by 1 signed_in
            [CompleteLevel 1 bearer_T (CompleteLevelIn.mk 10 30);
             CompleteLevel 2 bearer_T (CompleteLevelIn.mk 5 0);
             CompleteLevel 3 bearer_T (CompleteLevelIn.mk 0 12)]) as Hcalls.
  { eapply calls_cons with (current := ana_row);
      [vm_compute; reflexivity | reflexivity | cbn; lia | cbn; lia |].
    eapply calls_cons
      with (current := User.mk 1 "A100" "Ana" "Aguachica" "Masculino" "10" 2);
      [vm_compute; reflexivity | reflexivity | cbn; lia | cbn; lia |].
    eapply calls_cons
      with (current := User.mk 1 "A100" "Ana" "Aguachica" "Masculino" "15" 3);
      [vm_compute; reflexivity | reflexivity | cbn; lia | cbn; lia |].
    apply calls_nil. }
  assert (1 <= User.level ana_row) as Hl by (cbn; lia).
  assert (Py.within_length (User.money ana_row)) as Hlen by (vm_compute; discriminate).
  assert (Py.within_digits
            (0 + total_coins
                   [CompleteLevel 1 bearer_T (CompleteLevelIn.mk 10 30);
                    CompleteLevel 2 bearer_T (CompleteLevelIn.mk 5 0);
                    CompleteLevel 3 bearer_T (CompleteLevelIn.mk 0 12)])) as Hdig.
  { vm_compute. reflexivity. }
  split; [exact Hcalls|]. split; [reflexivity|]. split; [exact Hl|].
  split; [reflexivity|]. split; [exact Hlen|]. split; [exact Hdig|].
  exact (@balance_accumulates 1 signed_in _ ana_row 0 Hcalls eq_refl Hl eq_refl
           Hlen Hdig).
Defined.

(** A call whose time does not fit the database's integers passes the
    schema and is rolled back at [commit]: its coins are not added. *)
Lemma coins_of_a_rolled_back_call :
  let data := CompleteLevelIn.mk 10 (2 ^ 63) in
  let call := CompleteLevel 1 bearer_T data in
  authenticates signed_in 1 bearer_T ana_row
  /\ 0 <= CompleteLevelIn.coins_earned data
  /\ 0 <= CompleteLevelIn.time_spent data
  /\ CompleteLevelIn.valid data = true
  /\ Py.int (User.money ana_row) = Some 0
  /\ POST_me_complete_level 1 bearer_T data signed_in = (signed_in, Raise OverflowError)
  /\ get_user (run [call] signed_in) 1 = Some ana_row
  /\ User.money ana_row = "0"
  /\ Py.str (0 + total_coins [call]) = "10".
Proof.
  cbv zeta. split; [vm_compute; reflexivity|].
  split; [cbn; lia|]. split; [cbn; lia|].
  repeat (split; [vm_compute; reflexivity|]). vm_compute; reflexivity.
Qed.

Example balance_example :
  get_user (run [CompleteLevel 1 bearer_T (CompleteLevelIn.mk 10 30);
                 CompleteLevel 2 bearer_T (CompleteLevelIn.mk 5 0);
                 CompleteLevel 3 bearer_T (CompleteLevelIn.mk 0 12)] signed_in) 1
  = Some (User.mk 1 "A100" "Ana" "Aguachica" "Masculino" "15" 4).
Proof. vm_compute. reflexivity. Qed.

(** ** Profile update *)

(** C8: for an authenticated player and a patch whose [school] is present
    and not one of the three values, the route rejects the body and the
    handler, were it entered, raises its own HTTP 400; either way the
    committed database is the one before the call, whatever fields stand
    before [school] in the patch. *)
Theorem invalid_school_is_rejected (d : DB) (now : Z) (authorization : option string)
    (data : UpdateMeIn.t) (current : User.t) (v : string) :
  authenticates d now authorization current ->
  UpdateMeIn.school data = Some v ->
  Py.contains SCHOOL_VALUES v = false ->
  PUT_me now authorization data d = (d, Raise RequestValidationError)
  /\ get_db (update_me data current) d = (d, Raise (HTTPException 400 "school inválido"))
  /\ get_user (fst (PUT_me now authorization data d)) (User.id current) = Some current
  /\ get_user (fst (get_db (update_me data current) d)) (User.id current) = Some current.
Proof.
  intros Ha Hs Hv.
  assert (PUT_me now authorization data d = (d, Raise RequestValidationError)) as Hroute.
  { unfold PUT_me, get_db, bind.
    rewrite (@authenticated_run _ _ d now authorization _ data update_me current Ha).
    unfold UpdateMeIn.valid. rewrite Hs. unfold School. rewrite Hv. reflexivity. }
  assert (get_db (update_me data current) d
          = (d, Raise (HTTPException 400 "school inválido"))) as Hhandler.
  { unfold get_db. destruct (@update_me_invalid_school d data current) as [w Hw].
    - unfold field_ok. now rewrite Hs.
    - rewrite Hw. reflexivity. }
  rewrite Hroute, Hhandler. cbn [fst].
  repeat split; exact (authenticates_row Ha).
Qed.

Lemma invalid_school_is_rejected_witness :
  let data := UpdateMeIn.mk (Some "Anita") (Some "InvalidSchool") None None None in
  authenticates signed_in 1 bearer_T ana_row
  /\ UpdateMeIn.school data = Some "InvalidSchool"
  /\ Py.contains SCHOOL_VALUES "InvalidSchool" = false
  /\ PUT_me 1 bearer_T data signed_in = (signed_in, Raise RequestValidationError)
  /\ get_db (update_me data ana_row) signed_in
     = (signed_in, Raise (HTTPException 400 "school inválido"))
  /\ get_user (fst (PUT_me 1 bearer_T data signed_in)) (User.id ana_row) = Some ana_row
  /\ get_user (fst (get_db (update_me data ana_row) signed_in)) (User.id ana_row)
     = Some ana_row.
Proof.
  cbv zeta. split; [vm_compute; reflexivity|]. split; [reflexivity|].
  split; [reflexivity|].
  apply (@invalid_school_is_rejected signed_in 1 bearer_T
           (UpdateMeIn.mk (Some "Anita") (Some "InvalidSchool") None None None)
           ana_row "InvalidSchool").
  - vm_compute; reflexivity.
  - reflexivity.
  - reflexivity.
Defined.

(** The handler has already assigned [name] in its unit of work when it
    raises on [school]; the assignment is dropped with the session. *)
Example name_assigned_but_not_committed :
  let data := UpdateMeIn.mk (Some "Anita") (Some "InvalidSchool") None None None in
  let s := fst (update_me data ana_row (SessionLocal signed_in)) in
  get_user (work s) 1 = Some (User.set_name "Anita" ana_row)
  /\ get_user (stored s) 1 = Some ana_row
  /\ close s = signed_in.
Proof. cbv zeta. repeat split; vm_compute; reflexivity. Qed.

(** C9 (evaluation at the failing input, for every string): a patch that
    carries only [money] passes the schema whatever the string is, and
    the handler commits that string as the balance of the player and
    returns the row; the route then answers with the failure of its
    response model, not with the read-model.  The same holds for the
    money of any patch that passes the schema with a level the database
    can hold. *)
Theorem money_is_stored_verbatim :
  (forall (d : DB) (now : Z) (authorization : option string) (current : User.t)
          (m : string),
      authenticates d now authorization current ->
      let data := UpdateMeIn.mk None None None (Some m) None in
      UpdateMeIn.valid data = true
      /\ get_db (authenticated now authorization UpdateMeIn.valid data update_me) d
         = (put_user (User.set_money m current) d, Return (User.set_money m current))
      /\ PUT_me now authorization data d
         = (put_user (User.set_money m current) d, Raise ResponseValidationError)
      /\ get_user (fst (PUT_me now authorization data d)) (User.id current)
         = Some (User.set_money m current)
      /\ User.money (User.set_money m current) = m)
  /\
  (forall (d : DB) (now : Z) (authorization : option string) (current : User.t)
          (data : UpdateMeIn.t) (m : string),
      authenticates d now authorization current ->
      UpdateMeIn.valid data = true ->
      level_fits (UpdateMeIn.level data) ->
      UpdateMeIn.money data = Some m ->
      exists d' current',
        get_db (authenticated now authorization UpdateMeIn.valid data update_me) d
        = (d', Return current')
        /\ PUT_me now authorization data d = (d', Raise ResponseValidationError)
        /\ get_user d' (User.id current) = Some current'
        /\ User.money current' = m).
Proof.
  split.
  - intros d now authorization current m Ha data.
    destruct (@PUT_me_handler d now authorization data current Ha eq_refl I)
      as (Hrun & Hrow & Hput).
    split; [reflexivity|]. split; [exact Hrun|]. split; [exact Hput|].
    split; [|reflexivity]. rewrite Hput. exact Hrow.
  - intros d now authorization current data m Ha Hv Hfit Hm.
    destruct (@PUT_me_handler d now authorization data current Ha Hv Hfit)
      as (Hrun & Hrow & Hput).
    exists (updated data current d), (patched data current).
    repeat split; try assumption.
    destruct (patched_level_money data current) as [_ ->]. now rewrite Hm.
Qed.

Lemma money_is_stored_verbatim_witness :
  authenticates signed_in 1 bearer_T ana_row
  /\ PUT_me 1 bearer_T (UpdateMeIn.mk None None None (Some "abc") None) signed_in
     = (put_user (User.set_money "abc" ana_row) signed_in, Raise ResponseValidationError)
  /\ get_user (fst (PUT_me 1 bearer_T (UpdateMeIn.mk None None None (Some "abc") None)
                      signed_in)) (User.id ana_row)
     = Some (User.mk 1 "A100" "Ana" "Aguachica" "Masculino" "abc" 1)
  /\ UpdateMeIn.valid (UpdateMeIn.mk (Some "Anita") None None (Some "-5") (Some 3)) = true
  /\ level_fits (Some 3)
  /\ (exists d' current',
        get_db (authenticated 1 bearer_T UpdateMeIn.valid
                  (UpdateMeIn.mk (Some "Anita") None None (Some "-5") (Some 3))
                  update_me) signed_in
        = (d', Return current')
        /\ PUT_me 1 bearer_T
             (UpdateMeIn.mk (Some "Anita") None None (Some "-5") (Some 3)) signed_in
           = (d', Raise ResponseValidationError)
        /\ get_user d' (User.id ana_row) = Some current'
        /\ User.money current' = "-5").
Proof.
  assert (authenticates signed_in 1 bearer_T ana_row) as Ha by (vm_compute; reflexivity).
  assert (level_fits (Some 3)) as Hfit by (cbn; lia).
  destruct (proj1 money_is_stored_verbatim signed_in 1 bearer_T ana_row "abc" Ha)
    as (_ & _ & Hput & Hrow & _).
  split; [exact Ha|]. split; [exact Hput|]. split; [exact Hrow|].
  split; [reflexivity|]. split; [exact Hfit|].
  exact (proj2 money_is_stored_verbatim signed_in 1 bearer_T ana_row
           (UpdateMeIn.mk (Some "Anita") None None (Some "-5") (Some 3)) "-5"
           Ha eq_refl Hfit eq_refl).
Defined.

(** ** What [register] and [update_me] hand to the response model *)

(** C6 (evaluation at the failing input): the object [register] returns is
    the stored row, which has no [items] attribute, so the [UserOut]
    response model rejects it after the player was committed; the same
    holds for [update_me]; [me], which builds the view by hand, answers
    with the read-model, its [items] empty for the new player. *)
Theorem register_returns_row_without_items :
  (forall u, getattr (User_object u) "items" = None)
  /\ (forall u, UserOut_validate (User_object u) = None)
  /\ POST_auth_register ana seeded
     = (set_users [ana_row] seeded, Raise ResponseValidationError)
  /\ get_db (register ana) seeded = (set_users [ana_row] seeded, Return ana_row)
  /\ PUT_me 1 bearer_T (UpdateMeIn.mk (Some "Anita") None None None None) signed_in
     = (put_user (User.set_name "Anita" ana_row) signed_in, Raise ResponseValidationError)
  /\ GET_me 1 bearer_T signed_in = (signed_in, Return (assemble signed_in ana_row))
  /\ UserOut.items (assemble signed_in ana_row) = [].
Proof.
  split; [reflexivity|]. split; [reflexivity|].
  repeat split; vm_compute; reflexivity.
Qed.

(** ** The schema constraints along a run *)

Lemma find_In_some {A} (p : A -> bool) (l : list A) (x : A) :
  In x l -> p x = true -> exists y, find p l = Some y.
Proof.
  induction l as [|a l IH]; intros Hin Hp; [contradiction|].
  cbn [find]. destruct (p a) eqn:E; [now exists a|].
  destruct Hin as [->|Hin]; [congruence|now apply IH].
Qed.

Lemma effect_get_user (d d' : DB) (r : Request) (k : Z) :
  effect d r d' ->
  (exists u, get_user d k = Some u) -> exists u', get_user d' k = Some u'.
Proof.
  intros He [u Hu].
  destruct He as [r|payload Hfresh|token now payload user Hin|token
                  |now a data current m Ha Hv Hm|now a data current Ha Hv];
    try (exists u; exact Hu).
  - exists u. exact (@get_user_append d _ u k Hu).
  - rewrite get_user_completed, Hu. cbn [option_map]. eexists. reflexivity.
  - rewrite get_user_put_user, Hu. cbn [option_map]. eexists. reflexivity.
Qed.

Lemma effect_schema (d d' : DB) (r : Request) :
  effect d r d' ->
  match r with
  | Login token _ _ => ~ In token (map SessionToken.token (sessions d))
  | _ => True
  end ->
  token_unique d -> session_fk d -> token_unique d' /\ session_fk d'.
Proof.
  intros He Hfresh Hu Hfk.
  assert (forall s, In s (sessions d) ->
                    exists u', get_user d' (SessionToken.user_id s) = Some u') as Hkeep.
  { intros s Hs. exact (effect_get_user (SessionToken.user_id s) He (Hfk s Hs)). }
  destruct He as [r|payload Hnew|token now payload user Hin|token
                  |now a data current m Ha Hv Hm|now a data current Ha Hv];
    try (split; [exact Hu|exact Hkeep]).
  - split.
    + unfold token_unique in *. cbn [sessions set_sessions]. rewrite map_app.
      apply NoDup_app; [exact Hu|repeat constructor; intros []|].
      intros t Ht [<-|[]]. exact (Hfresh Ht).
    + intros s Hs. cbn [sessions set_sessions] in Hs.
      apply in_app_or in Hs as [Hs|[<-|[]]]; [exact (Hkeep s Hs)|].
      cbn [SessionToken.user_id].
      apply (find_In_some (fun u => User.id u =? User.id user) (users d) user Hin).
      apply Z.eqb_refl.
  - split.
    + unfold token_unique in *. cbn [sessions set_sessions].
      now apply NoDup_map_filter.
    + intros s Hs. cbn [sessions set_sessions] in Hs.
      apply filter_In in Hs as [Hs _]. exact (Hkeep s Hs).
Qed.

(** From a database that satisfies them, the constraints the properties
    above rely on hold after every run whose logins draw fresh tokens. *)
Lemma run_schema (requests : list Request) :
  forall d,
    fresh_logins requests d ->
    item_pk d -> links_unique d -> token_unique d -> session_fk d ->
    item_pk (run requests d) /\ links_unique (run requests d)
    /\ token_unique (run requests d) /\ session_fk (run requests d).
Proof.
  induction requests as [|r requests IH]; intros d Hfresh Hpk Hl Hu Hfk.
  - cbn. auto.
  - destruct Hfresh as [Hr Hrest]. cbn [run fold_left].
    destruct (effect_links (serve_effect r d)) as (Hitem & _ & Hlinks).
    destruct (effect_schema (serve_effect r d) Hr Hu Hfk) as [Hu' Hfk'].
    apply (IH (serve r d)); try assumption.
    + unfold item_pk in *. now rewrite Hitem.
    + now apply Hlinks.
Qed.

Example seeded_schema :
  item_pk seeded /\ links_unique seeded /\ token_unique seeded /\ session_fk seeded.
Proof.
  split; [|split; [|split]].
  - unfold item_pk. cbn. repeat constructor; cbn; intuition discriminate.
  - constructor.
  - constructor.
  - intros s [].
Qed.


(** ** A run of the interface *)

(** Register, sign in, complete two levels: level 2 with balance "10" and
    the two rewards of level 1, then level 3 with balance "20", the same
    two items once each and the two rewards of level 2.  The rewards of a
    level are linked in the order of their names, and the view lists the
    items in the order of their links. *)
Example two_completed_levels :
  let call := POST_me_complete_level 1 bearer_T (CompleteLevelIn.mk 10 30) in
  let belt := Item.mk 1 "cinturon" "armadura" in
  let red := Item.mk 2 "cristal-rojo" "cristal" in
  let chest := Item.mk 3 "pechera" "armadura" in
  let yellow := Item.mk 4 "cristal-amarillo" "cristal" in
  snd (call signed_in)
  = Return (UserOut.mk 1 "A100" "Ana" "Aguachica" "Masculino" "10" 2 [belt; red])
  /\ snd (call (fst (call signed_in)))
     = Return (UserOut.mk 1 "A100" "Ana" "Aguachica" "Masculino" "20" 3
                 [belt; red; yellow; chest])
  /\ map link (user_earned_items (fst (call (fst (call signed_in)))))
     = [(1, 1); (1, 2); (1, 4); (1, 3)]
  /\ user_time (fst (call (fst (call signed_in))))
     = [UserTime.mk 1 1 30 1; UserTime.mk 2 1 30 2].
Proof.
  cbv zeta. repeat (split; [vm_compute; reflexivity|]). vm_compute; reflexivity.
Qed.

(** At the cap the level stays 5; the balance still grows, a time record
    for level 4 is still appended, and no item is granted again. *)
Example call_at_the_cap :
  let d5 := fst (POST_me_complete_level 4 bearer_T (CompleteLevelIn.mk 10 30) at_level_4) in
  let d5' := fst (POST_me_complete_level 5 bearer_T (CompleteLevelIn.mk 7 9) d5) in
  get_user d5 1 = Some (User.mk 1 "A100" "Ana" "Aguachica" "Masculino" "40" 5)
  /\ get_user d5' 1 = Some (User.mk 1 "A100" "Ana" "Aguachica" "Masculino" "47" 5)
  /\ user_time d5' = user_time d5 ++ [UserTime.mk 5 1 9 4]
  /\ user_earned_items d5' = user_earned_items d5
  /\ List.length (user_earned_items d5) = 8%nat.
Proof.
  cbv zeta. repeat (split; [vm_compute; reflexivity|]). vm_compute; reflexivity.
Qed.

(* ------------------------------------------------------------------ *)
(** * Further properties of the handlers *)

(** ** Primary keys *)

Lemma get_user_fresh (d : DB) : get_user d (next_id (map User.id (users d))) = None.
Proof.
  unfold get_user.
  destruct (find _ (users d)) as [u|] eqn:E; [|reflexivity].
  apply find_some in E as [Hin Heq]. apply Z.eqb_eq in Heq.
  pose proof (@next_id_above (map User.id (users d)) (User.id u)
                (in_map User.id _ _ Hin)). lia.
Qed.

Lemma find_app_none {A} (p : A -> bool) (l l' : list A) :
  find p l = None -> find p (l ++ l') = find p l'.
Proof.
  induction l as [|x l IH]; intros H; [reflexivity|].
  cbn [find app] in *. destruct (p x); [discriminate|now apply IH].
Qed.

Lemma same_key_same_row {A K} (key : A -> K) (l : list A) (x y : A) :
  NoDup (map key l) -> In x l -> In y l -> key x = key y -> x = y.
Proof.
  induction l as [|a l IH]; intros Hnd Hx Hy Hk; [contradiction|].
  cbn [map] in Hnd. inversion Hnd as [|? ? Ha Hl]; subst.
  destruct Hx as [->|Hx], Hy as [->|Hy].
  - reflexivity.
  - exfalso. apply Ha. rewrite Hk. now apply in_map.
  - exfalso. apply Ha. rewrite <- Hk. now apply in_map.
  - now apply IH.
Qed.

(** With the primary key, assigning to a stored row replaces that row only. *)
Lemma put_user_columns (d : DB) (current u : User.t) :
  users_pk d -> get_user d (User.id current) = Some current ->
  User.id u = User.id current ->
  map User.id (users (put_user u d)) = map User.id (users d)
  /\ (User.document u = User.document current ->
      map User.document (users (put_user u d)) = map User.document (users d)).
Proof.
  intros Hpk Hrow Hid. unfold put_user. cbn [users set_users].
  rewrite !map_map. split; [|intros Hdoc]; apply map_ext_in; intros r Hr;
    destruct (User.id r =? User.id u) eqn:E; try reflexivity;
    apply Z.eqb_eq in E.
  - congruence.
  - rewrite Hid in E.
    rewrite (same_key_same_row User.id (users d) r current Hpk Hr
               (get_user_In _ _ Hrow) E). exact Hdoc.
Qed.

(** ** Registration *)

Lemma register_valid_enums (payload : RegisterIn.t) :
  RegisterIn.valid payload = true ->
  Py.contains SCHOOL_VALUES (RegisterIn.school payload) = true
  /\ Py.contains GENDER_VALUES (RegisterIn.gender payload) = true.
Proof.
  unfold RegisterIn.valid, School, Gender. intros H.
  apply andb_true_iff in H as [H Hg]. apply andb_true_iff in H as [_ Hs]. auto.
Qed.

Lemma register_run (d : DB) (payload : RegisterIn.t) :
  RegisterIn.valid payload = true ->
  get_db (register payload) d =
  match by_document d (RegisterIn.document payload) with
  | Some _ => (d, Raise (HTTPException 400 "Documento ya registrado"))
  | None => (set_users (users d ++ [registered payload d]) d,
             Return (registered payload d))
  end.
Proof.
  intros Hv. destruct (register_valid_enums payload Hv) as [Hs Hg].
  unfold get_db, register, by_document. rewrite Hs, Hg. cbn [negb].
  unfold bind at 1. unfold query_first at 1. cbn [stored SessionLocal].
  destruct (find _ (users d)) as [u|] eqn:E; [reflexivity|].
  unfold bind at 1. unfold add_User at 1. cbn [work stored SessionLocal].
  rewrite bind_commit. cbn [work stored].
  rewrite flush_user_added by reflexivity. rewrite bind_ret_r.
  unfold refresh. cbn [stored User.id].
  unfold get_user, set_users. cbn [users].
  rewrite find_app_none by (apply get_user_fresh).
  cbn [find User.id]. rewrite Z.eqb_refl. reflexivity.
Qed.

Lemma POST_auth_register_store (d : DB) (payload : RegisterIn.t) :
  RegisterIn.valid payload = true ->
  fst (POST_auth_register payload d) = fst (get_db (register payload) d).
Proof.
  intros Hv. unfold POST_auth_register, body. rewrite Hv.
  unfold get_db at 1. rewrite bind_ret.
  change (fst (let '(s, r) := (user <- register payload ;;
                               response_model (User_object user)) (SessionLocal d)
               in (close s, r)))
    with (fst (get_db (user <- register payload ;; response_model (User_object user)) d)).
  rewrite get_db_response. unfold get_db.
  destruct (register payload (SessionLocal d)) as [s r]. reflexivity.
Qed.

(** X1: a registration whose body passes the schema and whose document no
    player has inserts exactly one row, with a key no other row has, the
    fields of the body, level 1 and balance "0"; the handler returns that
    row, the row is found by its key and by its document, and every other
    row and table is as before. *)
Theorem register_creates_player (d : DB) (payload : RegisterIn.t) :
  RegisterIn.valid payload = true ->
  by_document d (RegisterIn.document payload) = None ->
  let d' := fst (POST_auth_register payload d) in
  exists row,
    get_db (register payload) d = (d', Return row)
    /\ users d' = users d ++ [row]
    /\ User.document row = RegisterIn.document payload
    /\ User.name row = RegisterIn.name payload
    /\ User.school row = RegisterIn.school payload
    /\ User.gender row = RegisterIn.gender payload
    /\ User.level row = 1 /\ User.money row = "0"
    /\ (forall u, In u (users d) -> User.id u <> User.id row)
    /\ get_user d' (User.id row) = Some row
    /\ by_document d' (RegisterIn.document payload) = Some row
    /\ (forall k u, get_user d k = Some u -> get_user d' k = Some u)
    /\ user_time d' = user_time d /\ item d' = item d
    /\ user_earned_items d' = user_earned_items d /\ sessions d' = sessions d.
Proof.
  intros Hv Hnew d'. subst d'.
  rewrite (POST_auth_register_store d payload Hv), (register_run d payload Hv), Hnew.
  cbn [fst]. exists (registered payload d).
  split; [reflexivity|]. split; [reflexivity|].
  do 6 (split; [reflexivity|]). split; [|split; [|split; [|split]]].
  - intros u Hu Heq.
    pose proof (@next_id_above (map User.id (users d)) (User.id u)
                  (in_map User.id _ _ Hu)) as Hlt.
    rewrite Heq in Hlt. cbn [registered User.id] in Hlt. lia.
  - unfold get_user, set_users. cbn [users].
    rewrite find_app_none by (apply get_user_fresh).
    cbn [find registered User.id]. now rewrite Z.eqb_refl.
  - unfold by_document in *. unfold set_users. cbn [users].
    rewrite (find_app_none _ _ _ Hnew). cbn [find registered User.document].
    now rewrite String.eqb_refl.
  - intros k u Hu. exact (@get_user_append d _ u k Hu).
  - repeat split.
Qed.

Lemma register_creates_player_witness :
  RegisterIn.valid ana = true
  /\ by_document seeded (RegisterIn.document ana) = None
  /\ exists row,
       get_db (register ana) seeded = (fst (POST_auth_register ana seeded), Return row)
       /\ users (fst (POST_auth_register ana seeded)) = users seeded ++ [row]
       /\ User.document row = RegisterIn.document ana
       /\ User.name row = RegisterIn.name ana
       /\ User.school row = RegisterIn.school ana
       /\ User.gender row = RegisterIn.gender ana
       /\ User.level row = 1 /\ User.money row = "0"
       /\ (forall u, In u (users seeded) -> User.id u <> User.id row)
       /\ get_user (fst (POST_auth_register ana seeded)) (User.id row) = Some row
       /\ by_document (fst (POST_auth_register ana seeded)) (RegisterIn.document ana)
          = Some row
       /\ (forall k u, get_user seeded k = Some u ->
                       get_user (fst (POST_auth_register ana seeded)) k = Some u)
       /\ user_time (fst (POST_auth_register ana seeded)) = user_time seeded
       /\ item (fst (POST_auth_register ana seeded)) = item seeded
       /\ user_earned_items (fst (POST_auth_register ana seeded))
          = user_earned_items seeded
       /\ sessions (fst (POST_auth_register ana seeded)) = sessions seeded.
Proof.
  split; [reflexivity|]. split; [reflexivity|].
  exact (@register_creates_player seeded ana eq_refl eq_refl).
Defined.

Lemma register_conflict_run (d : DB) (payload : RegisterIn.t) (u : User.t) :
  RegisterIn.valid payload = true ->
  by_document d (RegisterIn.document payload) = Some u ->
  POST_auth_register payload d
  = (d, Raise (HTTPException 400 "Documento ya registrado")).
Proof.
  intros Hv Hu. destruct (register_valid_enums payload Hv) as [Hs Hg].
  unfold POST_auth_register, body. rewrite Hv. unfold get_db. rewrite bind_ret.
  unfold bind at 1. unfold register. rewrite Hs, Hg. cbn [negb].
  unfold bind at 1. unfold query_first at 1. cbn [stored SessionLocal].
  unfold by_document in Hu. rewrite Hu. reflexivity.
Qed.

Lemma registered_by_document (d : DB) (payload : RegisterIn.t) :
  RegisterIn.valid payload = true ->
  by_document d (RegisterIn.document payload) = None ->
  by_document (fst (POST_auth_register payload d)) (RegisterIn.document payload)
  = Some (registered payload d).
Proof.
  intros Hv Hnew.
  rewrite (POST_auth_register_store d payload Hv), (register_run d payload Hv), Hnew.
  cbn [fst]. unfold by_document in *. unfold set_users. cbn [users].
  rewrite (find_app_none _ _ _ Hnew). cbn [find registered User.document].
  now rewrite String.eqb_refl.
Qed.

(** X2: a registration whose body passes the schema, for a document that
    a player already has, answers HTTP 400 "Documento ya registrado" and
    commits nothing.  After a registration whose body passes the schema,
    a second one with the same document never inserts a row, whatever its
    other fields: it answers that HTTP 400 if its body passes the schema
    and is rejected with 422 otherwise.  A registration whose body the
    schema rejects stores nothing, so it does not reserve its document. *)
Theorem register_same_document_twice :
  (forall (d : DB) (payload : RegisterIn.t) (u : User.t),
      RegisterIn.valid payload = true ->
      by_document d (RegisterIn.document payload) = Some u ->
      POST_auth_register payload d
      = (d, Raise (HTTPException 400 "Documento ya registrado")))
  /\
  (forall (d : DB) (first second : RegisterIn.t),
      RegisterIn.valid first = true ->
      RegisterIn.document second = RegisterIn.document first ->
      let d1 := fst (POST_auth_register first d) in
      POST_auth_register second d1
      = (d1, if RegisterIn.valid second
             then Raise (HTTPException 400 "Documento ya registrado")
             else Raise RequestValidationError))
  /\
  (forall (d : DB) (payload : RegisterIn.t),
      RegisterIn.valid payload = false ->
      POST_auth_register payload d = (d, Raise RequestValidationError)).
Proof.
  split; [|split].
  { intros d payload u Hv Hu. exact (register_conflict_run d payload Hv Hu). }
  - intros d first second H1 Hdoc d1.
    destruct (RegisterIn.valid second) eqn:H2.
    + destruct (by_document d (RegisterIn.document first)) as [u|] eqn:E.
      * assert (d1 = d) as ->.
        { subst d1. now rewrite (register_conflict_run d first H1 E). }
        apply (register_conflict_run d second (u := u) H2). now rewrite Hdoc.
      * apply (register_conflict_run d1 second (u := registered first d) H2).
        rewrite Hdoc. subst d1. now apply registered_by_document.
    + unfold POST_auth_register, body. now rewrite H2.
  - intros d payload Hv. unfold POST_auth_register, body. now rewrite Hv.
Qed.

Lemma register_same_document_twice_witness :
  let second := RegisterIn.mk "A100" "Otra" "Aractaca" "Femenino" in
  let invalid := RegisterIn.mk "A100" "Otra" "Bogota" "Femenino" in
  RegisterIn.valid ana = true /\ RegisterIn.valid second = true
  /\ RegisterIn.valid invalid = false
  /\ RegisterIn.document second = RegisterIn.document ana
  /\ by_document signed_in (RegisterIn.document second) = Some ana_row
  /\ POST_auth_register second signed_in
     = (signed_in, Raise (HTTPException 400 "Documento ya registrado"))
  /\ POST_auth_register second (fst (POST_auth_register ana seeded))
     = (fst (POST_auth_register ana seeded),
        Raise (HTTPException 400 "Documento ya registrado"))
  /\ POST_auth_register invalid (fst (POST_auth_register ana seeded))
     = (fst (POST_auth_register ana seeded), Raise RequestValidationError)
  /\ POST_auth_register invalid seeded = (seeded, Raise RequestValidationError).
Proof.
  cbv zeta. split; [reflexivity|]. split; [reflexivity|]. split; [reflexivity|].
  split; [reflexivity|]. split; [vm_compute; reflexivity|]. split.
  { apply (proj1 register_same_document_twice signed_in
             (RegisterIn.mk "A100" "Otra" "Aractaca" "Femenino") ana_row).
    - reflexivity.
    - vm_compute; reflexivity. }
  split.
  { exact (proj1 (proj2 register_same_document_twice) seeded ana
             (RegisterIn.mk "A100" "Otra" "Aractaca" "Femenino") eq_refl eq_refl). }
  split.
  { exact (proj1 (proj2 register_same_document_twice) seeded ana
             (RegisterIn.mk "A100" "Otra" "Bogota" "Femenino") eq_refl eq_refl). }
  exact (proj2 (proj2 register_same_document_twice) seeded
           (RegisterIn.mk "A100" "Otra" "Bogota" "Femenino") eq_refl).
Defined.

(** ** The keys of [users] along a run *)

Lemma patched_id_document (data : UpdateMeIn.t) (u : User.t) :
  User.id (patched data u) = User.id u
  /\ User.document (patched data u) = User.document u.
Proof.
  unfold patched. destruct data as [[?|] [?|] [?|] [?|] [?|]]; split; reflexivity.
Qed.

Lemma find_none_not_in (doc : string) (l : list User.t) :
  find (fun u => String.eqb (User.document u) doc) l = None ->
  ~ In doc (map User.document l).
Proof.
  intros H Hin. apply in_map_iff in Hin as (u & Hd & Hu).
  pose proof (find_none _ _ H u Hu) as E. cbn in E.
  rewrite Hd, String.eqb_refl in E. discriminate.
Qed.

Lemma effect_user_keys (d d' : DB) (r : Request) :
  effect d r d' -> users_pk d -> document_unique d ->
  users_pk d' /\ document_unique d'.
Proof.
  intros He Hpk Hdoc.
  destruct He as [r|payload Hnew|token now payload user Hin|token
                  |now a data current m Ha Hv Hm|now a data current Ha Hv];
    try (split; assumption).
  - unfold users_pk, document_unique in *. cbn [users set_users].
    rewrite !map_app. cbn [map User.id User.document]. split.
    + apply NoDup_app; [exact Hpk|repeat constructor; intros []|].
      intros x Hx [<-|[]]. pose proof (@next_id_above _ _ Hx). lia.
    + apply NoDup_app; [exact Hdoc|repeat constructor; intros []|].
      intros x Hx [<-|[]]. exact (find_none_not_in _ _ Hnew Hx).
  - pose proof (authenticates_row Ha) as Hrow.
    destruct (@put_user_columns d current
                (User.set_money (Py.str (m + CompleteLevelIn.coins_earned data))
                   (User.set_level (next_level (User.level current)) current))
                Hpk Hrow eq_refl) as [Hids Hdocs].
    unfold users_pk, document_unique, completed in *. cbn [users].
    cbn [users] in Hids, Hdocs. rewrite Hids, (Hdocs eq_refl). auto.
  - pose proof (authenticates_row Ha) as Hrow.
    destruct (patched_id_document data current) as [Pid Pdoc].
    destruct (@put_user_columns d current (patched data current) Hpk Hrow Pid)
      as [Hids Hdocs].
    unfold users_pk, document_unique in *. rewrite Hids, (Hdocs Pdoc). auto.
Qed.

Lemma effect_row_identity (d d' : DB) (r : Request) (k : Z) (u : User.t) :
  effect d r d' -> get_user d k = Some u ->
  exists u', get_user d' k = Some u'
             /\ User.id u' = User.id u /\ User.document u' = User.document u.
Proof.
  intros He Hu.
  destruct He as [r|payload Hnew|token now payload user Hin|token
                  |now a data current m Ha Hv Hm|now a data current Ha Hv];
    try (exists u; split; [exact Hu|split; reflexivity]).
  - exists u. split; [exact (@get_user_append d _ u k Hu)|auto].
  - rewrite get_user_completed, Hu. cbn [option_map].
    destruct (User.id u =? User.id current) eqn:E; [|exists u; auto].
    apply Z.eqb_eq in E. pose proof (authenticates_row Ha) as Hrow.
    rewrite <- E, (get_user_id _ _ Hu), Hu in Hrow. injection Hrow as ->.
    eexists. split; [reflexivity|]. split; reflexivity.
  - rewrite get_user_put_user, Hu. cbn [option_map].
    destruct (patched_id_document data current) as [Pid Pdoc].
    destruct (User.id u =? User.id (patched data current)) eqn:E; [|exists u; auto].
    apply Z.eqb_eq in E. rewrite Pid in E.
    pose proof (authenticates_row Ha) as Hrow.
    rewrite <- E, (get_user_id _ _ Hu), Hu in Hrow. injection Hrow as ->.
    eexists. split; [reflexivity|]. split; assumption.
Qed.

(** X3: along any sequence of requests the primary key and the unique
    document of the player table are kept, and a player once stored is
    found under the same key with the same document ever after: no handler
    deletes a player or rewrites an id or a document. *)
Theorem player_identity_is_kept (requests : list Request) (d : DB) :
  users_pk d -> document_unique d ->
  users_pk (run requests d) /\ document_unique (run requests d)
  /\ forall k u, get_user d k = Some u ->
       exists u', get_user (run requests d) k = Some u'
                  /\ User.id u' = User.id u /\ User.document u' = User.document u.
Proof.
  revert d. induction requests as [|r requests IH]; intros d Hpk Hdoc.
  - cbn. split; [exact Hpk|]. split; [exact Hdoc|]. intros k u Hu. exists u. auto.
  - cbn [run fold_left]. fold (run requests (serve r d)).
    destruct (effect_user_keys (serve_effect r d) Hpk Hdoc) as [Hpk1 Hdoc1].
    destruct (IH (serve r d) Hpk1 Hdoc1) as (Hpk2 & Hdoc2 & Hrows).
    split; [exact Hpk2|]. split; [exact Hdoc2|]. intros k u Hu.
    destruct (@effect_row_identity d (serve r d) r k u (serve_effect r d) Hu)
      as (u1 & H1 & I1 & D1).
    destruct (Hrows k u1 H1) as (u2 & H2 & I2 & D2).
    exists u2. split; [exact H2|]. split; congruence.
Qed.

Lemma player_identity_is_kept_witness :
  let requests := [Register ana; Login "T" 0 (LoginIn.mk "A100");
                   CompleteLevel 1 bearer_T (CompleteLevelIn.mk 10 30);
                   UpdateMe 2 bearer_T (UpdateMeIn.mk (Some "Anita") None None None (Some 1));
                   Register (RegisterIn.mk "B200" "Luis" "Aractaca" "Masculino")] in
  users_pk seeded /\ document_unique seeded
  /\ users_pk (run requests seeded) /\ document_unique (run requests seeded)
  /\ forall k u, get_user seeded k = Some u ->
       exists u', get_user (run requests seeded) k = Some u'
                  /\ User.id u' = User.id u /\ User.document u' = User.document u.
Proof.
  cbv zeta.
  assert (users_pk seeded) as Hpk by constructor.
  assert (document_unique seeded) as Hdoc by constructor.
  split; [exact Hpk|]. split; [exact Hdoc|].
  exact (@player_identity_is_kept _ seeded Hpk Hdoc).
Defined.

(** ** The CHECK constraints of [users] along a run *)

Lemma patched_checks (data : UpdateMeIn.t) (u : User.t) :
  UpdateMeIn.valid data = true ->
  School (User.school u) = true /\ Gender (User.gender u) = true /\ 1 <= User.level u ->
  School (User.school (patched data u)) = true
  /\ Gender (User.gender (patched data u)) = true
  /\ 1 <= User.level (patched data u).
Proof.
  unfold UpdateMeIn.valid, patched. intros Hv (Hs & Hg & Hl).
  apply andb_true_iff in Hv as [Hv Hvl]. apply andb_true_iff in Hv as [Hvs Hvg].
  destruct data as [[?|] [s|] [g|] [?|] [l|]];
    cbn [UpdateMeIn.name UpdateMeIn.school UpdateMeIn.gender UpdateMeIn.money
         UpdateMeIn.level User.school User.gender User.level User.set_name
         User.set_school User.set_gender User.set_money User.set_level] in *;
    repeat split; try assumption; try (apply Z.leb_le; assumption).
Qed.

Lemma register_invalid_run (d : DB) (payload : RegisterIn.t) :
  RegisterIn.valid payload = false ->
  POST_auth_register payload d = (d, Raise RequestValidationError).
Proof. intros Hv. unfold POST_auth_register, body. now rewrite Hv. Qed.

Lemma effect_checks (d d' : DB) (r : Request) :
  effect d r d' ->
  match r with Register _ => False | _ => True end ->
  checks_hold d -> checks_hold d'.
Proof.
  intros He Hr Hd.
  destruct He as [r|payload Hnew|token now payload user Hin|token
                  |now a data current m Ha Hv Hm|now a data current Ha Hv];
    try exact Hd; try contradiction.
  - assert (School (User.school current) = true /\ Gender (User.gender current) = true
            /\ 1 <= User.level current) as (Hs & Hg & Hl).
    { pattern current. eapply Forall_forall; [exact Hd|].
      eapply get_user_In, authenticates_row, Ha. }
    unfold checks_hold, completed in *. cbn [users put_user set_users].
    apply Forall_map. eapply Forall_impl; [|exact Hd]. intros row Hrow.
    cbn [User.id User.set_money User.set_level].
    destruct (User.id row =? User.id current); [|exact Hrow].
    cbn [User.school User.gender User.level User.set_money User.set_level].
    pose proof (next_level_bounds (User.level current)). repeat split; try assumption. lia.
  - assert (School (User.school current) = true /\ Gender (User.gender current) = true
            /\ 1 <= User.level current) as Hc.
    { pattern current. eapply Forall_forall; [exact Hd|].
      eapply get_user_In, authenticates_row, Ha. }
    unfold checks_hold in *. unfold put_user. cbn [users set_users].
    apply Forall_map. eapply Forall_impl; [|exact Hd]. intros row Hrow.
    destruct (User.id row =? User.id (patched data current)); [|exact Hrow].
    exact (patched_checks data current Hv Hc).
Qed.

Lemma serve_checks (r : Request) (d : DB) :
  checks_hold d -> checks_hold (serve r d).
Proof.
  intros Hd.
  destruct r as [payload|token now payload|token|now a|now a data|now a data];
    try (eapply effect_checks; [apply serve_effect|exact I|exact Hd]).
  cbn [serve]. destruct (RegisterIn.valid payload) eqn:Hv.
  - rewrite (POST_auth_register_store d payload Hv), (register_run d payload Hv).
    destruct (by_document d (RegisterIn.document payload)); [exact Hd|].
    cbn [fst]. unfold checks_hold in *. cbn [users set_users].
    apply Forall_app. split; [exact Hd|]. constructor; [|constructor].
    cbn [registered User.school User.gender User.level].
    unfold RegisterIn.valid in Hv. apply andb_true_iff in Hv as [Hv Hg].
    apply andb_true_iff in Hv as [_ Hs]. repeat split; try assumption. lia.
  - now rewrite (register_invalid_run d payload Hv).
Qed.

Lemma run_checks (requests : list Request) (d : DB) :
  checks_hold d -> checks_hold (run requests d).
Proof.
  revert d. induction requests as [|r requests IH]; intros d Hd; [exact Hd|].
  cbn [run fold_left]. apply (IH (serve r d)). now apply serve_checks.
Qed.

(** X4: the CHECK constraints of the player table (school and gender in
    their enumerations, level at least 1) hold after every sequence of
    requests on a database that satisfies them: what the schemas reject and
    what the handlers assign never lets a row out of them. *)
Theorem check_constraints_are_kept (requests : list Request) (d : DB) :
  checks_hold d -> checks_hold (run requests d).
Proof.
  revert d. induction requests as [|r requests IH]; intros d Hd; [exact Hd|].
  cbn [run fold_left]. apply (IH (serve r d)). now apply serve_checks.
Qed.

Lemma check_constraints_are_kept_witness :
  let requests := [Register ana; Login "T" 0 (LoginIn.mk "A100");
                   Register (RegisterIn.mk "B200" "Luis" "Bogota" "Masculino");
                   UpdateMe 2 bearer_T (UpdateMeIn.mk None (Some "Bogota") None None None);
                   UpdateMe 2 bearer_T (UpdateMeIn.mk None None None None (Some 0));
                   UpdateMe 2 bearer_T (UpdateMeIn.mk None None (Some "Femenino") None (Some 9))] in
  checks_hold seeded
  /\ checks_hold (run requests seeded)
  /\ users (run requests seeded)
     = [User.mk 1 "A100" "Ana" "Aguachica" "Femenino" "0" 9].
Proof.
  cbv zeta. assert (checks_hold seeded) as H0 by constructor.
  split; [exact H0|]. split.
  - exact (@check_constraints_are_kept _ seeded H0).
  - vm_compute. reflexivity.
Defined.

(** ** The [Authorization] header *)

Lemma prefix_app (p a : string) :
  String.prefix p a = true -> exists x, a = (p ++ x)%string.
Proof.
  revert a. induction p as [|c p IH]; intros a H.
  - exists a. reflexivity.
  - destruct a as [|b a]; [discriminate|]. cbn [String.prefix] in H.
    destruct (ascii_dec c b) as [->|]; [|discriminate].
    destruct (IH a H) as [x ->]. exists x. reflexivity.
Qed.

Lemma split_cons (sep : ascii) (s : string) :
  exists piece pieces, Py.split sep s = piece :: pieces.
Proof.
  induction s as [|c s (piece & pieces & IH)]; cbn [Py.split].
  - eexists _, _. reflexivity.
  - destruct (Ascii.eqb c sep); [eexists _, _; reflexivity|].
    rewrite IH. eexists _, _. reflexivity.
Qed.

Lemma split_Bearer (x : string) :
  Py.split " " ("Bearer " ++ x) = "Bearer" :: Py.split " " x.
Proof.
  destruct (split_cons " " x) as (piece & pieces & H).
  cbn. rewrite H. reflexivity.
Qed.

Lemma split_token (t more : string) :
  no_space t = true ->
  Py.split " " t = [t]
  /\ Py.split " " (t ++ String " " more) = t :: Py.split " " more.
Proof.
  induction t as [|c t IH]; intros H.
  - split; reflexivity.
  - cbn [no_space] in H. apply andb_true_iff in H as [Hc Ht].
    apply negb_true_iff in Hc. destruct (IH Ht) as [IH1 IH2].
    cbn [Py.split String.append]. rewrite Hc, IH1, IH2. split; reflexivity.
Qed.

Lemma header_Bearer (x : string) :
  String.eqb ("Bearer " ++ x) "" || negb (Py.startswith "Bearer " ("Bearer " ++ x))
  = false.
Proof.
  unfold Py.startswith. cbn. destruct x; reflexivity.
Qed.

Lemma require_auth_Bearer (now : Z) (x : string) (s : Session) :
  exists token pieces,
    Py.split " " x = token :: pieces
    /\ require_auth now (Some ("Bearer " ++ x)%string) s =
       (s, match snd (user_by_token now token s) with
           | Return (Some user) => Return user
           | _ => Raise (HTTPException 401 "Token inválido o expirado")
           end).
Proof.
  destruct (split_cons " " x) as (token & pieces & H).
  exists token, pieces. split; [exact H|].
  unfold require_auth. rewrite split_Bearer, H, header_Bearer.
  cbn [nth_error]. unfold bind. rewrite user_by_token_session. cbn [snd].
  destruct (find _ _) as [sess|]; [|reflexivity].
  destruct (get_user _ _); reflexivity.
Qed.

Lemma require_auth_401 (now : Z) (authorization : option string) (s : Session) :
  exists r, require_auth now authorization s = (s, r)
            /\ forall e, r = Raise e ->
                 e = HTTPException 401 "Falta token o formato inválido"
                 \/ e = HTTPException 401 "Token inválido o expirado".
Proof.
  destruct authorization as [a|].
  - destruct (String.eqb a "" || negb (Py.startswith "Bearer " a)) eqn:E.
    { unfold require_auth. rewrite E. eexists. split; [reflexivity|].
      intros e H. injection H as <-. now left. }
    apply orb_false_iff in E as [_ E]. apply negb_false_iff in E.
    destruct (prefix_app _ _ E) as [x ->].
    destruct (require_auth_Bearer now x s) as (token & pieces & _ & Hrun).
    rewrite Hrun. eexists. split; [reflexivity|]. intros e H.
    destruct (snd (user_by_token now token s)) as [[u|]|e'];
      try discriminate; injection H as <-; now right.
  - eexists. split; [reflexivity|]. intros e H. injection H as <-. now left.
Qed.

(** X5: [require_auth] leaves the session as it is and fails only with
    HTTP 401 (its index into the split header is never out of range); a
    header that is absent or does not start with "Bearer " fails with
    "Falta token o formato inválido"; for "Bearer " followed by a token
    without blanks, alone or followed by a blank and more text, the
    outcome is that of [user_by_token] on that token, a missing player
    becoming "Token inválido o expirado". *)
Theorem require_auth_outcomes :
  (forall (now : Z) (authorization : option string) (s : Session),
      exists r, require_auth now authorization s = (s, r)
                /\ forall e, r = Raise e ->
                     e = HTTPException 401 "Falta token o formato inválido"
                     \/ e = HTTPException 401 "Token inválido o expirado")
  /\
  (forall (now : Z) (s : Session),
      require_auth now None s
      = (s, Raise (HTTPException 401 "Falta token o formato inválido")))
  /\
  (forall (now : Z) (a : string) (s : Session),
      Py.startswith "Bearer " a = false ->
      require_auth now (Some a) s
      = (s, Raise (HTTPException 401 "Falta token o formato inválido")))
  /\
  (forall (now : Z) (token more : string) (s : Session),
      no_space token = true ->
      let outcome :=
        (s, match snd (user_by_token now token s) with
            | Return (Some user) => Return user
            | _ => Raise (HTTPException 401 "Token inválido o expirado")
            end) in
      require_auth now (Some ("Bearer " ++ token)%string) s = outcome
      /\ require_auth now (Some ("Bearer " ++ token ++ String " " more)%string) s
         = outcome).
Proof.
  split; [|split; [|split]].
  - intros now authorization s. apply require_auth_401.
  - reflexivity.
  - intros now a s H. unfold require_auth. rewrite H. cbn [negb].
    now rewrite orb_true_r.
  - intros now token more s Ht outcome. subst outcome.
    destruct (split_token token more Ht) as [H1 H2]. split.
    + destruct (require_auth_Bearer now token s) as (t & pieces & Hs & Hrun).
      rewrite H1 in Hs. injection Hs as <- _. exact Hrun.
    + destruct (require_auth_Bearer now (token ++ String " " more) s)
        as (t & pieces & Hs & Hrun).
      rewrite H2 in Hs. injection Hs as <- _. exact Hrun.
Qed.

Lemma require_auth_outcomes_witness :
  no_space "T" = true
  /\ require_auth 1 (Some "Bearer T") (SessionLocal signed_in)
     = (SessionLocal signed_in, Return ana_row)
  /\ require_auth 1 (Some "Bearer T extra") (SessionLocal signed_in)
     = (SessionLocal signed_in, Return ana_row)
  /\ require_auth 1 (Some "Token T") (SessionLocal signed_in)
     = (SessionLocal signed_in,
        Raise (HTTPException 401 "Falta token o formato inválido")).
Proof.
  split; [reflexivity|].
  destruct (proj2 (proj2 (proj2 require_auth_outcomes)) 1 "T" "extra"
              (SessionLocal signed_in) eq_refl) as [H1 H2].
  split; [|split].
  - exact H1.
  - exact H2.
  - exact (proj1 (proj2 (proj2 require_auth_outcomes)) 1 "Token T"
             (SessionLocal signed_in) eq_refl).
Defined.

(** ** Requests that do not authenticate *)






(** ** The items of a player *)

Lemma seen_In (k : Z) (seen : list Z) : existsb (Z.eqb k) seen = true <-> In k seen.
Proof.
  rewrite existsb_exists. split.
  - intros (x & Hx & E). apply Z.eqb_eq in E. now subst.
  - intros H. exists k. split; [exact H|apply Z.eqb_refl].
Qed.

Lemma unique_In (l : list ItemModel.t) :
  forall seen i, In i (unique seen l) -> In i l /\ ~ In (ItemModel.id i) seen.
Proof.
  induction l as [|j l IH]; intros seen i H; [contradiction|].
  cbn [unique] in H. destruct (existsb _ seen) eqn:E.
  - destruct (IH _ _ H) as [H1 H2]. split; [now right|exact H2].
  - destruct H as [<-|H].
    + split; [now left|]. intros Hin. apply seen_In in Hin. congruence.
    + destruct (IH _ _ H) as [H1 H2]. split; [now right|].
      intros Hin. apply H2. now right.
Qed.

Lemma unique_covers (l : list ItemModel.t) :
  forall seen i, In i l -> ~ In (ItemModel.id i) seen ->
    exists j, In j (unique seen l) /\ ItemModel.id j = ItemModel.id i.
Proof.
  induction l as [|j l IH]; intros seen i Hin Hseen; [contradiction|].
  cbn [unique]. destruct (existsb _ seen) eqn:E.
  - destruct Hin as [->|Hin].
    + apply seen_In in E. contradiction.
    + exact (IH seen i Hin Hseen).
  - destruct Hin as [->|Hin]; [exists i; split; [now left|reflexivity]|].
    destruct (Z.eq_dec (ItemModel.id j) (ItemModel.id i)) as [Heq|Hne].
    + exists j. split; [now left|exact Heq].
    + destruct (IH (ItemModel.id j :: seen) i Hin) as (k & Hk & Hid).
      { intros [H|H]; contradiction. }
      exists k. split; [now right|exact Hid].
Qed.

Lemma unique_keys (l : list ItemModel.t) :
  forall seen, NoDup (map ItemModel.id (unique seen l)).
Proof.
  induction l as [|j l IH]; intros seen; [constructor|].
  cbn [unique]. destruct (existsb _ seen); [apply IH|].
  cbn [map]. constructor; [|apply IH].
  intros Hin. apply in_map_iff in Hin as (k & Hk & Hin).
  destruct (unique_In _ _ _ Hin) as [_ Hnot]. apply Hnot. left. now symmetry.
Qed.

(** The rows of the join: the catalog entries under the key a link of the
    player names. *)
Lemma joined_In (d : DB) (v : Z) (i : ItemModel.t) :
  In i (flat_map (fun e => filter (fun i => ItemModel.id i =? UserEarnedItem.item_id e)
                                  (item d))
                 (links_of d v))
  <-> In i (item d)
      /\ exists e, In e (user_earned_items d)
                   /\ UserEarnedItem.user_id e = v
                   /\ UserEarnedItem.item_id e = ItemModel.id i.
Proof.
  rewrite in_flat_map. unfold links_of. split.
  - intros (e & He & Hi). apply filter_In in He as [He Hu].
    apply filter_In in Hi as [Hi Hk]. apply Z.eqb_eq in Hu. apply Z.eqb_eq in Hk.
    split; [exact Hi|]. exists e. auto.
  - intros (Hi & e & He & Hu & Hk). exists e.
    split; apply filter_In; (split; [assumption|]); apply Z.eqb_eq; auto.
Qed.

(** With the primary key of the catalog, the items of a player are the
    catalog entries that a link ties to the player. *)
Lemma earned_items_of_In (d : DB) (v : Z) (i : ItemModel.t) :
  item_pk d ->
  (In i (earned_items_of d v)
   <-> In i (item d)
       /\ exists e, In e (user_earned_items d)
                    /\ UserEarnedItem.user_id e = v
                    /\ UserEarnedItem.item_id e = ItemModel.id i).
Proof.
  intros Hpk. unfold earned_items_of. rewrite <- joined_In. split.
  - intros H. now apply unique_In in H.
  - intros H. destruct (unique_covers _ [] i H) as (j & Hj & Hid); [intros []|].
    assert (j = i) as <-; [|exact Hj].
    apply (same_key_same_row ItemModel.id (item d) j i Hpk); auto.
    + apply unique_In in Hj as [Hj _]. now apply joined_In in Hj.
    + now apply joined_In in H.
Qed.

Lemma assemble_view_of (d : DB) (u : User.t) : item_pk d -> view_of d u (assemble d u).
Proof.
  intros Hpk. unfold view_of, assemble.
  cbn [UserOut.id UserOut.document UserOut.name UserOut.school UserOut.gender
       UserOut.money UserOut.level UserOut.items].
  do 7 (split; [reflexivity|]).
  intros it. rewrite in_map_iff. split.
  - intros (i & <- & Hi).
    apply (@earned_items_of_In d _ _ Hpk) in Hi as (Hi & e & He & Hu & Hk).
    exists i, e. auto.
  - intros (i & e & -> & Hi & He & Hu & Hk). exists i. split; [reflexivity|].
    apply earned_items_of_In; [exact Hpk|]. split; [exact Hi|]. exists e. auto.
Qed.

(** In the model each entity is listed once. *)
Lemma earned_items_once (d : DB) (v : Z) :
  NoDup (map ItemModel.id (earned_items_of d v)).
Proof. exact (unique_keys _ []). Qed.

(** ** Login *)

Lemma login_run (d : DB) (token : string) (now : Z) (payload : LoginIn.t) :
  LoginIn.valid payload = true ->
  POST_auth_login token now payload d =
  match by_document d (LoginIn.document payload) with
  | None => (d, Raise (HTTPException 404 "Usuario no encontrado; regístrese primero"))
  | Some user =>
      if existsb (fun o => String.eqb (SessionToken.token o) token) (sessions d)
      then (d, Raise IntegrityError)
      else
        (set_sessions
           (sessions d ++ [SessionToken.mk (next_id (map SessionToken.id (sessions d)))
                             (User.id user) token (now + timedelta_days 7)]) d,
         if School (User.school user) && Gender (User.gender user)
         then Return (LoginOut.mk token (assemble d user))
         else Raise ValidationError)
  end.
Proof.
  intros Hv. unfold POST_auth_login, body, get_db. rewrite Hv, bind_ret, login_exact.
  destruct (by_document d (LoginIn.document payload)) as [user|]; [|reflexivity].
  cbv zeta. destruct (existsb _ (sessions d)); reflexivity.
Qed.

Lemma token_in_use (token : string) (l : list SessionToken.t) :
  existsb (fun o => String.eqb (SessionToken.token o) token) l = true
  <-> In token (map SessionToken.token l).
Proof.
  rewrite existsb_exists, in_map_iff. split; intros (o & H1 & H2).
  - apply String.eqb_eq in H2. now exists o.
  - exists o. split; [exact H2|]. now apply String.eqb_eq.
Qed.

Lemma get_user_of_row (d : DB) (u : User.t) :
  users_pk d -> In u (users d) -> get_user d (User.id u) = Some u.
Proof.
  intros Hpk Hin. unfold get_user.
  apply (find_unique User.id); try assumption.
  - apply Z.eqb_refl.
  - intros x _ Hx. now apply Z.eqb_eq in Hx.
Qed.

Lemma get_user_set_sessions (v : list SessionToken.t) (d : DB) (k : Z) :
  get_user (set_sessions v d) k = get_user d k.
Proof. reflexivity. Qed.

Lemma find_app_some {A} (p : A -> bool) (l l' : list A) (x : A) :
  find p l = Some x -> find p (l ++ l') = Some x.
Proof.
  induction l as [|y l IH]; intros H; [discriminate|].
  cbn [find app] in *. destruct (p y); [exact H|now apply IH].
Qed.

Lemma find_live_fresh (now : Z) (token : string) (l : list SessionToken.t) :
  ~ In token (map SessionToken.token l) -> find (live now token) l = None.
Proof.
  intros Hfresh. destruct (find (live now token) l) as [s|] eqn:E; [|reflexivity].
  apply find_some in E as [Hin Hlive]. apply live_spec in Hlive as [<- _].
  exfalso. apply Hfresh. now apply in_map.
Qed.

(** X7: a login by the document of a stored player, with a token no
    stored session has, appends one session for that player expiring
    seven days after the login and touches nothing else; from then on
    [user_by_token] returns the player for that token at every instant
    before the expiry, the instant of the login included, and nobody from
    the expiry on; the answer carries the token and a read-model of the
    player: the attributes of the row and, in some order, exactly the
    catalog entries linked to the player. *)
Theorem login_opens_session (d : DB) (token : string) (now : Z)
    (payload : LoginIn.t) (user : User.t) :
  LoginIn.valid payload = true ->
  by_document d (LoginIn.document payload) = Some user ->
  users_pk d -> checks_hold d -> item_pk d ->
  ~ In token (map SessionToken.token (sessions d)) ->
  let d' := fst (POST_auth_login token now payload d) in
  (exists view,
      snd (POST_auth_login token now payload d) = Return (LoginOut.mk token view)
      /\ view_of d user view)
  /\ sessions d'
     = sessions d ++ [SessionToken.mk (next_id (map SessionToken.id (sessions d)))
                        (User.id user) token (now + timedelta_days 7)]
  /\ users d' = users d /\ user_time d' = user_time d /\ item d' = item d
  /\ user_earned_items d' = user_earned_items d
  /\ user_by_token now token (SessionLocal d') = (SessionLocal d', Return (Some user))
  /\ forall now',
       user_by_token now' token (SessionLocal d')
       = (SessionLocal d',
          Return (if now' <? now + timedelta_days 7 then Some user else None)).
Proof.
  intros Hv Hdoc Hpk Hchk Hitems Hfresh d'. subst d'.
  rewrite (login_run d token now payload Hv), Hdoc.
  assert (existsb (fun o => String.eqb (SessionToken.token o) token) (sessions d) = false)
    as ->.
  { apply not_true_is_false. intros E. apply Hfresh. now apply token_in_use. }
  cbn [fst snd].
  assert (In user (users d)) as Hin.
  { unfold by_document in Hdoc. now apply find_some in Hdoc. }
  assert (School (User.school user) && Gender (User.gender user) = true) as ->.
  { unfold checks_hold in Hchk.
    destruct (proj1 (Forall_forall _ _) Hchk user Hin) as (Hs & Hg & _).
    now rewrite Hs, Hg. }
  assert (forall now',
             user_by_token now' token
               (SessionLocal
                  (set_sessions
                     (sessions d ++
                      [SessionToken.mk (next_id (map SessionToken.id (sessions d)))
                         (User.id user) token (now + timedelta_days 7)]) d))
             = (SessionLocal
                  (set_sessions
                     (sessions d ++
                      [SessionToken.mk (next_id (map SessionToken.id (sessions d)))
                         (User.id user) token (now + timedelta_days 7)]) d),
                Return (if now' <? now + timedelta_days 7 then Some user else None)))
    as Hvalid.
  { intros now'. rewrite user_by_token_session.
    cbn [stored SessionLocal sessions set_sessions]. fold (live now' token).
    rewrite (find_app_none _ _ _ (find_live_fresh now' token _ Hfresh)).
    cbn [find]. unfold live at 1.
    cbn [SessionToken.token SessionToken.expires_at SessionToken.user_id].
    rewrite String.eqb_refl. cbn [andb].
    destruct (now' <? now + timedelta_days 7); [|reflexivity].
    cbn [SessionToken.user_id]. rewrite get_user_set_sessions.
    now rewrite (@get_user_of_row d user Hpk Hin). }
  split.
  { exists (assemble d user). split; [reflexivity|]. now apply assemble_view_of. }
  do 5 (split; [reflexivity|]). split; [|exact Hvalid].
  rewrite Hvalid.
  replace (now <? now + timedelta_days 7) with true; [reflexivity|].
  symmetry. apply Z.ltb_lt. unfold timedelta_days. lia.
Qed.

Lemma login_opens_session_witness :
  let d := fst (POST_auth_register ana seeded) in
  LoginIn.valid (LoginIn.mk "A100") = true
  /\ by_document d "A100" = Some ana_row
  /\ users_pk d /\ checks_hold d /\ item_pk d
  /\ ~ In "T" (map SessionToken.token (sessions d))
  /\ (exists view,
        snd (POST_auth_login "T" 5 (LoginIn.mk "A100") d) = Return (LoginOut.mk "T" view)
        /\ view_of d ana_row view)
  /\ forall now',
       user_by_token now' "T" (SessionLocal (fst (POST_auth_login "T" 5 (LoginIn.mk "A100") d)))
       = (SessionLocal (fst (POST_auth_login "T" 5 (LoginIn.mk "A100") d)),
          Return (if now' <? 5 + timedelta_days 7 then Some ana_row else None)).
Proof.
  cbv zeta.
  assert (users_pk (fst (POST_auth_register ana seeded))) as Hpk.
  { unfold users_pk. vm_compute. repeat constructor. intros []. }
  assert (checks_hold (fst (POST_auth_register ana seeded))) as Hchk.
  { unfold checks_hold. vm_compute. repeat constructor. discriminate. }
  assert (item_pk (fst (POST_auth_register ana seeded))) as Hitems.
  { unfold item_pk. vm_compute. repeat constructor; cbn; intuition discriminate. }
  assert (~ In "T" (map SessionToken.token
                      (sessions (fst (POST_auth_register ana seeded))))) as Hfresh.
  { vm_compute. intros []. }
  destruct (@login_opens_session (fst (POST_auth_register ana seeded)) "T" 5
              (LoginIn.mk "A100") ana_row eq_refl eq_refl Hpk Hchk Hitems Hfresh)
    as (Hout & _ & _ & _ & _ & _ & _ & Hvalid).
  split; [reflexivity|]. split; [reflexivity|]. split; [exact Hpk|].
  split; [exact Hchk|]. split; [exact Hitems|]. split; [exact Hfresh|].
  split; [exact Hout|exact Hvalid].
Defined.

Lemma register_document_length (payload : RegisterIn.t) :
  RegisterIn.valid payload = true ->
  LoginIn.valid (LoginIn.mk (RegisterIn.document payload)) = true.
Proof.
  unfold RegisterIn.valid, LoginIn.valid. intros H.
  apply andb_true_iff in H as [H _]. apply andb_true_iff in H as [H _].
  apply andb_true_iff in H as [H _]. exact H.
Qed.

(** X8: a login whose document no player has answers HTTP 404, a login
    whose document is shorter than three characters is rejected, and a
    login with a token that a stored session already holds is refused by
    the unique constraint, in all three cases without storing a session;
    so a login before the registration of its document fails, and the
    same login after it, with a token no stored session has, opens a
    session for the player that the registration created. *)
Theorem login_needs_a_registered_document :
  (forall (d : DB) (token : string) (now : Z) (payload : LoginIn.t),
      LoginIn.valid payload = true ->
      by_document d (LoginIn.document payload) = None ->
      POST_auth_login token now payload d
      = (d, Raise (HTTPException 404 "Usuario no encontrado; regístrese primero")))
  /\
  (forall (d : DB) (token : string) (now : Z) (payload : LoginIn.t),
      LoginIn.valid payload = false ->
      POST_auth_login token now payload d = (d, Raise RequestValidationError))
  /\
  (forall (d : DB) (token : string) (now : Z) (payload : LoginIn.t) (user : User.t),
      LoginIn.valid payload = true ->
      by_document d (LoginIn.document payload) = Some user ->
      In token (map SessionToken.token (sessions d)) ->
      POST_auth_login token now payload d = (d, Raise IntegrityError))
  /\
  (forall (d : DB) (token : string) (now : Z) (payload : RegisterIn.t),
      RegisterIn.valid payload = true ->
      by_document d (RegisterIn.document payload) = None ->
      ~ In token (map SessionToken.token (sessions d)) ->
      let credentials := LoginIn.mk (RegisterIn.document payload) in
      let d1 := fst (POST_auth_register payload d) in
      POST_auth_login token now credentials d
      = (d, Raise (HTTPException 404 "Usuario no encontrado; regístrese primero"))
      /\ sessions (fst (POST_auth_login token now credentials d1))
         = sessions d ++ [SessionToken.mk (next_id (map SessionToken.id (sessions d)))
                            (User.id (registered payload d)) token
                            (now + timedelta_days 7)]).
Proof.
  split; [|split; [|split]].
  - intros d token now payload Hv Hdoc.
    now rewrite (login_run d token now payload Hv), Hdoc.
  - intros d token now payload Hv. unfold POST_auth_login, body, get_db.
    now rewrite Hv.
  - intros d token now payload user Hv Hdoc Hused.
    rewrite (login_run d token now payload Hv), Hdoc.
    now rewrite (proj2 (token_in_use token (sessions d)) Hused).
  - intros d token now payload Hv Hdoc Hfresh credentials d1.
    pose proof (register_document_length payload Hv) as Hl.
    split.
    + subst credentials. rewrite (login_run d token now _ Hl).
      cbn [LoginIn.document]. now rewrite Hdoc.
    + subst credentials d1. rewrite (login_run _ token now _ Hl).
      cbn [LoginIn.document]. rewrite (registered_by_document d payload Hv Hdoc).
      rewrite (POST_auth_register_store d payload Hv), (register_run d payload Hv), Hdoc.
      cbn [fst sessions set_users].
      assert (existsb (fun o => String.eqb (SessionToken.token o) token) (sessions d)
              = false) as ->.
      { apply not_true_is_false. intros E. apply Hfresh. now apply token_in_use. }
      reflexivity.
Qed.

Lemma login_needs_a_registered_document_witness :
  RegisterIn.valid ana = true
  /\ by_document seeded (RegisterIn.document ana) = None
  /\ ~ In "T" (map SessionToken.token (sessions seeded))
  /\ LoginIn.valid (LoginIn.mk "A1") = false
  /\ POST_auth_login "T" 0 (LoginIn.mk "A1") seeded = (seeded, Raise RequestValidationError)
  /\ In "T" (map SessionToken.token (sessions signed_in))
  /\ POST_auth_login "T" 9 (LoginIn.mk "A100") signed_in = (signed_in, Raise IntegrityError)
  /\ POST_auth_login "T" 0 (LoginIn.mk (RegisterIn.document ana)) seeded
     = (seeded, Raise (HTTPException 404 "Usuario no encontrado; regístrese primero"))
  /\ sessions (fst (POST_auth_login "T" 0 (LoginIn.mk (RegisterIn.document ana))
                      (fst (POST_auth_register ana seeded))))
     = sessions seeded ++ [SessionToken.mk (next_id (map SessionToken.id (sessions seeded)))
                             (User.id (registered ana seeded)) "T"
                             (0 + timedelta_days 7)].
Proof.
  assert (~ In "T" (map SessionToken.token (sessions seeded))) as Hfresh.
  { intros []. }
  assert (In "T" (map SessionToken.token (sessions signed_in))) as Hused.
  { vm_compute. now left. }
  split; [reflexivity|]. split; [reflexivity|]. split; [exact Hfresh|].
  split; [reflexivity|]. split.
  { exact (proj1 (proj2 login_needs_a_registered_document) seeded "T" 0
             (LoginIn.mk "A1") eq_refl). }
  split; [exact Hused|]. split.
  { apply (proj1 (proj2 (proj2 login_needs_a_registered_document)) signed_in "T" 9
             (LoginIn.mk "A100") ana_row eq_refl); [vm_compute; reflexivity|exact Hused]. }
  exact (proj2 (proj2 (proj2 login_needs_a_registered_document)) seeded "T" 0 ana
           eq_refl eq_refl Hfresh).
Defined.

(** ** Logout and the other sessions *)

Lemma find_filter_implied {A} (p q : A -> bool) (l : list A) :
  (forall x, p x = true -> q x = true) -> find p (filter q l) = find p l.
Proof.
  intros H. induction l as [|x l IH]; [reflexivity|].
  cbn [filter find]. destruct (q x) eqn:Q.
  - cbn [find]. destruct (p x); [reflexivity|exact IH].
  - destruct (p x) eqn:P; [|exact IH]. rewrite (H x P) in Q. discriminate.
Qed.

Lemma find_app_other {A} (p : A -> bool) (l : list A) (x : A) :
  p x = false -> find p (l ++ [x]) = find p l.
Proof.
  intros H. induction l as [|y l IH]; cbn [find app].
  - now rewrite H.
  - destruct (p y); [reflexivity|exact IH].
Qed.



(** X10: a logout or a login with one token changes nothing for any other
    token: at every instant [user_by_token] returns for the other token
    what it returned before, so a player's further sessions stay valid
    when one of them is revoked or a new one is opened. *)
Theorem other_sessions_are_untouched (d : DB) (token other : string) (now' : Z) :
  other <> token ->
  snd (user_by_token now' other (SessionLocal (fst (POST_auth_logout token d))))
  = snd (user_by_token now' other (SessionLocal d))
  /\ forall now payload,
       snd (user_by_token now' other
              (SessionLocal (fst (POST_auth_login token now payload d))))
       = snd (user_by_token now' other (SessionLocal d)).
Proof.
  intros Hne. split.
  - rewrite !user_by_token_session, POST_auth_logout_run.
    cbn [fst snd stored SessionLocal sessions set_sessions]. fold (live now' other).
    rewrite find_filter_implied.
    + destruct (find (live now' other) (sessions d)); reflexivity.
    + intros s Hs. apply live_spec in Hs as [Hs _]. apply negb_true_iff.
      apply String.eqb_neq. congruence.
  - intros now payload. rewrite !user_by_token_session.
    cbn [snd stored SessionLocal].
    destruct (LoginIn.valid payload) eqn:Hv.
    + rewrite (login_run d token now payload Hv).
      destruct (by_document d (LoginIn.document payload)) as [user|]; [|reflexivity].
      destruct (existsb _ (sessions d)); [reflexivity|].
      cbn [fst sessions set_sessions]. fold (live now' other).
      rewrite find_app_other.
      * destruct (find (live now' other) (sessions d)); reflexivity.
      * unfold live. cbn [SessionToken.token].
        apply andb_false_iff. left. apply String.eqb_neq. congruence.
    + unfold POST_auth_login, body, get_db. rewrite Hv. reflexivity.
Qed.

Lemma other_sessions_are_untouched_witness :
  let d := fst (POST_auth_login "U" 3 (LoginIn.mk "A100") signed_in) in
  "T" <> "U"
  /\ snd (user_by_token 9 "T" (SessionLocal (fst (POST_auth_logout "U" d))))
     = snd (user_by_token 9 "T" (SessionLocal d))
  /\ snd (user_by_token 9 "T" (SessionLocal d)) = Return (Some ana_row).
Proof.
  cbv zeta. assert ("T" <> "U") as Hne by discriminate.
  split; [exact Hne|]. split.
  - exact (proj1 (@other_sessions_are_untouched
                    (fst (POST_auth_login "U" 3 (LoginIn.mk "A100") signed_in))
                    "U" "T" 9 Hne)).
  - vm_compute. reflexivity.
Defined.

(** ** The read-model *)

Lemma view_passes_response_model (d : DB) (u : User.t) :
  School (User.school u) = true -> Gender (User.gender u) = true ->
  UserOut_validate (UserOut_object (assemble d u)) = Some (assemble d u).
Proof.
  intros Hs Hg. unfold UserOut_validate, UserOut_object, assemble.
  cbn [getattr String.eqb Ascii.eqb Bool.eqb UserOut.id UserOut.document UserOut.name
       UserOut.school UserOut.gender UserOut.money UserOut.level UserOut.items].
  cbn. cbn in Hs, Hg. unfold School, Gender, Py.contains in *. cbn in Hs, Hg.
  rewrite Hs, Hg. reflexivity.
Qed.

Lemma GET_me_run (d : DB) (now : Z) (authorization : option string) (current : User.t) :
  authenticates d now authorization current ->
  GET_me now authorization d =
  (d, if School (User.school current) && Gender (User.gender current)
      then Return (assemble d current) else Raise ValidationError).
Proof.
  intros Ha. unfold GET_me, get_db. unfold bind at 1. rewrite Ha.
  unfold bind. rewrite me_session. cbn [stored SessionLocal].
  destruct (School (User.school current)) eqn:Hs;
    destruct (Gender (User.gender current)) eqn:Hg; try reflexivity.
  cbn [andb]. unfold response_model.
  now rewrite (view_passes_response_model d current Hs Hg).
Qed.

(** X11: [GET /me] never changes the database; for an authenticated
    player whose school and gender are in their enumerations, over a
    catalog with its primary key, it answers with a read-model of the
    stored row: the attributes of the row and, in some order, exactly
    the catalog entries that a link ties to the player. *)
Theorem me_reads_the_stored_view :
  (forall (d : DB) (now : Z) (authorization : option string),
      fst (GET_me now authorization d) = d)
  /\
  (forall (d : DB) (now : Z) (authorization : option string) (current : User.t),
      authenticates d now authorization current ->
      School (User.school current) = true ->
      Gender (User.gender current) = true ->
      item_pk d ->
      exists view,
        GET_me now authorization d = (d, Return view) /\ view_of d current view).
Proof.
  split.
  - intros d now authorization.
    destruct (require_auth_401 now authorization (SessionLocal d)) as (r & Hr & _).
    destruct r as [current|e].
    + now rewrite (@GET_me_run d now authorization current Hr).
    + unfold GET_me, get_db, bind. now rewrite Hr.
  - intros d now authorization current Ha Hs Hg Hpk.
    rewrite (@GET_me_run d now authorization current Ha), Hs, Hg.
    exists (assemble d current). split; [reflexivity|]. now apply assemble_view_of.
Qed.

Lemma me_reads_the_stored_view_witness :
  let d := fst (POST_me_complete_level 1 bearer_T (CompleteLevelIn.mk 10 30) signed_in) in
  let current := User.mk 1 "A100" "Ana" "Aguachica" "Masculino" "10" 2 in
  authenticates d 2 bearer_T current
  /\ item_pk d
  /\ exists view, GET_me 2 bearer_T d = (d, Return view) /\ view_of d current view.
Proof.
  cbv zeta.
  assert (authenticates
            (fst (POST_me_complete_level 1 bearer_T (CompleteLevelIn.mk 10 30) signed_in))
            2 bearer_T (User.mk 1 "A100" "Ana" "Aguachica" "Masculino" "10" 2)) as Ha.
  { vm_compute. reflexivity. }
  assert (item_pk (fst (POST_me_complete_level 1 bearer_T (CompleteLevelIn.mk 10 30)
                          signed_in))) as Hpk.
  { unfold item_pk. vm_compute. repeat constructor; cbn; intuition discriminate. }
  split; [exact Ha|]. split; [exact Hpk|].
  exact (proj2 me_reads_the_stored_view _ 2 bearer_T _ Ha eq_refl eq_refl Hpk).
Defined.

(** ** What a completed level touches *)

Lemma POST_me_complete_level_cases (d : DB) (now : Z) (authorization : option string)
    (data : CompleteLevelIn.t) (current : User.t) :
  authenticates d now authorization current ->
  fst (POST_me_complete_level now authorization data d) = d
  \/ exists m, Py.int (User.money current) = Some m
               /\ CompleteLevelIn.valid data = true
               /\ fst (POST_me_complete_level now authorization data d)
                  = completed data current m d.
Proof.
  intros Ha. unfold POST_me_complete_level.
  rewrite get_db_response,
    (@authenticated_run _ _ d now authorization _ data complete_level current Ha).
  destruct (CompleteLevelIn.valid data) eqn:Hv; [|now left].
  rewrite complete_level_store.
  destruct (Py.int (User.money current)) as [m|] eqn:Hm; [|now left].
  destruct (flush _ _); [now left|].
  right. exists m. auto.
Qed.

Lemma earned_items_of_ext (d d' : DB) (v : Z) :
  item d' = item d -> links_of d' v = links_of d v ->
  earned_items_of d' v = earned_items_of d v.
Proof. intros Hi Hl. unfold earned_items_of. now rewrite Hi, Hl. Qed.

(** The links added for one player are no links of another. *)
Lemma links_of_add_links (uid v : Z) (items : list ItemModel.t) :
  v <> uid ->
  forall earned,
    filter (fun e => UserEarnedItem.user_id e =? v) (add_links uid items earned)
    = filter (fun e => UserEarnedItem.user_id e =? v) earned.
Proof.
  intros Hv. unfold add_links. induction items as [|i items IH]; intros earned.
  - reflexivity.
  - cbn [fold_left]. rewrite IH, filter_app. cbn [filter UserEarnedItem.user_id].
    replace (uid =? v) with false; [apply app_nil_r|].
    symmetry. apply Z.eqb_neq. congruence.
Qed.

Lemma add_links_In (uid : Z) (items : list ItemModel.t) :
  forall earned e,
    In e (add_links uid items earned) ->
    In e earned \/ UserEarnedItem.user_id e = uid.
Proof.
  unfold add_links. induction items as [|i items IH]; intros earned e He; [now left|].
  cbn [fold_left] in He. destruct (IH _ _ He) as [Hin|Hid]; [|now right].
  apply in_app_or in Hin as [Hin|[<-|[]]]; [now left|now right].
Qed.

(** X12: a complete-level request of an authenticated player, whatever its
    body and outcome, leaves the sessions and the catalog as they are,
    every other player's row as it is, every other player's items as they
    are, and adds links for the calling player only. *)
Theorem complete_level_touches_only_the_caller (d : DB) (now : Z)
    (authorization : option string) (data : CompleteLevelIn.t) (current : User.t) :
  authenticates d now authorization current ->
  let d' := fst (POST_me_complete_level now authorization data d) in
  sessions d' = sessions d /\ item d' = item d
  /\ (forall k u, k <> User.id current -> get_user d k = Some u -> get_user d' k = Some u)
  /\ (forall v, v <> User.id current -> earned_items_of d' v = earned_items_of d v)
  /\ (forall e, In e (user_earned_items d') ->
                In e (user_earned_items d) \/ UserEarnedItem.user_id e = User.id current).
Proof.
  intros Ha d'. subst d'.
  destruct (@POST_me_complete_level_cases d now authorization data current Ha)
    as [-> | (m & Hm & Hv & ->)].
  { repeat split; auto. }
  split; [reflexivity|]. split; [reflexivity|].
  assert (forall p, In p (map link (user_earned_items (completed data current m d))) ->
                    In p (map link (user_earned_items d)) \/ fst p = User.id current)
    as Hnew.
  { intros p Hp. unfold completed in Hp. cbn [user_earned_items] in Hp.
    rewrite map_link_add_links in Hp. apply in_app_or in Hp as [Hp|Hp]; [now left|].
    right. apply in_map_iff in Hp as (i & <- & _). reflexivity. }
  split; [|split].
  - intros k u Hk Hu. rewrite get_user_completed, Hu. cbn [option_map].
    rewrite (get_user_id _ _ Hu). destruct (k =? User.id current) eqn:E; [|reflexivity].
    apply Z.eqb_eq in E. contradiction.
  - intros v Hv'. apply earned_items_of_ext; [reflexivity|].
    unfold links_of, completed. cbn [user_earned_items].
    now apply links_of_add_links.
  - intros e He. unfold completed in He. cbn [user_earned_items] in He.
    exact (add_links_In _ _ _ _ He).
Qed.

Lemma complete_level_touches_only_the_caller_witness :
  let d := run [Register (RegisterIn.mk "B200" "Luis" "Aractaca" "Masculino")] signed_in in
  let d' := fst (POST_me_complete_level 1 bearer_T (CompleteLevelIn.mk 10 30) d) in
  authenticates d 1 bearer_T ana_row
  /\ get_user d 2 = Some (User.mk 2 "B200" "Luis" "Aractaca" "Masculino" "0" 1)
  /\ sessions d' = sessions d /\ item d' = item d
  /\ (forall k u, k <> User.id ana_row -> get_user d k = Some u -> get_user d' k = Some u)
  /\ (forall v, v <> User.id ana_row -> earned_items_of d' v = earned_items_of d v)
  /\ (forall e, In e (user_earned_items d') ->
                In e (user_earned_items d) \/ UserEarnedItem.user_id e = User.id ana_row).
Proof.
  cbv zeta. split; [vm_compute; reflexivity|]. split; [vm_compute; reflexivity|].
  apply (@complete_level_touches_only_the_caller
           (run [Register (RegisterIn.mk "B200" "Luis" "Aractaca" "Masculino")] signed_in)
           1 bearer_T (CompleteLevelIn.mk 10 30) ana_row).
  vm_compute. reflexivity.
Defined.

Lemma linked_link (l : list UserEarnedItem.t) (v k : Z) :
  (exists e, In e l /\ UserEarnedItem.user_id e = v /\ UserEarnedItem.item_id e = k)
  <-> In (v, k) (map link l).
Proof.
  rewrite in_map_iff. unfold link. split.
  - intros (e & He & <- & <-). now exists e.
  - intros (e & Hl & He). injection Hl as H1 H2. exists e. auto.
Qed.

Lemma contains_In (values : list string) (x : string) :
  Py.contains values x = true <-> In x values.
Proof.
  unfold Py.contains. rewrite existsb_exists. split.
  - intros (y & Hy & E). apply String.eqb_eq in E. now subst.
  - intros H. exists x. split; [exact H|apply String.eqb_refl].
Qed.

(** X13: after a complete-level call that the database accepts (time
    within 64 bits, level at least 1, balance and sum within the digit
    cap), the items of the calling player are those held before together
    with the catalog entries that the reward table names for the level
    just completed; for a level the table has no entry for, the links are
    unchanged. *)
Theorem complete_level_grants_the_rewards (d : DB) (now : Z)
    (authorization : option string) (data : CompleteLevelIn.t)
    (current : User.t) (m : Z) :
  item_pk d ->
  authenticates d now authorization current ->
  0 <= CompleteLevelIn.coins_earned data ->
  0 <= CompleteLevelIn.time_spent data < 2 ^ 63 ->
  1 <= User.level current ->
  Py.int (User.money current) = Some m ->
  Py.within_length (User.money current) ->
  Py.within_digits (m + CompleteLevelIn.coins_earned data) ->
  let d' := fst (POST_me_complete_level now authorization data d) in
  (forall i, In i (earned_items_of d' (User.id current))
             <-> In i (earned_items_of d (User.id current))
                 \/ (In i (item d)
                     /\ In (ItemModel.name i)
                           (LEVEL_REWARDS_get (completed_level current))))
  /\ (LEVEL_REWARDS_get (completed_level current) = [] ->
      user_earned_items d' = user_earned_items d)
  /\ (6 <= User.level current -> user_earned_items d' = user_earned_items d).
Proof.
  intros Hpk Ha Hc Ht Hl Hm _ _ d'. subst d'.
  rewrite (@POST_me_complete_level_stored d now authorization data current m
             Ha Hc Ht Hl Hm).
  assert (LEVEL_REWARDS_get (completed_level current) = [] ->
          user_earned_items (completed data current m d) = user_earned_items d) as Hnothing.
  { intros Hnone. unfold completed. cbn [user_earned_items].
    cbn [User.level User.set_money User.set_level]. fold (completed_level current).
    unfold reward_items, items_named. rewrite Hnone.
    replace (filter (fun i => Py.contains [] (ItemModel.name i)) (item d))
      with (@nil ItemModel.t); [reflexivity|].
    symmetry. clear. induction (item d) as [|i l IH]; [reflexivity|exact IH]. }
  split; [|split; [exact Hnothing|]].
  - intros i.
    rewrite (@earned_items_of_In (completed data current m d) _ i Hpk),
      (@earned_items_of_In d _ i Hpk), !linked_link.
    change (item (completed data current m d)) with (item d).
    unfold completed. cbn [user_earned_items]. rewrite map_link_add_links, in_app_iff.
    cbn [User.level User.set_money User.set_level]. fold (completed_level current).
    split.
    + intros [Hi [Hold|Hnew]]; [left; auto|]. right. split; [exact Hi|].
      apply in_map_iff in Hnew as (j & Hj & Hin). injection Hj as Hj.
      apply filter_In in Hin as [Hin _]. apply reward_items_In in Hin as [Hin Hname].
      assert (j = i) as <-.
      { now apply (same_key_same_row ItemModel.id (item d) j i Hpk). }
      now apply contains_In.
    + intros [[Hi Hold]|[Hi Hname]]; [auto|]. split; [exact Hi|].
      destruct (has_link d (User.id current) (ItemModel.id i)) eqn:E.
      * left. now apply has_link_In.
      * right. apply in_map_iff. exists i. split; [reflexivity|].
        apply filter_In. split; [|now rewrite E].
        apply reward_items_In. split; [exact Hi|]. now apply contains_In.
  - intros Hlvl. apply Hnothing. unfold completed_level.
    destruct (next_level_bounds (User.level current)) as (_ & _ & _ & _ & Hcap).
    rewrite (Hcap ltac:(lia)).
    unfold LEVEL_REWARDS_get, LEVEL_REWARDS. cbn [Py.get].
    repeat match goal with
           | |- context [?k =? ?x] =>
               replace (k =? x) with false by (symmetry; apply Z.eqb_neq; lia)
           end.
    reflexivity.
Qed.

Lemma complete_level_grants_the_rewards_witness :
  let d' := fst (POST_me_complete_level 1 bearer_T (CompleteLevelIn.mk 10 30) signed_in) in
  item_pk signed_in
  /\ authenticates signed_in 1 bearer_T ana_row
  /\ Py.int (User.money ana_row) = Some 0
  /\ Py.within_length (User.money ana_row)
  /\ Py.within_digits (0 + 10)
  /\ (forall i, In i (earned_items_of d' (User.id ana_row))
                <-> In i (earned_items_of signed_in (User.id ana_row))
                    \/ (In i (item signed_in)
                        /\ In (ItemModel.name i)
                              (LEVEL_REWARDS_get (completed_level ana_row))))
  /\ (LEVEL_REWARDS_get (completed_level ana_row) = [] ->
      user_earned_items d' = user_earned_items signed_in)
  /\ (6 <= User.level ana_row -> user_earned_items d' = user_earned_items signed_in).
Proof.
  cbv zeta.
  assert (item_pk signed_in) as Hpk.
  { unfold item_pk. vm_compute. repeat constructor; cbn; intuition discriminate. }
  assert (authenticates signed_in 1 bearer_T ana_row) as Ha by (vm_compute; reflexivity).
  assert (Py.within_length (User.money ana_row)) as Hlen by (vm_compute; discriminate).
  assert (Py.within_digits (0 + 10)) as Hdig by (vm_compute; reflexivity).
  split; [exact Hpk|]. split; [exact Ha|]. split; [reflexivity|].
  split; [exact Hlen|]. split; [exact Hdig|].
  apply (@complete_level_grants_the_rewards signed_in 1 bearer_T
           (CompleteLevelIn.mk 10 30) ana_row 0 Hpk Ha); try assumption;
    try reflexivity; cbn; lia.
Defined.

(** ** Reading back what was written *)

Lemma authenticates_after (d d' : DB) (now : Z) (authorization : option string)
    (current : User.t) (f : User.t -> User.t) :
  sessions d' = sessions d ->
  (forall k, get_user d' k = option_map f (get_user d k)) ->
  authenticates d now authorization current ->
  authenticates d' now authorization (f current).
Proof.
  unfold authenticates. intros Hs Hg Ha.
  destruct authorization as [a|]; [|discriminate Ha].
  destruct (String.eqb a "" || negb (Py.startswith "Bearer " a)) eqn:E.
  { unfold require_auth in Ha. rewrite E in Ha. discriminate Ha. }
  apply orb_false_iff in E as [_ E]. apply negb_false_iff in E.
  destruct (prefix_app _ _ E) as [x ->].
  destruct (require_auth_Bearer now x (SessionLocal d)) as (t & pieces & Hsplit & Hrun).
  destruct (require_auth_Bearer now x (SessionLocal d')) as (t' & pieces' & Hsplit' & Hrun').
  rewrite Hsplit in Hsplit'. injection Hsplit' as <- <-.
  rewrite Hrun', user_by_token_session. rewrite Hrun, user_by_token_session in Ha.
  cbn [snd stored SessionLocal] in *. rewrite Hs.
  destruct (find _ (sessions d)) as [sess|]; [|discriminate Ha].
  rewrite Hg. destruct (get_user d (SessionToken.user_id sess)) as [u|];
    [|discriminate Ha].
  injection Ha as ->. reflexivity.
Qed.

Lemma POST_me_complete_level_response (d : DB) (now : Z) (authorization : option string)
    (data : CompleteLevelIn.t) (current : User.t) (m : Z) :
  authenticates d now authorization current ->
  0 <= CompleteLevelIn.coins_earned data ->
  0 <= CompleteLevelIn.time_spent data < 2 ^ 63 ->
  1 <= User.level current ->
  Py.int (User.money current) = Some m ->
  let after := User.set_money (Py.str (m + CompleteLevelIn.coins_earned data))
                 (User.set_level (next_level (User.level current)) current) in
  POST_me_complete_level now authorization data d
  = (completed data current m d,
     if School (User.school current) && Gender (User.gender current)
     then Return (assemble (completed data current m d) after)
     else Raise ValidationError).
Proof.
  intros Ha Hc Ht Hl Hm after. subst after.
  assert (CompleteLevelIn.valid data = true) as Hv.
  { unfold CompleteLevelIn.valid. apply andb_true_iff. split; apply Z.leb_le; lia. }
  unfold POST_me_complete_level, get_db, bind.
  rewrite (@authenticated_run _ _ d now authorization _ data complete_level current Ha), Hv.
  rewrite (complete_level_commits d data current Hm),
    (@flush_completed d data current m (get_user_In _ _ (authenticates_row Ha)) Hl),
    (int64_time Ht).
  unfold bind, refresh. cbn [stored SessionLocal User.id User.set_money User.set_level].
  rewrite get_user_completed, (authenticates_row Ha). cbn [option_map].
  rewrite Z.eqb_refl, me_session.
  cbn [stored SessionLocal User.school User.gender User.set_money User.set_level].
  destruct (School (User.school current)) eqn:Hs;
    destruct (Gender (User.gender current)) eqn:Hg; try reflexivity.
  cbn [andb]. unfold response_model.
  rewrite view_passes_response_model; [reflexivity|exact Hs|exact Hg].
Qed.

(** X14: when a complete-level call of an authenticated player is
    accepted by the database (time within 64 bits, level at least 1,
    balance and sum within the digit cap), its answer is what [GET /me]
    with the same header answers on the database it committed: the token
    still authenticates the player, the stored row has the new level and
    the new balance, and the view returned is a read-model of that row
    over the committed links. *)
Theorem complete_level_answer_is_the_stored_view (d : DB) (now : Z)
    (authorization : option string) (data : CompleteLevelIn.t)
    (current : User.t) (m : Z) :
  item_pk d ->
  authenticates d now authorization current ->
  0 <= CompleteLevelIn.coins_earned data ->
  0 <= CompleteLevelIn.time_spent data < 2 ^ 63 ->
  1 <= User.level current ->
  Py.int (User.money current) = Some m ->
  Py.within_length (User.money current) ->
  Py.within_digits (m + CompleteLevelIn.coins_earned data) ->
  let d' := fst (POST_me_complete_level now authorization data d) in
  exists after,
    authenticates d' now authorization after
    /\ get_user d' (User.id current) = Some after
    /\ User.level after = next_level (User.level current)
    /\ User.money after = Py.str (m + CompleteLevelIn.coins_earned data)
    /\ POST_me_complete_level now authorization data d = GET_me now authorization d'
    /\ (School (User.school current) = true -> Gender (User.gender current) = true ->
        exists view,
          snd (POST_me_complete_level now authorization data d) = Return view
          /\ view_of d' after view).
Proof.
  intros Hpk Ha Hc Ht Hl Hm _ _ d'. subst d'.
  rewrite (@POST_me_complete_level_response d now authorization data current m
             Ha Hc Ht Hl Hm).
  cbn [fst snd].
  set (after := User.set_money (Py.str (m + CompleteLevelIn.coins_earned data))
                  (User.set_level (next_level (User.level current)) current)).
  assert (authenticates (completed data current m d) now authorization after) as Ha'.
  { pose proof (@authenticates_after d (completed data current m d) now authorization
                  current (fun r => if User.id r =? User.id current then after else r)
                  eq_refl (get_user_completed d data current m) Ha) as H.
    cbn beta in H. now rewrite Z.eqb_refl in H. }
  exists after. split; [exact Ha'|]. split; [exact (authenticates_row Ha')|].
  split; [reflexivity|]. split; [reflexivity|]. split.
  - now rewrite (@GET_me_run _ now authorization after Ha').
  - intros Hs Hg. rewrite Hs, Hg. cbn [andb].
    exists (assemble (completed data current m d) after). split; [reflexivity|].
    now apply assemble_view_of.
Qed.

Lemma complete_level_answer_is_the_stored_view_witness :
  let d' := fst (POST_me_complete_level 1 bearer_T (CompleteLevelIn.mk 10 30) signed_in) in
  item_pk signed_in
  /\ authenticates signed_in 1 bearer_T ana_row
  /\ Py.int (User.money ana_row) = Some 0
  /\ Py.within_length (User.money ana_row)
  /\ Py.within_digits (0 + 10)
  /\ exists after,
       authenticates d' 1 bearer_T after
       /\ get_user d' (User.id ana_row) = Some after
       /\ User.level after = next_level (User.level ana_row)
       /\ User.money after = Py.str (0 + 10)
       /\ POST_me_complete_level 1 bearer_T (CompleteLevelIn.mk 10 30) signed_in
          = GET_me 1 bearer_T d'
       /\ (School (User.school ana_row) = true -> Gender (User.gender ana_row) = true ->
           exists view,
             snd (POST_me_complete_level 1 bearer_T (CompleteLevelIn.mk 10 30) signed_in)
             = Return view
             /\ view_of d' after view).
Proof.
  cbv zeta.
  assert (item_pk signed_in) as Hpk.
  { unfold item_pk. vm_compute. repeat constructor; cbn; intuition discriminate. }
  assert (authenticates signed_in 1 bearer_T ana_row) as Ha by (vm_compute; reflexivity).
  assert (Py.within_length (User.money ana_row)) as Hlen by (vm_compute; discriminate).
  assert (Py.within_digits (0 + 10)) as Hdig by (vm_compute; reflexivity).
  split; [exact Hpk|]. split; [exact Ha|]. split; [reflexivity|].
  split; [exact Hlen|]. split; [exact Hdig|].
  apply (@complete_level_answer_is_the_stored_view signed_in 1 bearer_T
           (CompleteLevelIn.mk 10 30) ana_row 0 Hpk Ha); try assumption;
    try reflexivity; cbn; lia.
Defined.

(** ** The time log *)

Lemma effect_user_time (d d' : DB) (r : Request) :
  effect d r d' ->
  user_time d' = user_time d
  \/ (is_complete_level r = true
      /\ exists t, user_time d' = user_time d ++ [t]
                   /\ UserTime.id t = next_id (map UserTime.id (user_time d))).
Proof.
  intros He.
  destruct He as [r|payload Hnew|token now payload user Hin|token
                  |now a data current m Ha Hv Hm|now a data current Ha Hv];
    try (left; reflexivity).
  right. split; [reflexivity|]. eexists. split; reflexivity.
Qed.

(** X15: the time log is append-only: after any sequence of requests the
    records stored before are all still there, unchanged and in order, in
    front of the records added, of which there is at most one per
    complete-level request of the sequence. *)
Theorem time_log_is_append_only (requests : list Request) (d : DB) :
  exists added,
    user_time (run requests d) = user_time d ++ added
    /\ (List.length added <= count_complete_level requests)%nat.
Proof.
  revert d. induction requests as [|r requests IH]; intros d.
  - exists []. cbn. split; [now rewrite app_nil_r|lia].
  - cbn [run fold_left]. fold (run requests (serve r d)).
    destruct (IH (serve r d)) as (added & Hrun & Hlen).
    unfold count_complete_level in *. cbn [filter].
    destruct (effect_user_time (serve_effect r d)) as [Hsame|(Hr & t & Ht & _)].
    + exists added. rewrite Hrun, Hsame. split; [reflexivity|].
      destruct (is_complete_level r); cbn [List.length]; lia.
    + exists (t :: added). rewrite Hrun, Ht, <- app_assoc. split; [reflexivity|].
      rewrite Hr. cbn [List.length]. lia.
Qed.

(** ** The balance guard without profile updates *)

(** X16: in a database reached from an empty player table by requests
    other than profile updates, the [money] guard of [complete_level]
    never fires: no complete-level request is answered with the
    [HTTPException] of status 500 that the handler raises, because every
    stored balance is the initial "0" or a text that [complete_level]
    itself wrote.  What is left of status 500 there is the failure of
    [commit]: an authenticated call with a valid body, a time below 2^63
    and a balance and sum within the digit cap is answered with the view
    of the player, at the next level and with the sum as balance. *)
Theorem money_guard_needs_an_update (d : DB) (requests : list Request)
    (now : Z) (authorization : option string) (data : CompleteLevelIn.t) :
  users d = [] ->
  Forall (fun r => is_update r = false) requests ->
  (forall detail,
     snd (POST_me_complete_level now authorization data (run requests d))
     <> Raise (HTTPException 500 detail))
  /\ (forall current,
        authenticates (run requests d) now authorization current ->
        CompleteLevelIn.valid data = true ->
        CompleteLevelIn.time_spent data < 2 ^ 63 ->
        Py.within_length (User.money current) ->
        (forall m, Py.int (User.money current) = Some m ->
                   Py.within_digits (m + CompleteLevelIn.coins_earned data)) ->
        exists m view,
          Py.int (User.money current) = Some m
          /\ snd (POST_me_complete_level now authorization data (run requests d))
             = Return view
          /\ UserOut.level view = next_level (User.level current)
          /\ UserOut.money view = Py.str (m + CompleteLevelIn.coins_earned data)).
Proof.
  intros Hd HF.
  assert (Forall in_range (users (run requests d))) as Hrange.
  { apply run_rows; [exact HF|]. rewrite Hd. constructor. }
  assert (checks_hold (run requests d)) as Hchecks.
  { apply run_checks. unfold checks_hold. rewrite Hd. constructor. }
  set (d1 := run requests d) in *.
  split.
  - intros detail.
    destruct (require_auth_401 now authorization (SessionLocal d1)) as (r & Hr & He).
    destruct r as [current|e].
    + destruct (CompleteLevelIn.valid data) eqn:Hv.
      * pose proof (@POST_me_complete_level_run d1 now authorization data current Hr Hv) as H.
        assert (in_range current) as [_ (n & Hn & _)].
        { eapply Forall_forall; [exact Hrange|].
          eapply get_user_In, authenticates_row, Hr. }
        rewrite Hn in H. apply H.
      * unfold POST_me_complete_level, get_db, bind.
        rewrite (@authenticated_run _ _ d1 now authorization _ data complete_level current Hr),
          Hv. cbn. discriminate.
    + unfold POST_me_complete_level, authenticated, get_db, bind. rewrite Hr. cbn [snd].
      destruct (He e eq_refl) as [-> | ->]; discriminate.
  - intros current Ha Hv Ht Hlen Hcap.
    pose proof (get_user_In _ _ (authenticates_row Ha)) as Hin.
    assert (in_range current) as [[Hl _] (m & Hm & _)].
    { eapply Forall_forall; [exact Hrange|exact Hin]. }
    pose proof (proj1 (Forall_forall _ _) Hchecks current Hin) as (Hs & Hg & _).
    unfold CompleteLevelIn.valid in Hv. apply andb_true_iff in Hv as [Hc Ht0].
    apply Z.leb_le in Hc, Ht0.
    exists m. eexists. split; [exact Hm|].
    rewrite (@POST_me_complete_level_response d1 now authorization data current m
               Ha Hc (conj Ht0 Ht) Hl Hm), Hs, Hg.
    cbn [snd andb]. split; [reflexivity|]. split; reflexivity.
Qed.

Lemma money_guard_needs_an_update_witness :
  let requests := [Register ana; Login "T" 0 (LoginIn.mk "A100");
                   CompleteLevel 1 bearer_T (CompleteLevelIn.mk 10 30)] in
  users seeded = []
  /\ Forall (fun r => is_update r = false) requests
  /\ (forall detail,
        snd (POST_me_complete_level 2 bearer_T (CompleteLevelIn.mk 5 5)
               (run requests seeded))
        <> Raise (HTTPException 500 detail))
  /\ exists view,
       snd (POST_me_complete_level 2 bearer_T (CompleteLevelIn.mk 5 5)
              (run requests seeded)) = Return view
       /\ UserOut.level view = 3
       /\ UserOut.money view = "15".
Proof.
  cbv zeta.
  assert (Forall (fun r => is_update r = false)
            [Register ana; Login "T" 0 (LoginIn.mk "A100");
             CompleteLevel 1 bearer_T (CompleteLevelIn.mk 10 30)]) as HF.
  { repeat constructor. }
  split; [reflexivity|]. split; [exact HF|].
  destruct (@money_guard_needs_an_update seeded _ 2 bearer_T (CompleteLevelIn.mk 5 5)
              eq_refl HF) as [Hguard Hview].
  split; [exact Hguard|].
  destruct (Hview (User.mk 1 "A100" "Ana" "Aguachica" "Masculino" "10" 2))
    as (m & view & Hm & Hr & Hlevel & Hmoney).
  - vm_compute. reflexivity.
  - reflexivity.
  - reflexivity.
  - vm_compute. discriminate.
  - intros m Hm. vm_compute in Hm. injection Hm as <-. vm_compute. reflexivity.
  - vm_compute in Hm. injection Hm as <-.
    exists view. split; [exact Hr|]. split; [exact Hlevel|exact Hmoney].
Defined.

(** ** Profile updates, further *)





(** X18: for an authenticated player and a patch whose [gender] is present
    and not one of the two values, the route rejects the body, and the
    handler, entered with a school that is absent or valid, raises HTTP
    400 "gender inválido"; in both cases nothing is committed, although
    the handler has by then assigned name and school in its unit of
    work. *)
Theorem invalid_gender_is_rejected (d : DB) (now : Z) (authorization : option string)
    (data : UpdateMeIn.t) (current : User.t) (v : string) :
  authenticates d now authorization current ->
  UpdateMeIn.gender data = Some v ->
  Py.contains GENDER_VALUES v = false ->
  PUT_me now authorization data d = (d, Raise RequestValidationError)
  /\ (field_ok SCHOOL_VALUES (UpdateMeIn.school data) = true ->
      get_db (update_me data current) d
      = (d, Raise (HTTPException 400 "gender inválido")))
  /\ get_user (fst (PUT_me now authorization data d)) (User.id current) = Some current.
Proof.
  intros Ha Hg Hv.
  assert (PUT_me now authorization data d = (d, Raise RequestValidationError)) as Hroute.
  { unfold PUT_me, get_db, bind.
    rewrite (@authenticated_run _ _ d now authorization _ data update_me current Ha).
    unfold UpdateMeIn.valid. rewrite Hg. unfold Gender. rewrite Hv.
    destruct (UpdateMeIn.school data) as [s|]; [destruct (School s)|]; reflexivity. }
  rewrite Hroute. cbn [fst]. split; [reflexivity|]. split.
  - intros Hs. unfold get_db.
    destruct (@update_me_invalid_gender d data current Hs) as [w Hw].
    + unfold field_ok. now rewrite Hg.
    + rewrite Hw. reflexivity.
  - exact (authenticates_row Ha).
Qed.

Lemma invalid_gender_is_rejected_witness :
  let data := UpdateMeIn.mk (Some "Anita") (Some "Aractaca") (Some "Otro") None None in
  authenticates signed_in 1 bearer_T ana_row
  /\ UpdateMeIn.gender data = Some "Otro"
  /\ Py.contains GENDER_VALUES "Otro" = false
  /\ PUT_me 1 bearer_T data signed_in = (signed_in, Raise RequestValidationError)
  /\ (field_ok SCHOOL_VALUES (UpdateMeIn.school data) = true ->
      get_db (update_me data ana_row) signed_in
      = (signed_in, Raise (HTTPException 400 "gender inválido")))
  /\ get_user (fst (PUT_me 1 bearer_T data signed_in)) (User.id ana_row) = Some ana_row.
Proof.
  cbv zeta.
  assert (authenticates signed_in 1 bearer_T ana_row) as Ha by (vm_compute; reflexivity).
  split; [exact Ha|]. split; [reflexivity|]. split; [reflexivity|].
  exact (@invalid_gender_is_rejected signed_in 1 bearer_T
           (UpdateMeIn.mk (Some "Anita") (Some "Aractaca") (Some "Otro") None None)
           ana_row "Otro" Ha eq_refl eq_refl).
Defined.

(** ** The enumeration checks of the handlers behind the schemas *)




(** ** What the schemas let through and the database refuses *)

Lemma not_int64 (z : Z) : 2 ^ 63 <= z -> int64 z = false.
Proof.
  intros H. apply not_true_is_false. intros E. apply int64_spec in E. lia.
Qed.

Lemma flush_level_overflow (d : DB) (current u : User.t) :
  users_pk d -> In current (users d) -> User.id u = User.id current ->
  User.level current < 2 ^ 63 -> 2 ^ 63 <= User.level u ->
  flush d (put_user u d) = Some OverflowError.
Proof.
  intros Hpk Hin Hid Hold Hnew. unfold flush.
  assert (forallb int64 (map User.level (level_written (users d) (users (put_user u d))))
          = false) as ->; [|reflexivity].
  apply not_true_is_false. intros E.
  assert (int64 (User.level u) = true) as Hfits.
  { apply (proj1 (forallb_forall _ _) E). apply in_map. unfold level_written.
    apply filter_In. split.
    - unfold put_user. cbn [users set_users]. apply in_map_iff. exists current.
      split; [|exact Hin]. now rewrite Hid, Z.eqb_refl.
    - apply negb_true_iff, not_true_is_false. intros F.
      apply existsb_exists in F as (o & Ho & F). apply andb_true_iff in F as [F1 F2].
      apply Z.eqb_eq in F1. apply Z.eqb_eq in F2.
      assert (o = current) as ->.
      { apply (same_key_same_row User.id (users d) o current Hpk Ho Hin). congruence. }
      lia. }
  rewrite (not_int64 Hnew) in Hfits. discriminate.
Qed.

(** X20: a complete-level call whose [time_spent] passes the schema but
    does not fit the database's 64-bit integers is refused at [commit]
    with [OverflowError] and nothing of it is stored: not the level, the
    balance, the time record or a reward; a profile update whose [level]
    passes the schema but does not fit is refused in the same way. *)
Theorem what_the_database_cannot_hold :
  (forall (d : DB) (now : Z) (authorization : option string)
          (data : CompleteLevelIn.t) (current : User.t) (m : Z),
      authenticates d now authorization current ->
      CompleteLevelIn.valid data = true ->
      1 <= User.level current ->
      Py.int (User.money current) = Some m ->
      Py.within_length (User.money current) ->
      Py.within_digits (m + CompleteLevelIn.coins_earned data) ->
      2 ^ 63 <= CompleteLevelIn.time_spent data ->
      POST_me_complete_level now authorization data d = (d, Raise OverflowError))
  /\
  (forall (d : DB) (now : Z) (authorization : option string)
          (data : UpdateMeIn.t) (current : User.t) (l : Z),
      authenticates d now authorization current ->
      users_pk d ->
      UpdateMeIn.valid data = true ->
      UpdateMeIn.level data = Some l ->
      User.level current < 2 ^ 63 ->
      2 ^ 63 <= l ->
      PUT_me now authorization data d = (d, Raise OverflowError)).
Proof.
  split.
  - intros d now authorization data current m Ha Hv Hl Hm _ _ Ht.
    unfold POST_me_complete_level, get_db, bind.
    rewrite (@authenticated_run _ _ d now authorization _ data complete_level current Ha),
      Hv, (complete_level_commits d data current Hm),
      (@flush_completed d data current m (get_user_In _ _ (authenticates_row Ha)) Hl),
      (not_int64 Ht).
    reflexivity.
  - intros d now authorization data current l Ha Hpk Hv Hlevel Hold Hnew.
    destruct (valid_fields_ok data Hv) as [Hs Hg].
    destruct (patched_fields data current) as (Pid & _ & _ & _ & _ & _ & Pl).
    rewrite Hlevel in Pl.
    assert (updated data current d = put_user (patched data current) d) as Hw.
    { unfold updated, empty_patch. rewrite Hlevel.
      destruct (UpdateMeIn.name data), (UpdateMeIn.school data),
        (UpdateMeIn.gender data), (UpdateMeIn.money data); reflexivity. }
    unfold PUT_me, get_db, bind.
    rewrite (@authenticated_run _ _ d now authorization _ data update_me current Ha),
      Hv, (update_me_exact d data current Hs Hg), Hw,
      (@flush_level_overflow d current (patched data current) Hpk
         (get_user_In _ _ (authenticates_row Ha)) Pid Hold).
    + reflexivity.
    + now rewrite Pl.
Qed.

Lemma what_the_database_cannot_hold_witness :
  let data := CompleteLevelIn.mk 10 (2 ^ 63) in
  let patch := UpdateMeIn.mk None None None (Some "7") (Some (2 ^ 63)) in
  authenticates signed_in 1 bearer_T ana_row
  /\ users_pk signed_in
  /\ CompleteLevelIn.valid data = true
  /\ UpdateMeIn.valid patch = true
  /\ Py.int (User.money ana_row) = Some 0
  /\ POST_me_complete_level 1 bearer_T data signed_in = (signed_in, Raise OverflowError)
  /\ PUT_me 1 bearer_T patch signed_in = (signed_in, Raise OverflowError).
Proof.
  cbv zeta.
  assert (authenticates signed_in 1 bearer_T ana_row) as Ha by (vm_compute; reflexivity).
  assert (users_pk signed_in) as Hpk.
  { unfold users_pk. vm_compute. repeat constructor. intros []. }
  split; [exact Ha|]. split; [exact Hpk|]. split; [reflexivity|].
  split; [reflexivity|]. split; [reflexivity|]. split.
  - apply (proj1 what_the_database_cannot_hold signed_in 1 bearer_T
             (CompleteLevelIn.mk 10 (2 ^ 63)) ana_row 0 Ha);
      first [ reflexivity | vm_compute; discriminate ].
  - apply (proj2 what_the_database_cannot_hold signed_in 1 bearer_T
             (UpdateMeIn.mk None None None (Some "7") (Some (2 ^ 63))) ana_row
             (2 ^ 63) Ha Hpk);
      first [ reflexivity | vm_compute; discriminate ].
Defined.
